(** * ShaderForge: the WebGL preview, the shader-source formatter and the
      translation client, embedded in Rocq.

    Source files covered:
    - [src/utils/webgl.ts]              (module [Webgl])
    - [src/components/ShaderPreview.tsx] (module [Preview])
    - [src/services/geminiService.ts]   (module [Gemini])
    - the application component [App]   (module [App])

    JavaScript strings are sequences of UTF-16 code units; numbers that
    the code treats as times are IEEE binary64 values ([PrimFloat]). *)

From Stdlib Require Import String Ascii NArith ZArith List Bool Lia.
From Stdlib Require Import Floats QArith Lqa.
From stdpp Require Import gmap list.

Local Open Scope list_scope.

(* ===================================================================== *)
(** * JavaScript strings *)
(* ===================================================================== *)

Module JS.

(** A string is the list of its UTF-16 code units. *)
Definition jsstring := list N.

(** An ASCII literal, one code unit per character. *)
Definition lit (s : string) : jsstring :=
  map N_of_ascii (list_ascii_of_string s).
Arguments lit s%_string.

(** The line feed that ends each line of a template literal. *)
Definition LF : jsstring := [10%N].

Definition jsstring_eqb (a b : jsstring) : bool :=
  bool_decide (a = b).

(** [pat] occurs at the very start of [s]. *)
Fixpoint startsWith (pat s : jsstring) : bool :=
  match pat, s with
  | [], _ => true
  | _ :: _, [] => false
  | p :: pat', c :: s' => N.eqb p c && startsWith pat' s'
  end.

(** [String.prototype.includes]: [pat] occurs somewhere in [s]. *)
Fixpoint includes (s pat : jsstring) : bool :=
  startsWith pat s ||
  match s with
  | [] => false
  | _ :: s' => includes s' pat
  end.

(** [String.prototype.endsWith]. *)
Definition endsWith (s suffix : jsstring) : bool :=
  startsWith (rev suffix) (rev s).

(** ECMAScript WhiteSpace and LineTerminator code points, the characters
    [String.prototype.trim] strips: TAB, LF, VT, FF, CR, SP, NBSP,
    U+1680, U+2000..U+200A, U+2028, U+2029, U+202F, U+205F, U+3000 and
    the byte-order mark U+FEFF. *)
Definition isWhiteSpace (c : N) : bool :=
  existsb (N.eqb c)
    [9; 10; 11; 12; 13; 32; 160; 5760; 8232; 8233; 8239; 8287; 12288; 65279]%N
  || (N.leb 8192 c && N.leb c 8202).

Fixpoint trimStart (s : jsstring) : jsstring :=
  match s with
  | [] => []
  | c :: s' => if isWhiteSpace c then trimStart s' else s
  end.

Definition trimEnd (s : jsstring) : jsstring :=
  rev (trimStart (rev s)).

(** [String.prototype.trim]. *)
Definition trim (s : jsstring) : jsstring :=
  trimEnd (trimStart s).

(** Truthiness of a string value: the empty string is falsy. *)
Definition truthy (s : jsstring) : bool :=
  match s with [] => false | _ :: _ => true end.

(** [v || d] for a value that is a string or [undefined] / [null]. *)
Definition or_default (v : option jsstring) (d : jsstring) : jsstring :=
  match v with
  | Some s => if truthy s then s else d
  | None => d
  end.

(** How a template literal renders a value that may be [undefined]. *)
Definition render (v : option jsstring) : jsstring :=
  match v with
  | Some s => s
  | None => lit "undefined"
  end.

End JS.

(* ===================================================================== *)
(** * A small state monad for the imperative code *)
(* ===================================================================== *)

Definition State (S A : Type) : Type := S -> A * S.

Definition ret {S A} (a : A) : State S A := fun s => (a, s).

Definition bind {S A B} (m : State S A) (k : A -> State S B) : State S B :=
  fun s => let (a, s') := m s in k a s'.

Definition modify {S} (f : S -> S) : State S unit := fun s => (tt, f s).

Definition gets {S A} (f : S -> A) : State S A := fun s => (f s, s).

Definition exec {S A} (m : State S A) (s : S) : S := snd (m s).

(** Running [m] keeps the property [P] of the state. *)
Definition preserves {S A} (P : S -> Prop) (m : State S A) : Prop :=
  forall s, P s -> P (snd (m s)).

Declare Scope js_scope.
Delimit Scope js_scope with js.
Notation "x <- m ;; k" := (bind m (fun x => k))
  (at level 100, m at next level, right associativity) : js_scope.
Notation "m ;;; k" := (bind m (fun _ => k))
  (at level 100, right associativity) : js_scope.

(* ===================================================================== *)
(** * The WebGL2 rendering context *)
(* ===================================================================== *)

Module GL.
Import JS.
Local Open Scope js_scope.

Inductive ShaderType := VERTEX_SHADER | FRAGMENT_SHADER.

Inductive DrawMode := POINTS | LINES | TRIANGLES | TRIANGLE_STRIP | TRIANGLE_FAN.

(** One vertex attribute of a vertex array object, as left by
    [vertexAttribPointer(index, size, FLOAT, false, 0, 0)]. *)
Record AttribPointer := {
  ap_index : Z;
  ap_buffer : option nat;
  ap_size : Z
}.

(** The objects a context hands out.  A handle is the key of the object
    in [objects]. *)
Inductive Obj :=
| OShader (ty : ShaderType) (source : jsstring) (compiled : bool)
| OProgram (attached : list nat) (linked : bool)
| OBuffer (data : list Z)
| OVertexArray (enabled : list Z) (pointers : list AttribPointer).

(** Every command issued on the context, in order of issue. *)
Inductive Call :=
| CreateShader (ty : ShaderType)
| ShaderSource (sh : nat) (source : jsstring)
| CompileShader (sh : nat)
| DeleteShader (sh : option nat)
| CreateProgram
| AttachShader (p sh : nat)
| LinkProgram (p : nat)
| DeleteProgram (p : nat)
| CreateBuffer
| BindArrayBuffer (b : option nat)
| BufferData (data : list Z)
| CreateVertexArray
| BindVertexArray (v : option nat)
| EnableVertexAttribArray (index : Z)
| VertexAttribPointer (index size : Z)
| UseProgram (p : nat)
| Uniform1f (loc : nat) (x : float)
| Uniform2f (loc : nat) (x y : Z)
| DrawArrays (mode : DrawMode) (first count : Z)
| Viewport (x y w h : Z).

(** What the graphics driver decides: whether a [create*] call yields an
    object or [null], whether a source compiles, whether a set of stages
    links, the diagnostic logs, and the locations of attributes and
    uniforms.  The code under verification is parametric in it. *)
Record Driver := {
  allocates : nat -> bool;
  compiles : ShaderType -> jsstring -> bool;
  shaderInfoLog : ShaderType -> jsstring -> option jsstring;
  links : list (ShaderType * jsstring) -> bool;
  programInfoLog : list (ShaderType * jsstring) -> option jsstring;
  attribLocation : list (ShaderType * jsstring) -> jsstring -> Z;
  uniformLocation : list (ShaderType * jsstring) -> jsstring -> option nat
}.

(** The state of one context.  [objects] holds every object that was
    created and has not been passed to a [delete*] call since. *)
Record Context := {
  created : nat;
  objects : gmap nat Obj;
  arrayBuffer : option nat;
  vertexArray : option nat;
  calls : list Call
}.

Definition fresh : Context :=
  {| created := 0; objects := ∅; arrayBuffer := None; vertexArray := None;
     calls := [] |}.

Definition with_objects (f : gmap nat Obj -> gmap nat Obj) (c : Context) : Context :=
  {| created := created c; objects := f (objects c);
     arrayBuffer := arrayBuffer c; vertexArray := vertexArray c;
     calls := calls c |}.

Definition with_arrayBuffer (b : option nat) (c : Context) : Context :=
  {| created := created c; objects := objects c;
     arrayBuffer := b; vertexArray := vertexArray c; calls := calls c |}.

Definition with_vertexArray (v : option nat) (c : Context) : Context :=
  {| created := created c; objects := objects c;
     arrayBuffer := arrayBuffer c; vertexArray := v; calls := calls c |}.

Definition log_call (k : Call) (c : Context) : Context :=
  {| created := created c; objects := objects c;
     arrayBuffer := arrayBuffer c; vertexArray := vertexArray c;
     calls := calls c ++ [k] |}.

Definition GLm (A : Type) : Type := State Context A.

Section Commands.
Variable d : Driver.

(** A [create*] call: the driver either hands out the next handle or
    returns [null]. *)
Definition create (k : Call) (o : Obj) : GLm (option nat) :=
  fun c =>
    let n := created c in
    let c1 := log_call k c in
    if allocates d n then
      (Some n, {| created := S n; objects := <[n := o]> (objects c1);
                  arrayBuffer := arrayBuffer c1; vertexArray := vertexArray c1;
                  calls := calls c1 |})
    else
      (None, {| created := S n; objects := objects c1;
                arrayBuffer := arrayBuffer c1; vertexArray := vertexArray c1;
                calls := calls c1 |}).

Definition createShader (ty : ShaderType) : GLm (option nat) :=
  create (CreateShader ty) (OShader ty [] false).

Definition shaderSource (sh : nat) (source : jsstring) : GLm unit :=
  modify (fun c =>
    with_objects (fun os =>
      match os !! sh with
      | Some (OShader ty _ _) => <[sh := OShader ty source false]> os
      | _ => os
      end) (log_call (ShaderSource sh source) c)).

Definition compileShader (sh : nat) : GLm unit :=
  modify (fun c =>
    with_objects (fun os =>
      match os !! sh with
      | Some (OShader ty src _) => <[sh := OShader ty src (compiles d ty src)]> os
      | _ => os
      end) (log_call (CompileShader sh) c)).

(** [getShaderParameter(shader, COMPILE_STATUS)]. *)
Definition getShaderCompileStatus (sh : nat) : GLm bool :=
  gets (fun c =>
    match objects c !! sh with
    | Some (OShader _ _ ok) => ok
    | _ => false
    end).

Definition getShaderInfoLog (sh : nat) : GLm (option jsstring) :=
  gets (fun c =>
    match objects c !! sh with
    | Some (OShader ty src _) => shaderInfoLog d ty src
    | _ => None
    end).

(** [deleteShader] / [deleteProgram] accept [null] and then do nothing. *)
Definition deleteShader (sh : option nat) : GLm unit :=
  modify (fun c =>
    with_objects (fun os =>
      match sh with Some h => delete h os | None => os end)
      (log_call (DeleteShader sh) c)).

Definition createProgram : GLm (option nat) :=
  create CreateProgram (OProgram [] false).

Definition attachShader (p sh : nat) : GLm unit :=
  modify (fun c =>
    with_objects (fun os =>
      match os !! p with
      | Some (OProgram att ok) => <[p := OProgram (att ++ [sh]) ok]> os
      | _ => os
      end) (log_call (AttachShader p sh) c)).

(** The stages attached to program [p], with their sources. *)
Definition stages (os : gmap nat Obj) (p : nat) : list (ShaderType * jsstring) :=
  match os !! p with
  | Some (OProgram att _) =>
      omap (fun sh =>
        match os !! sh with
        | Some (OShader ty src _) => Some (ty, src)
        | _ => None
        end) att
  | _ => []
  end.

Definition linkProgram (p : nat) : GLm unit :=
  modify (fun c =>
    with_objects (fun os =>
      match os !! p with
      | Some (OProgram att _) => <[p := OProgram att (links d (stages os p))]> os
      | _ => os
      end) (log_call (LinkProgram p) c)).

(** [getProgramParameter(program, LINK_STATUS)]. *)
Definition getProgramLinkStatus (p : nat) : GLm bool :=
  gets (fun c =>
    match objects c !! p with
    | Some (OProgram _ ok) => ok
    | _ => false
    end).

Definition getProgramInfoLog (p : nat) : GLm (option jsstring) :=
  gets (fun c => programInfoLog d (stages (objects c) p)).

Definition deleteProgram (p : nat) : GLm unit :=
  modify (fun c =>
    with_objects (delete p) (log_call (DeleteProgram p) c)).

Definition getAttribLocation (p : nat) (name : jsstring) : GLm Z :=
  gets (fun c => attribLocation d (stages (objects c) p) name).

Definition getUniformLocation (p : nat) (name : jsstring) : GLm (option nat) :=
  gets (fun c => uniformLocation d (stages (objects c) p) name).

Definition createBuffer : GLm (option nat) :=
  create CreateBuffer (OBuffer []).

(** [bindBuffer(ARRAY_BUFFER, buffer)]. *)
Definition bindArrayBuffer (b : option nat) : GLm unit :=
  modify (fun c => with_arrayBuffer b (log_call (BindArrayBuffer b) c)).

(** [bufferData(ARRAY_BUFFER, data, STATIC_DRAW)]: fills the bound buffer. *)
Definition bufferData (data : list Z) : GLm unit :=
  modify (fun c =>
    with_objects (fun os =>
      match arrayBuffer c with
      | Some b =>
          match os !! b with
          | Some (OBuffer _) => <[b := OBuffer data]> os
          | _ => os
          end
      | None => os
      end) (log_call (BufferData data) c)).

Definition createVertexArray : GLm (option nat) :=
  create CreateVertexArray (OVertexArray [] []).

Definition bindVertexArray (v : option nat) : GLm unit :=
  modify (fun c => with_vertexArray v (log_call (BindVertexArray v) c)).

Definition enableVertexAttribArray (index : Z) : GLm unit :=
  modify (fun c =>
    with_objects (fun os =>
      match vertexArray c with
      | Some v =>
          match os !! v with
          | Some (OVertexArray en ps) => <[v := OVertexArray (index :: en) ps]> os
          | _ => os
          end
      | None => os
      end) (log_call (EnableVertexAttribArray index) c)).

(** [vertexAttribPointer(index, size, FLOAT, false, 0, 0)]: the attribute
    of the bound vertex array now reads from the bound array buffer. *)
Definition vertexAttribPointer (index size : Z) : GLm unit :=
  modify (fun c =>
    with_objects (fun os =>
      match vertexArray c with
      | Some v =>
          match os !! v with
          | Some (OVertexArray en ps) =>
              <[v := OVertexArray en
                       ({| ap_index := index; ap_buffer := arrayBuffer c;
                           ap_size := size |} :: ps)]> os
          | _ => os
          end
      | None => os
      end) (log_call (VertexAttribPointer index size) c)).

Definition useProgram (p : nat) : GLm unit :=
  modify (log_call (UseProgram p)).

Definition uniform1f (loc : nat) (x : float) : GLm unit :=
  modify (log_call (Uniform1f loc x)).

Definition uniform2f (loc : nat) (x y : Z) : GLm unit :=
  modify (log_call (Uniform2f loc x y)).

Definition drawArrays (mode : DrawMode) (first count : Z) : GLm unit :=
  modify (log_call (DrawArrays mode first count)).

Definition viewport (x y w h : Z) : GLm unit :=
  modify (log_call (Viewport x y w h)).

End Commands.

(** Every object of the context was handed out by an earlier [create*]
    call: its handle is below the count of those calls. *)
Definition wellFormed (c : Context) : Prop :=
  forall h, is_Some (objects c !! h) -> h < created c.

End GL.

(* ===================================================================== *)
(** * [src/utils/webgl.ts] *)
(* ===================================================================== *)

Module Webgl.
Import JS.
Local Open Scope js_scope.

(** What the helpers act on: the context and the developer console
    ([console.warn] receives a string or [null]). *)
Record Runtime := {
  ctx : GL.Context;
  console : list (option jsstring)
}.

Definition boot : Runtime := {| ctx := GL.fresh; console := [] |}.

(** A context command, run on the runtime's context. *)
Definition gl {A} (m : GL.GLm A) : State Runtime A :=
  fun r => let (a, c) := m (ctx r) in (a, {| ctx := c; console := console r |}).

Definition console_warn (v : option jsstring) : State Runtime unit :=
  modify (fun r => {| ctx := ctx r; console := console r ++ [v] |}).

Definition DEFAULT_VERTEX_SHADER : jsstring :=
  lit "#version 300 es" ++ LF ++
  lit "in vec4 a_position;" ++ LF ++
  lit "void main() {" ++ LF ++
  lit "  gl_Position = a_position;" ++ LF ++
  lit "}" ++ LF.

(** [createShader(gl, type, source)]: the compiled shader, or [null]. *)
Definition createShader (d : GL.Driver) (type : GL.ShaderType) (source : jsstring)
  : State Runtime (option nat) :=
  shader <- gl (GL.createShader d type) ;;
  match shader with
  | None => ret None
  | Some sh =>
      gl (GL.shaderSource sh source) ;;;
      gl (GL.compileShader d sh) ;;;
      success <- gl (GL.getShaderCompileStatus sh) ;;
      if success then ret (Some sh)
      else
        log <- gl (GL.getShaderInfoLog d sh) ;;
        console_warn log ;;;
        gl (GL.deleteShader (Some sh)) ;;;
        ret None
  end.

(** [createProgram(gl, vertexShader, fragmentShader)]: the linked program,
    or [null]. *)
Definition createProgram (d : GL.Driver) (vertexShader fragmentShader : nat)
  : State Runtime (option nat) :=
  program <- gl (GL.createProgram d) ;;
  match program with
  | None => ret None
  | Some p =>
      gl (GL.attachShader p vertexShader) ;;;
      gl (GL.attachShader p fragmentShader) ;;;
      gl (GL.linkProgram d p) ;;;
      success <- gl (GL.getProgramLinkStatus p) ;;
      if success then ret (Some p)
      else
        log <- gl (GL.getProgramInfoLog d p) ;;
        console_warn log ;;;
        gl (GL.deleteProgram p) ;;;
        ret None
  end.

(** The text the template literal puts before [userCode]. *)
Definition PREAMBLE : jsstring :=
  lit "#version 300 es" ++ LF ++
  lit "precision highp float;" ++ LF ++
  LF ++
  lit "uniform vec2 u_resolution;" ++ LF ++
  lit "uniform float u_time;" ++ LF ++
  lit "uniform vec2 u_mouse;" ++ LF ++
  LF ++
  lit "out vec4 fragColor;" ++ LF ++
  LF.

(** The text the template literal puts after [userCode]. *)
Definition FALLBACK_MAIN : jsstring :=
  LF ++
  LF ++
  lit "// Fallback main if user just wrote functions but no main" ++ LF ++
  lit "// This is a naive heuristic" ++ LF ++
  lit "void main() {" ++ LF ++
  lit "    vec2 uv = gl_FragCoord.xy / u_resolution.xy;" ++ LF ++
  lit "    // Try to call user mainImage if it exists (Shadertoy style)" ++ LF ++
  lit "    // else default main" ++ LF ++
  lit "    // This part is tricky without parsing. " ++ LF ++
  lit "    // We expect the user to write a 'void main()' for standard GLSL output." ++ LF ++
  lit "    // If they didn't, we can't really guess." ++ LF ++
  lit "    " ++ LF ++
  lit "    // However, if the transpiler output standard GLSL, it usually includes main()." ++ LF ++
  lit "}" ++ LF.

Definition formatForPreview (userCode : jsstring) : jsstring :=
  if includes userCode (lit "#version") then userCode
  else PREAMBLE ++ userCode ++ FALLBACK_MAIN.

(** The objects of the runtime's context have handles it handed out. *)
Definition wfRuntime (r : Runtime) : Prop := GL.wellFormed (ctx r).

End Webgl.

(* ===================================================================== *)
(** * [src/components/ShaderPreview.tsx] *)
(* ===================================================================== *)

Module Preview.
Import JS.
Local Open Scope js_scope.

(** The browser outside the component: the driver behind the canvas,
    whether [getContext('webgl2')] yields a context, and the size in
    device pixels of a CSS length (the product with
    [window.devicePixelRatio] as stored in [canvas.width]). *)
Record Browser := {
  driver : GL.Driver;
  webgl2 : bool;
  devicePixels : Z -> Z
}.

Record Canvas := {
  width : Z;
  height : Z;
  clientWidth : Z;
  clientHeight : Z
}.

(** What the closure [render] captures from the effect that made it. *)
Record RenderClosure := {
  r_program : nat;
  r_vao : option nat;
  r_timeLocation : option nat;
  r_resolutionLocation : option nat;
  r_startTime : float
}.

(** Everything the component reads or writes.  [listeners] are the
    [resize] closures registered on [window], each named by the number
    of the effect run that made it; [rafPending] are the frame callbacks
    requested and neither run nor cancelled yet. *)
Record World := {
  runtime : Webgl.Runtime;
  canvas : Canvas;
  canvasRef : bool;
  listeners : list nat;
  closures : nat;
  rafCounter : nat;
  rafPending : list (nat * RenderClosure);
  requestRef : nat;
  error : option jsstring;
  compiled : bool
}.

Definition mount (cv : Canvas) : World :=
  {| runtime := Webgl.boot; canvas := cv; canvasRef := true;
     listeners := []; closures := 0; rafCounter := 0; rafPending := [];
     requestRef := 0; error := None; compiled := false |}.

Definition with_runtime (f : Webgl.Runtime -> Webgl.Runtime) (w : World) : World :=
  {| runtime := f (runtime w); canvas := canvas w; canvasRef := canvasRef w;
     listeners := listeners w; closures := closures w;
     rafCounter := rafCounter w; rafPending := rafPending w;
     requestRef := requestRef w; error := error w; compiled := compiled w |}.

Definition with_canvas (cv : Canvas) (w : World) : World :=
  {| runtime := runtime w; canvas := cv; canvasRef := canvasRef w;
     listeners := listeners w; closures := closures w;
     rafCounter := rafCounter w; rafPending := rafPending w;
     requestRef := requestRef w; error := error w; compiled := compiled w |}.

Definition with_listeners (ls : list nat) (n : nat) (w : World) : World :=
  {| runtime := runtime w; canvas := canvas w; canvasRef := canvasRef w;
     listeners := ls; closures := n;
     rafCounter := rafCounter w; rafPending := rafPending w;
     requestRef := requestRef w; error := error w; compiled := compiled w |}.

Definition with_raf (n : nat) (ps : list (nat * RenderClosure)) (w : World) : World :=
  {| runtime := runtime w; canvas := canvas w; canvasRef := canvasRef w;
     listeners := listeners w; closures := closures w;
     rafCounter := n; rafPending := ps;
     requestRef := requestRef w; error := error w; compiled := compiled w |}.

Definition with_requestRef (id : nat) (w : World) : World :=
  {| runtime := runtime w; canvas := canvas w; canvasRef := canvasRef w;
     listeners := listeners w; closures := closures w;
     rafCounter := rafCounter w; rafPending := rafPending w;
     requestRef := id; error := error w; compiled := compiled w |}.

Definition with_error (e : option jsstring) (w : World) : World :=
  {| runtime := runtime w; canvas := canvas w; canvasRef := canvasRef w;
     listeners := listeners w; closures := closures w;
     rafCounter := rafCounter w; rafPending := rafPending w;
     requestRef := requestRef w; error := e; compiled := compiled w |}.

Definition with_compiled (b : bool) (w : World) : World :=
  {| runtime := runtime w; canvas := canvas w; canvasRef := canvasRef w;
     listeners := listeners w; closures := closures w;
     rafCounter := rafCounter w; rafPending := rafPending w;
     requestRef := requestRef w; error := error w; compiled := b |}.

(** A helper of [webgl.ts], or a bare context command, run in the world. *)
Definition rt {A} (m : State Webgl.Runtime A) : State World A :=
  fun w => let (a, r) := m (runtime w) in (a, with_runtime (fun _ => r) w).

Definition gl {A} (m : GL.GLm A) : State World A := rt (Webgl.gl m).

Definition setError (e : option jsstring) : State World unit := modify (with_error e).
Definition setCompiled (b : bool) : State World unit := modify (with_compiled b).

(** [window.addEventListener('resize', resize)] with a fresh closure. *)
Definition addResizeListener : State World nat :=
  fun w => (closures w, with_listeners (listeners w ++ [closures w]) (S (closures w)) w).

Definition removeResizeListener (l : nat) : State World unit :=
  modify (fun w =>
    with_listeners (List.filter (fun x => negb (Nat.eqb x l)) (listeners w)) (closures w) w).

(** [requestAnimationFrame(render)]: a fresh non-zero identifier. *)
Definition requestAnimationFrame (cb : RenderClosure) : State World nat :=
  fun w =>
    let id := S (rafCounter w) in
    (id, with_raf id (rafPending w ++ [(id, cb)]) w).

Definition cancelAnimationFrame (id : nat) : State World unit :=
  modify (fun w =>
    with_raf (rafCounter w)
      (List.filter (fun e => negb (Nat.eqb (fst e) id)) (rafPending w)) w).

(** The closure [resize] of the effect. *)
Definition resize (b : Browser) : State World unit :=
  modify (fun w =>
    let cv := canvas w in
    with_canvas {| width := devicePixels b (clientWidth cv);
                   height := devicePixels b (clientHeight cv);
                   clientWidth := clientWidth cv;
                   clientHeight := clientHeight cv |} w) ;;;
  cv <- gets canvas ;;
  gl (GL.viewport 0 0 (width cv) (height cv)).

(** The array literal [positions]. *)
Definition positions : list Z :=
  [ -1; -1;
     1; -1;
    -1;  1;
    -1;  1;
     1; -1;
     1;  1 ]%Z.

(** The literal [0.001] is the binary64 value nearest to one thousandth. *)
Definition milli : float := 0x1.0624dd2f1a9fcp-10%float.

(** The closure [render], called by the browser with the frame time.
    Its guard [if (!gl) return] never fires: [gl] is the context the
    effect already checked. *)
Definition render (cb : RenderClosure) (time : float) : State World unit :=
  gl (GL.useProgram (r_program cb)) ;;;
  gl (GL.bindVertexArray (r_vao cb)) ;;;
  match r_timeLocation cb with
  | Some loc => gl (GL.uniform1f loc ((time - r_startTime cb) * milli)%float)
  | None => ret tt
  end ;;;
  match r_resolutionLocation cb with
  | Some loc =>
      cv <- gets canvas ;;
      gl (GL.uniform2f loc (width cv) (height cv))
  | None => ret tt
  end ;;;
  gl (GL.drawArrays GL.TRIANGLES 0 6) ;;;
  id <- requestAnimationFrame cb ;;
  modify (with_requestRef id).

(** The three cleanup closures an effect run can return: the one of the
    two failure exits (they have the same body) and the one of the
    success exit. *)
Inductive Cleanup :=
| CleanupFailed (resizeListener : nat)
| CleanupLive (resizeListener : nat) (program vs fs : nat).

Definition runCleanup (c : Cleanup) : State World unit :=
  match c with
  | CleanupFailed l =>
      removeResizeListener l ;;;
      id <- gets requestRef ;;
      cancelAnimationFrame id
  | CleanupLive l program vs fs =>
      removeResizeListener l ;;;
      id <- gets requestRef ;;
      cancelAnimationFrame id ;;;
      gl (GL.deleteProgram program) ;;;
      gl (GL.deleteShader (Some vs)) ;;;
      gl (GL.deleteShader (Some fs))
  end.

(** The exit taken when a stage did not compile. *)
Definition compileFailed (b : Browser) (fragmentCode : jsstring)
    (fs : option nat) (l : nat) : State World (option Cleanup) :=
  setError (Some (lit "Shader compilation failed. Check the logs below or code syntax.")) ;;;
  match fs with
  | None =>
      tempFs <- gl (GL.createShader (driver b) GL.FRAGMENT_SHADER) ;;
      match tempFs with
      | Some t =>
          gl (GL.shaderSource t fragmentCode) ;;;
          gl (GL.compileShader (driver b) t) ;;;
          log <- gl (GL.getShaderInfoLog (driver b) t) ;;
          setError log
      | None => ret tt
      end
  | Some _ => ret tt
  end ;;;
  setCompiled false ;;;
  ret (Some (CleanupFailed l)).

(** The exit taken when the program did not link. *)
Definition linkFailed (l : nat) : State World (option Cleanup) :=
  setError (Some (lit "Program linking failed.")) ;;;
  setCompiled false ;;;
  ret (Some (CleanupFailed l)).

(** The rest of the effect once the program is linked; [now] is the
    value of [performance.now()]. *)
Definition goLive (b : Browser) (now : float) (l program vs fs : nat)
  : State World (option Cleanup) :=
  setError None ;;;
  setCompiled true ;;;
  positionAttributeLocation <- gl (GL.getAttribLocation (driver b) program (lit "a_position")) ;;
  positionBuffer <- gl (GL.createBuffer (driver b)) ;;
  gl (GL.bindArrayBuffer positionBuffer) ;;;
  gl (GL.bufferData positions) ;;;
  vao <- gl (GL.createVertexArray (driver b)) ;;
  gl (GL.bindVertexArray vao) ;;;
  gl (GL.enableVertexAttribArray positionAttributeLocation) ;;;
  gl (GL.vertexAttribPointer positionAttributeLocation 2) ;;;
  timeLocation <- gl (GL.getUniformLocation (driver b) program (lit "u_time")) ;;
  resolutionLocation <- gl (GL.getUniformLocation (driver b) program (lit "u_resolution")) ;;
  mouseLocation <- gl (GL.getUniformLocation (driver b) program (lit "u_mouse")) ;;
  let startTime := now in
  let cb := {| r_program := program; r_vao := vao;
               r_timeLocation := timeLocation;
               r_resolutionLocation := resolutionLocation;
               r_startTime := startTime |} in
  id <- requestAnimationFrame cb ;;
  modify (with_requestRef id) ;;;
  ret (Some (CleanupLive l program vs fs)).

(** The body of [useEffect]: what it does to the world and the cleanup
    closure it returns, if any. *)
Definition effect (b : Browser) (fragmentCode : jsstring) (isActive : bool)
    (now : float) : State World (option Cleanup) :=
  attached <- gets canvasRef ;;
  if negb isActive || negb attached then ret None
  else if negb (webgl2 b) then
    setError (Some (lit "WebGL2 not supported")) ;;;
    ret None
  else
    resize b ;;;
    l <- addResizeListener ;;
    vs <- rt (Webgl.createShader (driver b) GL.VERTEX_SHADER Webgl.DEFAULT_VERTEX_SHADER) ;;
    fs <- rt (Webgl.createShader (driver b) GL.FRAGMENT_SHADER fragmentCode) ;;
    match vs, fs with
    | Some v, Some f =>
        program <- rt (Webgl.createProgram (driver b) v f) ;;
        match program with
        | None => linkFailed l
        | Some p => goLive b now l p v f
        end
    | _, _ => compileFailed b fragmentCode fs l
    end.

(** ** React's handling of the effect *)

(** A mounted component: the dependency values [fragmentCode, isActive]
    of the last effect run, and the cleanup that run returned. *)
Record Instance := {
  deps : jsstring * bool;
  cleanup : option Cleanup
}.

Definition runCleanupOpt (c : option Cleanup) : State World unit :=
  match c with
  | Some k => runCleanup k
  | None => ret tt
  end.

(** First render: the effect runs. *)
Definition mounted (b : Browser) (fragmentCode : jsstring) (isActive : bool)
    (now : float) : State World Instance :=
  c <- effect b fragmentCode isActive now ;;
  ret {| deps := (fragmentCode, isActive); cleanup := c |}.

(** A run of the effect after the cleanup [c] of the previous run, if
    there was one. *)
Definition activate (b : Browser) (fragmentCode : jsstring) (isActive : bool)
    (now : float) (c : option Cleanup) : State World Instance :=
  runCleanupOpt c ;;;
  mounted b fragmentCode isActive now.

(** A later render: when a dependency changed, the previous cleanup runs
    and then the effect; otherwise nothing happens. *)
Definition rerender (b : Browser) (fragmentCode : jsstring) (isActive : bool)
    (now : float) (i : Instance) : State World Instance :=
  if bool_decide (deps i = (fragmentCode, isActive)) then ret i
  else activate b fragmentCode isActive now (cleanup i).

Definition unmount (i : Instance) : State World unit :=
  runCleanupOpt (cleanup i).

(** The browser delivers a frame at time [time]: the callbacks pending at
    that moment are taken off the list and called in order. *)
Definition frame (time : float) : State World unit :=
  fun w =>
    let pending := rafPending w in
    (tt, fold_left (fun acc e => exec (render (snd e) time) acc) pending
           (with_raf (rafCounter w) [] w)).

Fixpoint frames (times : list float) : State World unit :=
  match times with
  | [] => ret tt
  | t :: ts => frame t ;;; frames ts
  end.

(** The handles the context still holds. *)
Definition liveObjects (w : World) : gmap nat GL.Obj :=
  GL.objects (Webgl.ctx (runtime w)).

Definition glCalls (w : World) : list GL.Call :=
  GL.calls (Webgl.ctx (runtime w)).

(** The commands one call of [render] issues, read off its body: the
    uniform commands are there when the program has the uniform. *)
Definition renderCalls (cb : RenderClosure) (time : float) (cv : Canvas)
  : list GL.Call :=
  [GL.UseProgram (r_program cb); GL.BindVertexArray (r_vao cb)] ++
  match r_timeLocation cb with
  | Some loc => [GL.Uniform1f loc ((time - r_startTime cb) * milli)%float]
  | None => []
  end ++
  match r_resolutionLocation cb with
  | Some loc => [GL.Uniform2f loc (width cv) (height cv)]
  | None => []
  end ++
  [GL.DrawArrays GL.TRIANGLES 0 6].

Definition isDraw (k : GL.Call) : bool :=
  match k with GL.DrawArrays _ _ _ => true | _ => false end.

(** The values passed to [uniform1f] by a list of commands. *)
Definition uniform1fValues (ks : list GL.Call) : list (nat * float) :=
  omap (fun k => match k with GL.Uniform1f loc x => Some (loc, x) | _ => None end) ks.

(** ** The geometry of the quad *)

(** The vertices a buffer of two-component positions holds. *)
Fixpoint vertices (data : list Z) : list (Z * Z) :=
  match data with
  | x :: y :: rest => (x, y) :: vertices rest
  | _ => []
  end.





(** The vertex array a live program draws from: attribute [index] reads
    two components per vertex from a buffer holding [positions]. *)
Definition quadBound (w : World) (vao : option nat) : Prop :=
  forall va, vao = Some va ->
    exists index buffer,
      liveObjects w !! va =
        Some (GL.OVertexArray [index]
                [{| GL.ap_index := index; GL.ap_buffer := buffer; GL.ap_size := 2 |}]) /\
      forall bf, buffer = Some bf -> liveObjects w !! bf = Some (GL.OBuffer positions).

(** The stages of the program the effect links: the vertex shader of the
    preview and the fragment source given. *)
Definition previewStages (src : jsstring) : list (GL.ShaderType * jsstring) :=
  [(GL.VERTEX_SHADER, Webgl.DEFAULT_VERTEX_SHADER); (GL.FRAGMENT_SHADER, src)].

(** What the effect does before it compiles: [resize] and the listener. *)
Definition prepared (b : Browser) (w : World) : World :=
  snd (addResizeListener (exec (resize b) w)).

(** ** The life of a mounted component *)

(** What can happen to a mounted component: its parent renders it with
    new props (at that moment [performance.now()] is [now]), the browser
    delivers an animation frame, or the window is resized and the canvas
    gets a new CSS size. *)
Inductive Event :=
| Rendered (fragmentCode : jsstring) (isActive : bool) (now : float)
| FrameDue (time : float)
| Resized (clientWidth clientHeight : Z).

(** The window dispatches [resize]: every registered listener runs the
    closure [resize] on the canvas it captured. *)
Definition windowResized (b : Browser) (cw ch : Z) : State World unit :=
  fun w =>
    let w1 := with_canvas {| width := width (canvas w); height := height (canvas w);
                             clientWidth := cw; clientHeight := ch |} w in
    (tt, fold_left (fun acc _ => exec (resize b) acc) (listeners w1) w1).

Definition step (b : Browser) (e : Event) (iw : Instance * World) : Instance * World :=
  match e with
  | Rendered src act now => rerender b src act now (fst iw) (snd iw)
  | FrameDue t => (fst iw, exec (frame t) (snd iw))
  | Resized cw ch => (fst iw, exec (windowResized b cw ch) (snd iw))
  end.

Definition run (b : Browser) (es : list Event) (iw : Instance * World)
  : Instance * World :=
  fold_left (fun acc e => step b e acc) es iw.

(** The listener a cleanup closure removes. *)
Definition cleanupListener (c : Cleanup) : nat :=
  match c with
  | CleanupFailed l => l
  | CleanupLive l _ _ _ => l
  end.

Definition isLive (c : option Cleanup) : bool :=
  match c with
  | Some (CleanupLive _ _ _ _) => true
  | _ => false
  end.

(** What holds of every component the events above can produce. *)
Record Healthy (b : Browser) (i : Instance) (w : World) : Prop := {
  h_pending :
    if isLive (cleanup i)
    then exists cb, rafPending w = [(requestRef w, cb)] /\ compiled w = true
    else rafPending w = [];
  h_listeners :
    listeners w = match cleanup i with Some c => [cleanupListener c] | None => [] end;
  h_closures : Forall (fun l => l < closures w) (listeners w);
  h_counter : requestRef w <= rafCounter w;
  h_error : compiled w = true -> error w = None;
  h_failed :
    match cleanup i with
    | Some (CleanupFailed _) => compiled w = false
    | _ => True
    end;
  h_context : webgl2 b = false -> compiled w = false /\ glCalls w = [] /\ cleanup i = None;
  h_inactive : snd (deps i) = false -> cleanup i = None;
  h_objects : GL.wellFormed (Webgl.ctx (runtime w))
}.

(** What a run of the effect with the cleanup [c] as its result does to
    the parts of the world other than the objects of the context. *)
Definition effectOutcome (b : Browser) (isActive : bool) (w : World)
    (c : option Cleanup) (w' : World) : Prop :=
  match c with
  | None =>
      (isActive = false \/ canvasRef w = false \/ webgl2 b = false) /\
      listeners w' = listeners w /\ closures w' = closures w /\
      rafPending w' = rafPending w /\ rafCounter w' = rafCounter w /\
      requestRef w' = requestRef w /\ compiled w' = compiled w /\
      glCalls w' = glCalls w /\
      (error w' = error w \/ webgl2 b = false)
  | Some k =>
      isActive = true /\ webgl2 b = true /\
      cleanupListener k = closures w /\
      listeners w' = listeners w ++ [closures w] /\
      closures w' = S (closures w) /\
      match k with
      | CleanupFailed _ =>
          compiled w' = false /\
          rafPending w' = rafPending w /\ rafCounter w' = rafCounter w /\
          requestRef w' = requestRef w
      | CleanupLive _ _ _ _ =>
          compiled w' = true /\ error w' = None /\
          requestRef w' = S (rafCounter w) /\ rafCounter w' = S (rafCounter w) /\
          exists cb, rafPending w' = rafPending w ++ [(requestRef w', cb)]
      end
  end.

(** The objects of the world's context have handles it handed out. *)
Definition wfWorld (w : World) : Prop := GL.wellFormed (Webgl.ctx (runtime w)).

(** A world in which nothing is scheduled or registered: a fresh mount,
    or any world of a mounted component after its cleanup. *)
Definition quiet (b : Browser) (w : World) : Prop :=
  rafPending w = [] /\ listeners w = [] /\
  requestRef w <= rafCounter w /\
  (compiled w = true -> error w = None) /\
  (webgl2 b = false -> compiled w = false /\ glCalls w = []) /\
  wfWorld w.

(** The only program of the context, if any, is the one the cleanup
    closure of the instance deletes. *)
Definition onlyLiveProgram (i : Instance) (w : World) : Prop :=
  forall h att ok,
    liveObjects w !! h = Some (GL.OProgram att ok) ->
    exists l v f, cleanup i = Some (CleanupLive l h v f).

(** ** What the component renders *)

(** The three conditional parts of the JSX: the placeholder under
    [!compiled], the overlay under [error] (a non-empty string), and the
    badge under [compiled]. *)
Record View := {
  placeholder : bool;
  errorOverlay : option jsstring;
  liveBadge : bool
}.

Definition view (w : World) : View :=
  {| placeholder := negb (compiled w);
     errorOverlay :=
       match error w with
       | Some e => if truthy e then Some e else None
       | None => None
       end;
     liveBadge := compiled w |}.

End Preview.

(* ===================================================================== *)
(** * [src/services/geminiService.ts] *)
(* ===================================================================== *)

Module Gemini.
Import JS.
Local Open Scope js_scope.

(** [enum ShaderLanguage] of [types.ts]. *)
Inductive ShaderLanguage := GLSL | HLSL | WGSL | MSL.

(** The string each member stands for. *)
Definition languageName (l : ShaderLanguage) : jsstring :=
  match l with
  | GLSL => lit "GLSL"
  | HLSL => lit "HLSL"
  | WGSL => lit "WGSL"
  | MSL => lit "MSL (Metal)"
  end.

(** The three prompt templates, each determined by the values spliced
    into it. *)
Inductive Prompt :=
| TranspilePrompt (code : jsstring) (sourceLang targetLang : ShaderLanguage)
| OptimizePrompt (code : jsstring) (lang : ShaderLanguage)
| AnalyzePrompt (code : jsstring) (lang : ShaderLanguage).

(** The argument of [ai.models.generateContent]. *)
Record Request := {
  model : jsstring;
  contents : Prompt;
  responseMimeType : option jsstring
}.

(** What a [catch (error: any)] block can receive.  The blocks of this
    module read [error.message]: on [null] and [undefined] that read
    throws a [TypeError]; on any other value (an [Error], a string, an
    object) it gives the property, a string or [undefined]. *)
Inductive Thrown :=
| ThrownNullish
| ThrownValue (message : option jsstring).

(** How the awaited call and the read of [response.text] end: with the
    text, a string or [undefined], or with a value thrown, by the call
    (the promise is rejected with it) or by the read. *)
Inductive Outcome :=
| Responds (text : option jsstring)
| Throws (error : Thrown).

(** [JSON.parse] followed by the reads of [json.code] and
    [json.explanation]: an exception, or the two fields. *)
Inductive Parsed :=
| ParseThrows (message : option jsstring)
| ParsedFields (code explanation : option jsstring).

(** The remote service, the parser and the wording of the engine are
    parameters: [generateContent n] answers the request issued after [n]
    earlier ones; [typeErrorMessage] is the message of the [TypeError]
    the engine throws when [message] is read off [null] or [undefined]. *)
Record Service := {
  generateContent : nat -> Request -> Outcome;
  JSON_parse : jsstring -> Parsed;
  typeErrorMessage : jsstring
}.

(** The requests issued so far and the values passed to [console.error]. *)
Record Net := {
  sent : list Request;
  consoleErrors : list Thrown
}.

Definition offline : Net := {| sent := []; consoleErrors := [] |}.

(** How a promise settles; a rejection carries the [message] of the
    [Error] it was rejected with. *)
Inductive Settled (A : Type) :=
| Resolved (value : A)
| Rejected (message : jsstring).
Arguments Resolved {A} value.
Arguments Rejected {A} message.

Record Translation := {
  code : jsstring;
  explanation : jsstring
}.

Definition FLASH : jsstring := lit "gemini-2.5-flash".

(** The request [analyzeShader] issues: the model and the prompt. *)
Definition analyzeRequest (code : jsstring) (lang : ShaderLanguage) : Request :=
  {| model := FLASH; contents := AnalyzePrompt code lang; responseMimeType := None |}.

(** The request [optimizeShader] issues: the model, the prompt, and a
    JSON response type. *)
Definition optimizeRequest (code : jsstring) (lang : ShaderLanguage) : Request :=
  {| model := FLASH; contents := OptimizePrompt code lang;
     responseMimeType := Some (lit "application/json") |}.

(** The request [transpileShader] issues: the model, the prompt, and a
    JSON response type. *)
Definition transpileRequest (code : jsstring) (sourceLang targetLang : ShaderLanguage)
  : Request :=
  {| model := FLASH; contents := TranspilePrompt code sourceLang targetLang;
     responseMimeType := Some (lit "application/json") |}.

Section Client.
Variable svc : Service.

Definition request (r : Request) : State Net Outcome :=
  fun n =>
    (generateContent svc (length (sent n)) r,
     {| sent := sent n ++ [r]; consoleErrors := consoleErrors n |}).

Definition console_error (e : Thrown) : State Net unit :=
  modify (fun n => {| sent := sent n; consoleErrors := consoleErrors n ++ [e] |}).

(** [throw new Error(`${prefix}${error.message}`)] in a [catch] block:
    the promise is rejected with the new error, or with the [TypeError]
    of the read of [error.message]. *)
Definition rethrow {A} (prefix : jsstring) (error : Thrown) : Settled A :=
  match error with
  | ThrownNullish => Rejected (typeErrorMessage svc)
  | ThrownValue message => Rejected (prefix ++ render message)
  end.

Definition transpileShader (code : jsstring) (sourceLang targetLang : ShaderLanguage)
  : State Net (Settled Translation) :=
  if negb (truthy (trim code)) then
    ret (Resolved {| code := []; explanation := lit "No code provided." |})
  else
    let failed (error : Thrown) :=
      console_error error ;;;
      ret (rethrow (lit "Transpilation failed: ") error) in
    response <- request (transpileRequest code sourceLang targetLang) ;;
    match response with
    | Throws error => failed error
    | Responds responseText =>
        match responseText with
        | Some (c :: text) =>
            match JSON_parse svc (c :: text) with
            | ParseThrows message => failed (ThrownValue message)
            | ParsedFields jcode jexplanation =>
                ret (Resolved
                  {| code := or_default jcode (lit "// Error parsing generated code");
                     explanation := or_default jexplanation (lit "No explanation provided.") |})
            end
        | _ => failed (ThrownValue (Some (lit "Empty response from AI")))
        end
    end.

Definition optimizeShader (code : jsstring) (lang : ShaderLanguage)
  : State Net (Settled Translation) :=
  response <- request (optimizeRequest code lang) ;;
  match response with
  | Throws error => ret (rethrow (lit "Optimization failed: ") error)
  | Responds text =>
      match JSON_parse svc (or_default text (lit "{}")) with
      | ParseThrows message =>
          ret (rethrow (lit "Optimization failed: ") (ThrownValue message))
      | ParsedFields jcode jexplanation =>
          ret (Resolved
            {| code := or_default jcode code;
               explanation := or_default jexplanation (lit "Could not optimize.") |})
      end
  end.

Definition analyzeShader (code : jsstring) (lang : ShaderLanguage)
  : State Net (Settled jsstring) :=
  response <- request (analyzeRequest code lang) ;;
  match response with
  | Responds text => ret (Resolved (or_default text (lit "No analysis generated.")))
  | Throws ThrownNullish => ret (Rejected (typeErrorMessage svc))
  | Throws (ThrownValue message) =>
      ret (Resolved (lit "Analysis failed: " ++ render message))
  end.

End Client.

End Gemini.

(* ===================================================================== *)
(** * The application component [App] *)
(* ===================================================================== *)

Module App.
Import JS Gemini.
Local Open Scope js_scope.

(** [LogEntry['type']]. *)
Inductive LogType := LInfo | LSuccess | LError | LWarning.

Record LogEntry := {
  id : jsstring;
  type : LogType;
  message : jsstring;
  timestamp : float
}.

Inductive Tab := TabCode | TabPreview.

(** The [useState] cells of the component. *)
Record AppState := {
  inputLang : ShaderLanguage;
  outputLang : ShaderLanguage;
  inputCode : jsstring;
  outputCode : jsstring;
  logs : list LogEntry;
  isProcessing : bool;
  activeTab : Tab;
  explanation : jsstring
}.

(** The cells, the network, and how many log entries were stamped. *)
Record Page := {
  state : AppState;
  net : Net;
  stamped : nat
}.

Definition with_state (f : AppState -> AppState) (p : Page) : Page :=
  {| state := f (state p); net := net p; stamped := stamped p |}.

Definition setIsProcessing (b : bool) : State Page unit :=
  modify (with_state (fun s =>
    {| inputLang := inputLang s; outputLang := outputLang s;
       inputCode := inputCode s; outputCode := outputCode s;
       logs := logs s; isProcessing := b;
       activeTab := activeTab s; explanation := explanation s |})).

Definition setOutputCode (c : jsstring) : State Page unit :=
  modify (with_state (fun s =>
    {| inputLang := inputLang s; outputLang := outputLang s;
       inputCode := inputCode s; outputCode := c;
       logs := logs s; isProcessing := isProcessing s;
       activeTab := activeTab s; explanation := explanation s |})).

Definition setInputCode (c : jsstring) : State Page unit :=
  modify (with_state (fun s =>
    {| inputLang := inputLang s; outputLang := outputLang s;
       inputCode := c; outputCode := outputCode s;
       logs := logs s; isProcessing := isProcessing s;
       activeTab := activeTab s; explanation := explanation s |})).

Definition setExplanation (e : jsstring) : State Page unit :=
  modify (with_state (fun s =>
    {| inputLang := inputLang s; outputLang := outputLang s;
       inputCode := inputCode s; outputCode := outputCode s;
       logs := logs s; isProcessing := isProcessing s;
       activeTab := activeTab s; explanation := e |})).

Definition setLogs (f : list LogEntry -> list LogEntry) : State Page unit :=
  modify (with_state (fun s =>
    {| inputLang := inputLang s; outputLang := outputLang s;
       inputCode := inputCode s; outputCode := outputCode s;
       logs := f (logs s); isProcessing := isProcessing s;
       activeTab := activeTab s; explanation := explanation s |})).

Section Handlers.
Variable svc : Service.

(** The random identifier and the date given to the [n]-th log entry. *)
Variable stamp : nat -> jsstring * float.

(** A call of a service function from a handler. *)
Definition await {A} (m : State Net (Settled A)) : State Page (Settled A) :=
  fun p =>
    let (r, n) := m (net p) in
    (r, {| state := state p; net := n; stamped := stamped p |}).

Definition addLog (ty : LogType) (msg : jsstring) : State Page unit :=
  n <- gets stamped ;;
  modify (fun p => {| state := state p; net := net p; stamped := S n |}) ;;;
  let newLog := {| id := fst (stamp n); type := ty; message := msg;
                   timestamp := snd (stamp n) |} in
  setLogs (fun prev => newLog :: prev).

Definition handleTranspile : State Page unit :=
  s <- gets state ;;
  setIsProcessing true ;;;
  addLog LInfo (lit "Compiling " ++ languageName (inputLang s) ++ lit " to "
                ++ languageName (outputLang s) ++ lit "...") ;;;
  result <- await (transpileShader svc (inputCode s) (inputLang s) (outputLang s)) ;;
  match result with
  | Resolved r =>
      setOutputCode (code r) ;;;
      setExplanation (Gemini.explanation r) ;;;
      addLog LSuccess (lit "Compilation successful.")
  | Rejected msg => addLog LError msg
  end ;;;
  setIsProcessing false.

Definition handleOptimize : State Page unit :=
  s <- gets state ;;
  if negb (truthy (inputCode s)) then ret tt
  else
    setIsProcessing true ;;;
    addLog LInfo (lit "Optimizing source code...") ;;;
    result <- await (optimizeShader svc (inputCode s) (inputLang s)) ;;
    match result with
    | Resolved r =>
        setInputCode (code r) ;;;
        addLog LSuccess (lit "Optimization complete.") ;;;
        addLog LInfo (lit "Notes: " ++ Gemini.explanation r)
    | Rejected msg => addLog LError msg
    end ;;;
    setIsProcessing false.

Definition handleAnalyze : State Page unit :=
  s <- gets state ;;
  if negb (truthy (inputCode s)) then ret tt
  else
    setIsProcessing true ;;;
    addLog LInfo (lit "Analyzing shader...") ;;;
    result <- await (analyzeShader svc (inputCode s) (inputLang s)) ;;
    match result with
    | Resolved r =>
        setExplanation r ;;;
        addLog LSuccess (lit "Analysis complete.")
    | Rejected msg => addLog LError msg
    end ;;;
    setIsProcessing false.

End Handlers.

(** The three calls to the service a handler can make. *)
Inductive ServiceCall := Translate | Optimize | Analyze.

Definition handler (svc : Service) (stamp : nat -> jsstring * float)
    (k : ServiceCall) : State Page unit :=
  match k with
  | Translate => handleTranspile svc stamp
  | Optimize => handleOptimize svc stamp
  | Analyze => handleAnalyze svc stamp
  end.




(** ** The preview under the application *)

(** The element the component renders in the output pane: the read-only
    editor on the code tab, [<ShaderPreview fragmentCode={outputCode}
    isActive={activeTab === 'preview'} />] otherwise. *)
Definition previewProps (s : AppState) : option (jsstring * bool) :=
  match activeTab s with
  | TabCode => None
  | TabPreview => Some (outputCode s, true)
  end.

(** React commits a render of [App]: the preview is mounted on a fresh
    canvas, re-rendered with its new props, or unmounted. *)
Definition commit (b : Preview.Browser) (cv : Preview.Canvas) (now : float)
    (s : AppState) (pv : option (Preview.Instance * Preview.World))
  : option (Preview.Instance * Preview.World) :=
  match previewProps s, pv with
  | None, None => None
  | None, Some (i, w) => let _ := exec (Preview.unmount i) w in None
  | Some (src, act), None => Some (Preview.mounted b src act now (Preview.mount cv))
  | Some (src, act), Some (i, w) => Some (Preview.rerender b src act now i w)
  end.

(** The preview on screen is the one React keeps for state [s]. *)
Definition shows (s : AppState) (pv : option (Preview.Instance * Preview.World)) : Prop :=
  match previewProps s, pv with
  | None, None => True
  | Some props, Some (i, _) => Preview.deps i = props
  | _, _ => False
  end.

End App.

(* ===================================================================== *)
(** * Concrete browsers, drivers and services used in the examples *)
(* ===================================================================== *)

Module Samples.
Import JS.

(** A driver on which every call succeeds; it knows the three uniforms
    of the preview shell. *)
Definition healthy : GL.Driver :=
  {| GL.allocates := fun _ => true;
     GL.compiles := fun _ _ => true;
     GL.shaderInfoLog := fun _ _ => Some [];
     GL.links := fun _ => true;
     GL.programInfoLog := fun _ => Some [];
     GL.attribLocation := fun _ _ => 0%Z;
     GL.uniformLocation := fun _ name =>
       if bool_decide (name = lit "u_time") then Some 0
       else if bool_decide (name = lit "u_resolution") then Some 1
       else if bool_decide (name = lit "u_mouse") then Some 2
       else None |}.

(** A driver that compiles the vertex stage and rejects every fragment
    shader, answering [log] when asked for the diagnostic. *)
Definition rejecting (log : option jsstring) : GL.Driver :=
  {| GL.allocates := fun _ => true;
     GL.compiles := fun ty _ =>
       match ty with GL.VERTEX_SHADER => true | GL.FRAGMENT_SHADER => false end;
     GL.shaderInfoLog := fun _ _ => log;
     GL.links := fun _ => true;
     GL.programInfoLog := fun _ => Some [];
     GL.attribLocation := fun _ _ => 0%Z;
     GL.uniformLocation := fun _ _ => None |}.

(** A browser with WebGL2 and a device pixel ratio of two. *)
Definition browser (d : GL.Driver) : Preview.Browser :=
  {| Preview.driver := d; Preview.webgl2 := true;
     Preview.devicePixels := fun z => (2 * z)%Z |}.

Definition canvas0 : Preview.Canvas :=
  {| Preview.width := 300; Preview.height := 150;
     Preview.clientWidth := 640; Preview.clientHeight := 360 |}.

Definition snippet : jsstring := lit "void main(){fragColor=vec4(1.0);}".

Definition snippet2 : jsstring := lit "void main(){fragColor=vec4(0.5);}".

Definition broken : jsstring := lit "void main(){".

(** The wording of V8 for a read of [message] off [null]. *)
Definition nullRead : jsstring :=
  lit "Cannot read properties of null (reading 'message')".

(** A completion service whose every call throws [Error("fetch failed")]. *)
Definition unreachable : Gemini.Service :=
  {| Gemini.generateContent := fun _ _ =>
       Gemini.Throws (Gemini.ThrownValue (Some (lit "fetch failed")));
     Gemini.JSON_parse := fun _ => Gemini.ParsedFields None None;
     Gemini.typeErrorMessage := nullRead |}.

(** A completion service whose every call is rejected with [null]. *)
Definition rejectingNull : Gemini.Service :=
  {| Gemini.generateContent := fun _ _ => Gemini.Throws Gemini.ThrownNullish;
     Gemini.JSON_parse := fun _ => Gemini.ParsedFields None None;
     Gemini.typeErrorMessage := nullRead |}.

Definition stamp0 (n : nat) : jsstring * float := (lit "k3j9x2m1q", 0%float).

Definition app0 : App.AppState :=
  {| App.inputLang := Gemini.HLSL; App.outputLang := Gemini.GLSL;
     App.inputCode := lit "float4 main() : SV_Target { return 1; }";
     App.outputCode := snippet; App.logs := [];
     App.isProcessing := false; App.activeTab := App.TabPreview;
     App.explanation := lit "previous notes" |}.

Definition page0 : App.Page :=
  {| App.state := app0; App.net := Gemini.offline; App.stamped := 0 |}.

(** A driver that compiles every stage and links nothing, answering
    [log] when asked for the program's diagnostic. *)
Definition unlinkable (log : option jsstring) : GL.Driver :=
  {| GL.allocates := fun _ => true;
     GL.compiles := fun _ _ => true;
     GL.shaderInfoLog := fun _ _ => Some [];
     GL.links := fun _ => false;
     GL.programInfoLog := fun _ => log;
     GL.attribLocation := fun _ _ => 0%Z;
     GL.uniformLocation := fun _ _ => None |}.

(** A driver whose context is lost: every [create*] call returns [null]. *)
Definition lost : GL.Driver :=
  {| GL.allocates := fun _ => false;
     GL.compiles := fun _ _ => false;
     GL.shaderInfoLog := fun _ _ => None;
     GL.links := fun _ => false;
     GL.programInfoLog := fun _ => None;
     GL.attribLocation := fun _ _ => (-1)%Z;
     GL.uniformLocation := fun _ _ => None |}.

(** A driver that rejects the vertex stage and compiles fragments. *)
Definition noVertex : GL.Driver :=
  {| GL.allocates := fun _ => true;
     GL.compiles := fun ty _ =>
       match ty with GL.VERTEX_SHADER => false | GL.FRAGMENT_SHADER => true end;
     GL.shaderInfoLog := fun _ _ => Some (lit "ERROR: vertex");
     GL.links := fun _ => true;
     GL.programInfoLog := fun _ => Some [];
     GL.attribLocation := fun _ _ => 0%Z;
     GL.uniformLocation := fun _ _ => None |}.

(** A browser without WebGL2. *)
Definition legacy : Preview.Browser :=
  {| Preview.driver := lost; Preview.webgl2 := false;
     Preview.devicePixels := fun z => z |}.

(** A completion service that answers every request with the same JSON
    text, parsed into the given fields. *)
Definition answering (jcode jexplanation : option jsstring) : Gemini.Service :=
  {| Gemini.generateContent := fun _ _ => Gemini.Responds (Some (lit "{...}"));
     Gemini.JSON_parse := fun _ => Gemini.ParsedFields jcode jexplanation;
     Gemini.typeErrorMessage := nullRead |}.

(** A completion service whose responses carry no text. *)
Definition silent : Gemini.Service :=
  {| Gemini.generateContent := fun _ _ => Gemini.Responds None;
     Gemini.JSON_parse := fun _ => Gemini.ParsedFields None None;
     Gemini.typeErrorMessage := nullRead |}.

Definition blankPage : App.Page :=
  {| App.state :=
       {| App.inputLang := Gemini.HLSL; App.outputLang := Gemini.GLSL;
          App.inputCode := lit "  "; App.outputCode := snippet; App.logs := [];
          App.isProcessing := false; App.activeTab := App.TabCode;
          App.explanation := lit "previous notes" |};
     App.net := Gemini.offline; App.stamped := 0 |}.

Definition emptyPage : App.Page :=
  {| App.state :=
       {| App.inputLang := Gemini.HLSL; App.outputLang := Gemini.GLSL;
          App.inputCode := []; App.outputCode := snippet; App.logs := [];
          App.isProcessing := false; App.activeTab := App.TabCode;
          App.explanation := lit "previous notes" |};
     App.net := Gemini.offline; App.stamped := 0 |}.

End Samples.

(* ===================================================================== *)
(** * Proof automation *)
(* ===================================================================== *)

(** Running the imperative code of the preview on a world given by its
    fields: the commands and the field accessors are unfolded, the
    operations on maps and lists are left as they are. *)
Ltac simulate :=
  cbv [bind ret modify gets exec
       Webgl.createShader Webgl.createProgram Webgl.gl Webgl.console_warn
       GL.createShader GL.createProgram GL.createBuffer GL.createVertexArray
       GL.create GL.shaderSource GL.compileShader GL.getShaderCompileStatus
       GL.getShaderInfoLog GL.deleteShader GL.attachShader GL.linkProgram
       GL.getProgramLinkStatus GL.getProgramInfoLog GL.deleteProgram
       GL.getAttribLocation GL.getUniformLocation GL.bindArrayBuffer
       GL.bufferData GL.bindVertexArray GL.enableVertexAttribArray
       GL.vertexAttribPointer GL.useProgram GL.uniform1f GL.uniform2f
       GL.drawArrays GL.viewport GL.with_objects GL.with_arrayBuffer
       GL.with_vertexArray GL.log_call
       Preview.gl Preview.rt Preview.setError Preview.setCompiled
       Preview.addResizeListener Preview.removeResizeListener
       Preview.requestAnimationFrame Preview.cancelAnimationFrame
       Preview.with_runtime Preview.with_canvas Preview.with_listeners
       Preview.with_raf Preview.with_requestRef Preview.with_error
       Preview.with_compiled Preview.liveObjects Preview.glCalls
       Preview.resize Preview.goLive Preview.linkFailed Preview.compileFailed
       Preview.runCleanup Preview.runCleanupOpt Preview.effect Preview.mounted
       Preview.unmount Preview.cleanup Preview.deps negb orb
       Preview.runtime Preview.canvas Preview.canvasRef Preview.listeners
       Preview.closures Preview.rafCounter Preview.rafPending
       Preview.requestRef Preview.error Preview.compiled
       Preview.r_program Preview.r_vao Preview.r_timeLocation
       Preview.r_resolutionLocation Preview.r_startTime
       Preview.driver Preview.webgl2 Preview.devicePixels
       Preview.width Preview.height Preview.clientWidth Preview.clientHeight
       Webgl.ctx Webgl.console GL.created GL.objects GL.calls GL.arrayBuffer
       GL.vertexArray fst snd] in *.

(** Running the effect along every path: each answer of the driver the
    run depends on is split into its two cases. *)
Ltac split_driver :=
  repeat (simulate;
          match goal with
          | |- context [<[?i := _]> _ !! ?i] => rewrite lookup_insert_eq
          | |- context [GL.allocates ?d ?n] => destruct (GL.allocates d n) eqn:?
          | |- context [GL.compiles ?d ?t ?s] => destruct (GL.compiles d t s) eqn:?
          | |- context [GL.links ?d ?st] => destruct (GL.links d st) eqn:?
          end).

(** The same for the handlers of the application. *)
Ltac simulate_app :=
  cbv [bind ret modify gets exec
       App.handler App.handleTranspile App.handleOptimize App.handleAnalyze
       App.addLog App.await App.setIsProcessing App.setOutputCode
       App.setInputCode App.setExplanation App.setLogs App.with_state
       App.state App.net App.stamped
       App.inputLang App.outputLang App.inputCode App.outputCode App.logs
       App.isProcessing App.activeTab App.explanation
       Gemini.request Gemini.console_error Gemini.rethrow Gemini.sent
       Gemini.consoleErrors
       fst snd negb] in *.

(* ===================================================================== *)
(** * Facts about the string primitives *)
(* ===================================================================== *)

Module JSFacts.
Import JS.


Lemma startsWith_app (pat rest : jsstring) : startsWith pat (pat ++ rest) = true.
Proof.
  induction pat as [|p pat IH]; simpl; [reflexivity|].
  rewrite N.eqb_refl. exact IH.
Qed.

Lemma startsWith_inv (pat s : jsstring) :
  startsWith pat s = true -> exists rest, s = pat ++ rest.
Proof.
  revert s. induction pat as [|p pat IH]; intros s H.
  - exists s. reflexivity.
  - destruct s as [|c s]; simpl in H; [discriminate|].
    apply andb_prop in H as [Hpc Hrest].
    apply N.eqb_eq in Hpc. subst c.
    destruct (IH _ Hrest) as [rest ->]. exists rest. reflexivity.
Qed.

Lemma includes_head (s pat : jsstring) :
  startsWith pat s = true -> includes s pat = true.
Proof. intros H. destruct s; simpl; rewrite H; reflexivity. Qed.

Lemma includes_intro (pre pat post : jsstring) :
  includes (pre ++ pat ++ post) pat = true.
Proof.
  induction pre as [|c pre IH].
  - cbn [app]. apply includes_head. apply startsWith_app.
  - cbn [app includes]. rewrite IH. apply orb_true_r.
Qed.

Lemma includes_inv (s pat : jsstring) :
  includes s pat = true -> exists pre post, s = pre ++ pat ++ post.
Proof.
  induction s as [|c s IH]; simpl; intros H.
  - rewrite orb_false_r in H. destruct (startsWith_inv _ _ H) as [post ->].
    exists [], post. reflexivity.
  - apply orb_prop in H as [H | H].
    + destruct (startsWith_inv _ _ H) as [post ->]. exists [], post. reflexivity.
    + destruct (IH H) as (pre & post & ->). exists (c :: pre), post. reflexivity.
Qed.

(** [includes] decides "occurs as a contiguous substring". *)
Lemma includes_spec (s pat : jsstring) :
  includes s pat = true <-> exists pre post, s = pre ++ pat ++ post.
Proof.
  split; [apply includes_inv|].
  intros (pre & post & ->). apply includes_intro.
Qed.

Lemma endsWith_spec (s suffix : jsstring) :
  endsWith s suffix = true <-> exists pre, s = pre ++ suffix.
Proof.
  unfold endsWith. split.
  - intros H. destruct (startsWith_inv _ _ H) as [r Hr].
    exists (rev r). rewrite <- (rev_involutive s), Hr, rev_app_distr.
    rewrite rev_involutive. reflexivity.
  - intros [pre ->]. rewrite rev_app_distr. apply startsWith_app.
Qed.

Lemma trimStart_all_ws (s : jsstring) :
  forallb isWhiteSpace s = true -> trimStart s = [].
Proof.
  induction s as [|c s IH]; simpl; [reflexivity|].
  intros H. apply andb_prop in H as [Hc Hs]. rewrite Hc. auto.
Qed.

Lemma trimStart_nil_inv (s : jsstring) :
  trimStart s = [] -> forallb isWhiteSpace s = true.
Proof.
  induction s as [|c s IH]; simpl; [reflexivity|].
  destruct (isWhiteSpace c); [auto | discriminate].
Qed.

(** [trim] yields the empty string exactly on blank input. *)
Lemma trim_nil_iff (s : jsstring) :
  trim s = [] <-> forallb isWhiteSpace s = true.
Proof.
  unfold trim, trimEnd. split.
  - intros H. apply trimStart_nil_inv.
    destruct (trimStart s) eqn:E; [reflexivity|].
    exfalso. rewrite <- E in H.
    assert (Hr : trimStart (rev (trimStart s)) = []).
    { rewrite <- (rev_involutive (trimStart (rev (trimStart s)))), H. reflexivity. }
    apply trimStart_nil_inv in Hr.
    rewrite forallb_forall in Hr.
    assert (Hn : isWhiteSpace n = true).
    { apply Hr. rewrite <- in_rev, E. left. reflexivity. }
    clear - E Hn. induction s as [|c s IH]; simpl in E; [discriminate|].
    destruct (isWhiteSpace c) eqn:Hc; [auto|].
    injection E as -> _. congruence.
  - intros H. rewrite (trimStart_all_ws _ H). reflexivity.
Qed.


End JSFacts.

(* ===================================================================== *)
(** * The helpers of [webgl.ts] *)
(* ===================================================================== *)

Module WebglFacts.
Import JS JSFacts Webgl.

(** The declarations the template puts in front of the user's code. *)
Lemma PREAMBLE_declares :
  startsWith (lit "#version 300 es") PREAMBLE = true /\
  includes PREAMBLE (lit "precision highp float;") = true /\
  includes PREAMBLE (lit "uniform vec2 u_resolution;") = true /\
  includes PREAMBLE (lit "uniform float u_time;") = true /\
  includes PREAMBLE (lit "uniform vec2 u_mouse;") = true /\
  includes PREAMBLE (lit "out vec4 fragColor;") = true.
Proof. vm_compute. repeat split; reflexivity. Qed.

Lemma formatForPreview_snippet (userCode : jsstring) :
  includes userCode (lit "#version") = false ->
  formatForPreview userCode = PREAMBLE ++ userCode ++ FALLBACK_MAIN.
Proof. intros H. unfold formatForPreview. rewrite H. reflexivity. Qed.

(** C5.  Text in which [#version] occurs anywhere is returned as it is,
    code unit for code unit. *)
Theorem formatForPreview_version_identity (pre post : jsstring) :
  formatForPreview (pre ++ lit "#version" ++ post) = pre ++ lit "#version" ++ post.
Proof.
  unfold formatForPreview. rewrite includes_intro. reflexivity.
Qed.

(** C4, as the code has it.  Text in which [#version] does not occur is
    wrapped: the output is the preamble (version pragma, precision
    qualifier, the three uniforms [u_resolution], [u_time], [u_mouse] and
    the output [fragColor]), then the text unchanged, then the fixed
    fallback [main].  The text is a contiguous part of the output,
    starting right after the preamble; it is followed by the fallback and
    so is not, in general, a suffix. *)
Theorem formatForPreview_wraps (rawText : jsstring) :
  (~ exists pre post, rawText = pre ++ lit "#version" ++ post) ->
  formatForPreview rawText = PREAMBLE ++ rawText ++ FALLBACK_MAIN /\
  startsWith (lit "#version 300 es") (formatForPreview rawText) = true /\
  includes PREAMBLE (lit "precision highp float;") = true /\
  includes PREAMBLE (lit "uniform vec2 u_resolution;") = true /\
  includes PREAMBLE (lit "uniform float u_time;") = true /\
  includes PREAMBLE (lit "uniform vec2 u_mouse;") = true /\
  includes PREAMBLE (lit "out vec4 fragColor;") = true /\
  includes (formatForPreview rawText) rawText = true /\
  endsWith (formatForPreview rawText) FALLBACK_MAIN = true.
Proof.
  intros Hno.
  assert (Hinc : includes rawText (lit "#version") = false).
  { destruct (includes rawText (lit "#version")) eqn:E; [|reflexivity].
    exfalso. apply Hno. apply includes_spec. exact E. }
  rewrite (formatForPreview_snippet _ Hinc).
  destruct PREAMBLE_declares as (Hv & Hp & Hr & Ht & Hm & Ho).
  split; [reflexivity|].
  split.
  { destruct (startsWith_inv _ _ Hv) as [rest Hrest].
    rewrite Hrest, <- app_assoc. apply startsWith_app. }
  do 5 (split; [assumption|]).
  split.
  - apply includes_intro.
  - apply endsWith_spec. exists (PREAMBLE ++ rawText).
    rewrite <- app_assoc. reflexivity.
Qed.

Lemma formatForPreview_wraps_witness :
  formatForPreview Samples.snippet = PREAMBLE ++ Samples.snippet ++ FALLBACK_MAIN /\
  endsWith (formatForPreview Samples.snippet) FALLBACK_MAIN = true.
Proof.
  assert (Hno : ~ exists pre post, Samples.snippet = pre ++ lit "#version" ++ post).
  { intros Hex. apply includes_spec in Hex. vm_compute in Hex. discriminate Hex. }
  destruct (formatForPreview_wraps Samples.snippet Hno) as (H1 & _ & _ & _ & _ & _ & _ & _ & H2).
  split; [exact H1 | exact H2].
Defined.

(** C4, as the specification words it, fails: the wrapped output of a snippet
    does not end with the snippet. *)
Lemma formatForPreview_not_suffix :
  includes Samples.snippet (lit "#version") = false /\
  ~ exists pre, formatForPreview Samples.snippet = pre ++ Samples.snippet.
Proof.
  split; [vm_compute; reflexivity|].
  intros Hex. apply endsWith_spec in Hex. vm_compute in Hex. discriminate Hex.
Qed.

(** ** [createShader] *)

(** C2, as the code has it.  When the driver hands out a shader and then
    reports that [source] does not compile, [createShader] returns [null]
    and nothing else; the shader it created is deleted, so the context
    holds the objects it held before; the driver's log, whatever it is,
    goes to [console.warn]. *)
Theorem createShader_compile_failure (d : GL.Driver) (type : GL.ShaderType)
    (source : jsstring) (r : Runtime) :
  GL.allocates d (GL.created (ctx r)) = true ->
  GL.compiles d type source = false ->
  GL.objects (ctx r) !! GL.created (ctx r) = None ->
  exists r',
    createShader d type source r = (None, r') /\
    GL.objects (ctx r') = GL.objects (ctx r) /\
    console r' = console r ++ [GL.shaderInfoLog d type source] /\
    GL.calls (ctx r') =
      GL.calls (ctx r) ++
        [GL.CreateShader type;
         GL.ShaderSource (GL.created (ctx r)) source;
         GL.CompileShader (GL.created (ctx r));
         GL.DeleteShader (Some (GL.created (ctx r)))].
Proof.
  intros Halloc Hfail Hfresh.
  destruct r as [[n os ab va cs] con]. cbn [ctx console GL.created GL.objects GL.calls] in *.
  unfold createShader. simulate.
  repeat (progress (rewrite ?Halloc, ?Hfail, ?lookup_insert_eq); simulate).
  eexists. split; [reflexivity|]. simulate.
  split; [|split].
  - rewrite !insert_insert_eq, delete_insert_eq. apply delete_id. exact Hfresh.
  - reflexivity.
  - rewrite <- !app_assoc. reflexivity.
Qed.

Lemma createShader_compile_failure_witness :
  exists r',
    createShader (Samples.rejecting (Some (lit "ERROR: 0:1: syntax error")))
      GL.FRAGMENT_SHADER Samples.broken boot = (None, r') /\
    GL.objects (ctx r') = ∅ /\
    console r' = [Some (lit "ERROR: 0:1: syntax error")].
Proof.
  destruct (createShader_compile_failure
              (Samples.rejecting (Some (lit "ERROR: 0:1: syntax error")))
              GL.FRAGMENT_SHADER Samples.broken boot)
    as (r' & Hrun & Hobj & Hcon & _); [reflexivity | reflexivity | reflexivity |].
  exists r'. split; [exact Hrun|]. split; [exact Hobj | exact Hcon].
Defined.

(** C2, as the specification words it, fails: the caller receives [null] whatever
    the driver's log is, so the value returned carries no diagnostic; and
    when the driver has no log, [null] is what is written to the console:
    no generic message stands in for it. *)
Lemma createShader_failure_returns_null :
  fst (createShader (Samples.rejecting (Some (lit "ERROR: 0:1: syntax error")))
         GL.FRAGMENT_SHADER Samples.broken boot) = None /\
  fst (createShader (Samples.rejecting None)
         GL.FRAGMENT_SHADER Samples.broken boot) = None /\
  console (snd (createShader (Samples.rejecting None)
                  GL.FRAGMENT_SHADER Samples.broken boot)) = [None].
Proof. vm_compute. repeat split; reflexivity. Qed.

End WebglFacts.

(* ===================================================================== *)
(** * The translation client *)
(* ===================================================================== *)

Module GeminiFacts.
Import JS JSFacts Gemini.

Lemma blank_trim (code : jsstring) :
  forallb isWhiteSpace code = true -> truthy (trim code) = false.
Proof. intros H. apply trim_nil_iff in H. rewrite H. reflexivity. Qed.

(** C9.  On code that is empty or all whitespace, [transpileShader]
    resolves with an empty [code] and the explanation "No code provided.",
    whatever the service would answer, and the network is as it was: no
    request is issued and nothing is logged. *)
Theorem transpileShader_blank (svc : Service) (code : jsstring)
    (sourceLang targetLang : ShaderLanguage) (n : Net) :
  forallb isWhiteSpace code = true ->
  transpileShader svc code sourceLang targetLang n =
    (Resolved {| Gemini.code := []; explanation := lit "No code provided." |}, n).
Proof.
  intros Hblank. unfold transpileShader.
  rewrite (blank_trim _ Hblank). reflexivity.
Qed.

Lemma transpileShader_blank_witness :
  forallb isWhiteSpace (lit "  " ++ LF ++ [9%N; 160%N]) = true /\
  transpileShader Samples.unreachable (lit "  " ++ LF ++ [9%N; 160%N]) HLSL GLSL offline =
    (Resolved {| Gemini.code := []; explanation := lit "No code provided." |}, offline).
Proof.
  split; [reflexivity|].
  apply (transpileShader_blank Samples.unreachable (lit "  " ++ LF ++ [9%N; 160%N]) HLSL GLSL offline).
  reflexivity.
Defined.

(** Code with a character that is not whitespace does reach the service. *)
Lemma transpileShader_sends (svc : Service) (code : jsstring)
    (sourceLang targetLang : ShaderLanguage) (n : Net) :
  forallb isWhiteSpace code = false ->
  sent (snd (transpileShader svc code sourceLang targetLang n)) =
    sent n ++ [transpileRequest code sourceLang targetLang].
Proof.
  intros Hcode. unfold transpileShader.
  destruct (truthy (trim code)) eqn:Ht.
  - cbn [negb]. unfold bind, request, console_error, modify, ret.
    destruct (generateContent svc (length (sent n)) _) as [[[|c t]|]|m];
      try destruct (JSON_parse svc (c :: t)); reflexivity.
  - exfalso. destruct (trim code) eqn:E; [|discriminate].
    apply trim_nil_iff in E. congruence.
Qed.

(** C10.  How [analyzeShader] settles.  When the response has no text,
    or empty text, it resolves with "No analysis generated."; otherwise
    with the text.  When the call to the service throws a value whose
    [message] can be read, it resolves with "Analysis failed: " followed
    by that message.  When the value thrown is [null] or [undefined], the
    read of [error.message] in the [catch] block throws: the promise is
    rejected with that [TypeError].  On whatever the service throws,
    [optimizeShader] rejects, and so does [transpileShader] on code that
    is not blank: with their prefix and the message, or with the same
    [TypeError]. *)
Theorem analyzeShader_settles (svc : Service) (code : jsstring)
    (lang target : ShaderLanguage) (n : Net) :
  match generateContent svc (length (sent n)) (analyzeRequest code lang) with
  | Throws ThrownNullish =>
      fst (analyzeShader svc code lang n) = Rejected (typeErrorMessage svc)
  | Throws (ThrownValue message) =>
      fst (analyzeShader svc code lang n) =
        Resolved (lit "Analysis failed: " ++ render message)
  | Responds None | Responds (Some []) =>
      fst (analyzeShader svc code lang n) = Resolved (lit "No analysis generated.")
  | Responds (Some (c :: text)) =>
      fst (analyzeShader svc code lang n) = Resolved (c :: text)
  end /\
  match generateContent svc (length (sent n)) (optimizeRequest code lang) with
  | Throws ThrownNullish =>
      fst (optimizeShader svc code lang n) = Rejected (typeErrorMessage svc)
  | Throws (ThrownValue message) =>
      fst (optimizeShader svc code lang n) =
        Rejected (lit "Optimization failed: " ++ render message)
  | Responds _ => True
  end /\
  match generateContent svc (length (sent n)) (transpileRequest code lang target) with
  | Throws ThrownNullish =>
      forallb isWhiteSpace code = true \/
      fst (transpileShader svc code lang target n) = Rejected (typeErrorMessage svc)
  | Throws (ThrownValue message) =>
      forallb isWhiteSpace code = true \/
      fst (transpileShader svc code lang target n) =
        Rejected (lit "Transpilation failed: " ++ render message)
  | Responds _ => True
  end.
Proof.
  split; [|split].
  - unfold analyzeShader, bind, request, ret. cbn [fst].
    destruct (generateContent svc _ _) as [[[|c t]|]|[|m]]; reflexivity.
  - unfold optimizeShader, bind, request, ret. cbn [fst].
    destruct (generateContent svc _ _) as [t|[|m]]; [exact I | reflexivity | reflexivity].
  - destruct (generateContent svc _ _) as [t|e] eqn:E; [exact I|].
    assert (H : forallb isWhiteSpace code = true \/
                fst (transpileShader svc code lang target n) =
                  rethrow svc (lit "Transpilation failed: ") e).
    { destruct (forallb isWhiteSpace code) eqn:Hb; [left; reflexivity | right].
      unfold transpileShader.
      destruct (truthy (trim code)) eqn:Ht.
      + cbn [negb]. unfold bind, request, console_error, modify, ret.
        rewrite E. reflexivity.
      + exfalso. destruct (trim code) eqn:Et; [|discriminate].
        apply trim_nil_iff in Et. congruence. }
    destruct e as [|m]; exact H.
Qed.

(** A service that rejects with [null] makes [analyzeShader] reject. *)
Lemma analyzeShader_rejects_on_null :
  fst (analyzeShader Samples.rejectingNull Samples.snippet GLSL offline) =
    Rejected (lit "Cannot read properties of null (reading 'message')").
Proof. reflexivity. Qed.

End GeminiFacts.

(* ===================================================================== *)
(** * The preview component *)
(* ===================================================================== *)

Module PreviewFacts.
Import JS Preview.

(** ** The quad *)

Lemma positions_vertices :
  vertices positions =
    [(-1, -1); (1, -1); (-1, 1); (-1, 1); (1, -1); (1, 1)]%Z.
Proof. reflexivity. Qed.


(** ** One frame *)

Lemma render_spec (cb : RenderClosure) (t : float) (w : World) :
  glCalls (exec (render cb t) w) = glCalls w ++ renderCalls cb t (canvas w) /\
  rafPending (exec (render cb t) w) = rafPending w ++ [(S (rafCounter w), cb)] /\
  rafCounter (exec (render cb t) w) = S (rafCounter w) /\
  requestRef (exec (render cb t) w) = S (rafCounter w) /\
  liveObjects (exec (render cb t) w) = liveObjects w /\
  canvas (exec (render cb t) w) = canvas w.
Proof.
  destruct w as [[[n os ab va cs] con] cv cr ls cl rc rp rr er cp].
  destruct cb as [p vao tl rl st].
  unfold render, renderCalls.
  destruct tl, rl; simulate; rewrite <- ?app_assoc; repeat split; reflexivity.
Qed.

Lemma renderCalls_one_draw (cb : RenderClosure) (t : float) (cv : Canvas) :
  List.filter isDraw (renderCalls cb t cv) = [GL.DrawArrays GL.TRIANGLES 0 6].
Proof.
  unfold renderCalls.
  destruct (r_timeLocation cb), (r_resolutionLocation cb); reflexivity.
Qed.

Lemma frame_single (t : float) (w : World) (id : nat) (cb : RenderClosure) :
  rafPending w = [(id, cb)] ->
  exec (frame t) w = exec (render cb t) (with_raf (rafCounter w) [] w).
Proof. intros H. unfold frame, exec at 1. cbn [snd]. rewrite H. reflexivity. Qed.

(** While one callback is pending and [requestRef] names it, a frame runs
    it once and leaves the same callback pending under a new name. *)
Lemma frame_spec (t : float) (w : World) (cb : RenderClosure) :
  rafPending w = [(requestRef w, cb)] ->
  glCalls (exec (frame t) w) = glCalls w ++ renderCalls cb t (canvas w) /\
  rafPending (exec (frame t) w) = [(requestRef (exec (frame t) w), cb)] /\
  requestRef (exec (frame t) w) = S (rafCounter w) /\
  liveObjects (exec (frame t) w) = liveObjects w /\
  canvas (exec (frame t) w) = canvas w.
Proof.
  intros H. rewrite (frame_single _ _ _ _ H).
  destruct (render_spec cb t (with_raf (rafCounter w) [] w))
    as (Hc & Hp & _ & Hr & Ho & Hv).
  rewrite Hc, Hp, Hr, Ho, Hv. repeat split; reflexivity.
Qed.

Lemma frames_spec (ts : list float) (w : World) (cb : RenderClosure) :
  rafPending w = [(requestRef w, cb)] ->
  glCalls (exec (frames ts) w) =
    glCalls w ++ flat_map (fun t => renderCalls cb t (canvas w)) ts /\
  rafPending (exec (frames ts) w) = [(requestRef (exec (frames ts) w), cb)] /\
  liveObjects (exec (frames ts) w) = liveObjects w /\
  canvas (exec (frames ts) w) = canvas w.
Proof.
  revert w. induction ts as [|t ts IH]; intros w H.
  - cbn [frames flat_map]. unfold exec, ret. cbn [snd].
    rewrite app_nil_r. repeat split; [exact H].
  - destruct (frame_spec t w cb H) as (Hc & Hp & _ & Ho & Hv).
    assert (E : exec (frames (t :: ts)) w = exec (frames ts) (exec (frame t) w)).
    { cbn [frames]. unfold exec, bind. destruct (frame t w). reflexivity. }
    rewrite E. destruct (IH _ Hp) as (Hc' & Hp' & Ho' & Hv').
    rewrite Hc', Hp', Ho', Hv', Hc, Ho, Hv. cbn [flat_map].
    rewrite <- app_assoc. repeat split; reflexivity.
Qed.

Lemma goLive_spec (b : Browser) (now : float) (l p v f : nat) (w : World) :
  rafPending w = [] ->
  exists cb,
    fst (goLive b now l p v f w) = Some (CleanupLive l p v f) /\
    rafPending (snd (goLive b now l p v f w)) =
      [(requestRef (snd (goLive b now l p v f w)), cb)] /\
    r_program cb = p /\
    r_startTime cb = now /\
    error (snd (goLive b now l p v f w)) = None /\
    compiled (snd (goLive b now l p v f w)) = true /\
    quadBound (snd (goLive b now l p v f w)) (r_vao cb).
Proof.
  intros Hp.
  destruct w as [[[n os ab va cs] con] cv cr ls cl rc rp rr er cp].
  destruct b as [d gl2 px]. unfold quadBound. simulate. subst rp.
  destruct (GL.allocates d n) eqn:Ebuf, (GL.allocates d (S n)) eqn:Evao.
  all: repeat (progress (rewrite ?Ebuf, ?Evao, ?lookup_insert_eq); simulate).
  all: eexists; repeat (split; [reflexivity|]).
  all: intros h Hh; try discriminate Hh; injection Hh as <-.
  - eexists _, (Some n). split; [rewrite lookup_insert_eq; reflexivity|].
    intros bf [= <-]. rewrite !lookup_insert_ne by lia.
    apply lookup_insert_eq.
  - eexists _, None. split; [rewrite lookup_insert_eq; reflexivity|].
    intros bf Hbf. discriminate Hbf.
Qed.

(** ** The exits of the effect *)

Lemma compileFailed_exit (b : Browser) (src : jsstring) (fs : option nat)
    (l : nat) (w : World) :
  fst (compileFailed b src fs l w) = Some (CleanupFailed l) /\
  compiled (snd (compileFailed b src fs l w)) = false /\
  rafPending (snd (compileFailed b src fs l w)) = rafPending w /\
  requestRef (snd (compileFailed b src fs l w)) = requestRef w.
Proof.
  destruct w as [[[n os ab va cs] con] cv cr ls cl rc rp rr er cp].
  destruct b as [d gl2 px].
  destruct fs as [f|]; simulate; [repeat split; reflexivity|].
  destruct (GL.allocates d n); simulate; repeat split; reflexivity.
Qed.

Lemma linkFailed_exit (l : nat) (w : World) :
  fst (linkFailed l w) = Some (CleanupFailed l) /\
  compiled (snd (linkFailed l w)) = false /\
  rafPending (snd (linkFailed l w)) = rafPending w /\
  requestRef (snd (linkFailed l w)) = requestRef w.
Proof. repeat split; reflexivity. Qed.

(** A helper of [webgl.ts] touches the runtime only. *)
Lemma rt_frame {A} (m : State Webgl.Runtime A) (w : World) :
  rafPending (snd (rt m w)) = rafPending w /\
  rafCounter (snd (rt m w)) = rafCounter w /\
  requestRef (snd (rt m w)) = requestRef w /\
  canvas (snd (rt m w)) = canvas w /\
  listeners (snd (rt m w)) = listeners w.
Proof. unfold rt. destruct (m (runtime w)). repeat split; reflexivity. Qed.

Lemma prepared_frame (b : Browser) (w : World) :
  rafPending (prepared b w) = rafPending w /\
  requestRef (prepared b w) = requestRef w.
Proof. split; reflexivity. Qed.

(** The shape of a run of the effect on an active, attached canvas with
    a context: it ends in exactly one of the three exits. *)
Lemma effect_exits (b : Browser) (src : jsstring) (now : float) (w : World) :
  canvasRef w = true -> webgl2 b = true ->
  exists w0 l,
    rafPending w0 = rafPending w /\ requestRef w0 = requestRef w /\
    ((exists fs, effect b src true now w = compileFailed b src fs l w0) \/
     effect b src true now w = linkFailed l w0 \/
     (exists p v f, effect b src true now w = goLive b now l p v f w0)).
Proof.
  intros Hc Hgl. remember (effect b src true now w) as r eqn:Er.
  unfold effect in Er.
  unfold bind at 1 in Er. unfold gets at 1 in Er. rewrite Hc, Hgl in Er.
  cbn [negb orb] in Er.
  unfold bind at 1 in Er. destruct (resize b w) as [[] w1] eqn:E1.
  unfold bind at 1 in Er. destruct (addResizeListener w1) as [l w2] eqn:E2.
  assert (H2 : rafPending w2 = rafPending w /\ requestRef w2 = requestRef w).
  { replace w2 with (prepared b w); [apply prepared_frame|].
    unfold prepared, exec. rewrite E1. cbn [snd]. rewrite E2. reflexivity. }
  destruct H2 as [H2p H2r].
  unfold bind at 1 in Er.
  destruct (rt (Webgl.createShader (driver b) GL.VERTEX_SHADER Webgl.DEFAULT_VERTEX_SHADER) w2)
    as [vs w3] eqn:E3.
  pose proof (rt_frame (Webgl.createShader (driver b) GL.VERTEX_SHADER Webgl.DEFAULT_VERTEX_SHADER) w2) as H3.
  rewrite E3 in H3. cbn [snd] in H3. destruct H3 as (H3p & _ & H3r & _).
  unfold bind at 1 in Er.
  destruct (rt (Webgl.createShader (driver b) GL.FRAGMENT_SHADER src) w3)
    as [fs w4] eqn:E4.
  pose proof (rt_frame (Webgl.createShader (driver b) GL.FRAGMENT_SHADER src) w3) as H4.
  rewrite E4 in H4. cbn [snd] in H4. destruct H4 as (H4p & _ & H4r & _).
  destruct vs as [v|]; [destruct fs as [f|]|].
  - unfold bind at 1 in Er.
    destruct (rt (Webgl.createProgram (driver b) v f) w4) as [pr w5] eqn:E5.
    pose proof (rt_frame (Webgl.createProgram (driver b) v f) w4) as H5.
    rewrite E5 in H5. cbn [snd] in H5. destruct H5 as (H5p & _ & H5r & _).
    exists w5, l. split; [congruence|]. split; [congruence|].
    destruct pr as [p|].
    + right. right. exists p, v, f. exact Er.
    + right. left. exact Er.
  - exists w4, l. split; [congruence|]. split; [congruence|].
    left. exists None. exact Er.
  - exists w4, l. split; [congruence|]. split; [congruence|].
    left. exists fs. exact Er.
Qed.

(** A run of the effect that returns the cleanup of the success exit went
    through [goLive]. *)
Lemma effect_live (b : Browser) (src : jsstring) (now : float) (w w' : World)
    (l p v f : nat) :
  effect b src true now w = (Some (CleanupLive l p v f), w') ->
  exists w0,
    rafPending w0 = rafPending w /\
    goLive b now l p v f w0 = (Some (CleanupLive l p v f), w').
Proof.
  intros H.
  destruct (canvasRef w) eqn:Hc.
  2: { unfold effect, bind, gets in H. rewrite Hc in H. discriminate H. }
  destruct (webgl2 b) eqn:Hgl.
  2: { unfold effect in H. unfold bind at 1 in H. unfold gets in H.
       rewrite Hc, Hgl in H. discriminate H. }
  destruct (effect_exits b src now w Hc Hgl) as (w0 & l0 & Hp & _ & Hex).
  destruct Hex as [[fs Hex] | [Hex | (p0 & v0 & f0 & Hex)]].
  - exfalso. destruct (compileFailed_exit b src fs l0 w0) as (Hf & _).
    rewrite <- Hex, H in Hf. discriminate Hf.
  - exfalso. destruct (linkFailed_exit l0 w0) as (Hf & _).
    rewrite <- Hex, H in Hf. discriminate Hf.
  - exists w0. split; [exact Hp|].
    assert (Hp0 : rafPending w0 = rafPending w0) by reflexivity.
    assert (Hfst : fst (goLive b now l0 p0 v0 f0 w0) = Some (CleanupLive l0 p0 v0 f0)).
    { unfold goLive, bind. repeat match goal with
        | |- context [let (_, _) := ?m in _] => destruct m
        end. reflexivity. }
    rewrite <- Hex, H in Hfst. injection Hfst as -> -> -> ->.
    rewrite <- Hex. exact H.
Qed.

(** The clock of a program that just became live: one callback is
    pending, [requestRef] names it, and it carries the time at which the
    effect ran as its start. *)
Lemma effect_clock (b : Browser) (src : jsstring) (now : float) (w w' : World)
    (l p v f : nat) :
  rafPending w = [] ->
  effect b src true now w = (Some (CleanupLive l p v f), w') ->
  exists cb,
    rafPending w' = [(requestRef w', cb)] /\
    r_program cb = p /\
    r_startTime cb = now /\
    error w' = None /\
    compiled w' = true /\
    quadBound w' (r_vao cb).
Proof.
  intros Hp H.
  destruct (effect_live _ _ _ _ _ _ _ _ _ H) as (w0 & Hp0 & Hgo).
  rewrite Hp in Hp0.
  destruct (goLive_spec b now l p v f w0 Hp0) as (cb & _ & Hgoal).
  rewrite Hgo in Hgoal. cbn [snd] in Hgoal.
  exists cb. exact Hgoal.
Qed.

(** The cleanup revokes the callback [requestRef] names. *)
Lemma cleanup_revokes (c : Cleanup) (w : World) (cb : RenderClosure) :
  rafPending w = [(requestRef w, cb)] ->
  rafPending (exec (runCleanup c) w) = [].
Proof.
  intros H.
  destruct w as [[[n os ab va cs] con] cv cr ls cl rc rp rr er cp].
  cbn [rafPending requestRef] in H. subst rp.
  destruct c; simulate; cbn [List.filter fst]; rewrite Nat.eqb_refl; reflexivity.
Qed.

Lemma cleanup_keeps_none (c : Cleanup) (w : World) :
  rafPending w = [] -> rafPending (exec (runCleanup c) w) = [].
Proof.
  intros H.
  destruct w as [[[n os ab va cs] con] cv cr ls cl rc rp rr er cp].
  cbn [rafPending] in H. subst rp.
  destruct c; simulate; reflexivity.
Qed.

(** ** The closure of a live program *)

(** A frame delivered at the very time the clock started passes zero. *)
Lemma elapsed_at_start (now : float) :
  PrimFloat.is_finite now = true -> ((now - now) * milli)%float = 0%float.
Proof.
  intros Hfin.
  assert (Hs : (now - now)%float = 0%float).
  { apply FloatAxioms.Prim2SF_inj. rewrite FloatAxioms.sub_spec.
    unfold PrimFloat.is_finite, PrimFloat.is_nan, PrimFloat.is_infinity in Hfin.
    rewrite !FloatAxioms.eqb_spec, FloatAxioms.abs_spec in Hfin.
    destruct (Prim2SF now) as [s|s| |s m e].
    - destruct s; reflexivity.
    - destruct s; discriminate Hfin.
    - discriminate Hfin.
    - unfold SF64sub, SFsub. rewrite Z.min_id.
      unfold shl_align. rewrite !Z.sub_diag. reflexivity. }
  rewrite Hs. reflexivity.
Qed.

(** What a run of the effect that reaches the success exit leaves
    behind: the program links the vertex shader of the preview with the
    fragment source, and the one pending callback holds that program, the
    locations the driver gives for [u_time] and [u_resolution] in it, and
    the time of the run.  When the driver hands out the buffer and the
    vertex array, the callback holds the vertex array, whose attribute
    [a_position] reads pairs from the buffer filled with [positions]. *)
Lemma effect_live_closure (b : Browser) (src : jsstring) (now : float)
    (w w' : World) (l p v f : nat) :
  rafPending w = [] ->
  effect b src true now w = (Some (CleanupLive l p v f), w') ->
  exists vao,
    rafPending w' =
      [(requestRef w',
        {| r_program := p; r_vao := vao;
           r_timeLocation :=
             GL.uniformLocation (driver b) (previewStages src) (lit "u_time");
           r_resolutionLocation :=
             GL.uniformLocation (driver b) (previewStages src) (lit "u_resolution");
           r_startTime := now |})] /\
    GL.stages (liveObjects w') p = previewStages src /\
    (GL.allocates (driver b) (S p) = true ->
     GL.allocates (driver b) (S (S p)) = true ->
     vao = Some (S (S p)) /\
     liveObjects w' !! S (S p) =
       Some (GL.OVertexArray
               [GL.attribLocation (driver b) (previewStages src) (lit "a_position")]
               [{| GL.ap_index :=
                     GL.attribLocation (driver b) (previewStages src) (lit "a_position");
                   GL.ap_buffer := Some (S p); GL.ap_size := 2 |}]) /\
     liveObjects w' !! S p = Some (GL.OBuffer positions)).
Proof.
  revert w' l p v f.
  destruct w as [[[n os ab va cs] con] cv cr ls cl rc rp rr er cp].
  destruct b as [d gl2 px].
  intros w' l p v f Hp. cbn [rafPending] in Hp. subst rp. revert w' l p v f.
  destruct cr, gl2; try (simulate; intros; discriminate).
  split_driver.
  all: intros w' l p v f H; try discriminate H.
  all: injection H as <- <- <- <- <-.
  all: rewrite ?insert_insert_eq.
  all: repeat (progress (unfold GL.stages;
         repeat first [rewrite lookup_insert_eq | rewrite lookup_insert_ne by lia];
         cbn [omap list_omap])).
  all: eexists; split; [reflexivity|]; split; [reflexivity|].
  all: intros Hbuf Hvao; try congruence.
  split; [reflexivity|]. split; reflexivity.
Qed.


(** ** The render loop *)



(** ** The frame clock *)

(** C6.  Whenever a run of the effect makes a program live at time [now]
    (the first run after mounting, or the run React makes after the
    cleanup when the source changed), a callback of a previous program is
    revoked, and the one pending callback carries [now] as its start and
    the location the driver gives for [u_time] in the new program.  In
    every later frame the value passed to [uniform1f] for [u_time], when
    the program has that uniform, is the time of the frame minus [now],
    in seconds: [(time - now) * 0.001], both times being in
    milliseconds.  The start of a previous program plays no part, and a
    frame delivered at time [now] passes zero. *)
Theorem frame_clock_restarts (b : Browser) (src : jsstring) (now : float)
    (c : option Cleanup) (i' : Instance) (w w' : World) (l p v f : nat) :
  (rafPending w = [] \/
   exists old k, c = Some k /\ rafPending w = [(requestRef w, old)]) ->
  activate b src true now c w = (i', w') ->
  cleanup i' = Some (CleanupLive l p v f) ->
  let u_time := GL.uniformLocation (driver b) (GL.stages (liveObjects w') p)
                  (lit "u_time") in
  GL.stages (liveObjects w') p =
    [(GL.VERTEX_SHADER, Webgl.DEFAULT_VERTEX_SHADER); (GL.FRAGMENT_SHADER, src)] /\
  exists cb,
    rafPending w' = [(requestRef w', cb)] /\
    r_program cb = p /\
    r_startTime cb = now /\
    r_timeLocation cb = u_time /\
    (forall times t,
      exists ks,
        glCalls (exec (frame t) (exec (frames times) w')) =
          glCalls (exec (frames times) w') ++ ks /\
        uniform1fValues ks =
          match u_time with
          | Some loc => [(loc, ((t - now) * milli)%float)]
          | None => []
          end) /\
    (PrimFloat.is_finite now = true ->
     forall times,
      exists ks,
        glCalls (exec (frame now) (exec (frames times) w')) =
          glCalls (exec (frames times) w') ++ ks /\
        uniform1fValues ks =
          match u_time with
          | Some loc => [(loc, 0%float)]
          | None => []
          end).
Proof.
  intros Hpend Hrun Hlive.
  unfold activate in Hrun. unfold bind at 1 in Hrun.
  destruct (runCleanupOpt c w) as [[] w1] eqn:E1.
  assert (Hp1 : rafPending w1 = []).
  { replace w1 with (exec (runCleanupOpt c) w) by (unfold exec; rewrite E1; reflexivity).
    destruct Hpend as [Hnone | (old & k & -> & Hone)].
    - destruct c as [k|]; [apply cleanup_keeps_none; exact Hnone | exact Hnone].
    - apply (cleanup_revokes k w old Hone). }
  unfold mounted, bind in Hrun.
  destruct (effect b src true now w1) as [c' w2] eqn:E2.
  unfold ret in Hrun. injection Hrun as <- <-.
  cbn [cleanup] in Hlive. subst c'.
  destruct (effect_live_closure _ _ _ _ _ _ _ _ _ Hp1 E2) as (vao & Hp2 & Hst & _).
  rewrite Hst. cbv zeta. fold (previewStages src).
  split; [reflexivity|].
  eexists. split; [exact Hp2|]. cbn [r_program r_startTime r_timeLocation].
  split; [reflexivity|]. split; [reflexivity|]. split; [reflexivity|].
  assert (Hframe : forall times t,
    exists ks,
      glCalls (exec (frame t) (exec (frames times) w2)) =
        glCalls (exec (frames times) w2) ++ ks /\
      uniform1fValues ks =
        match GL.uniformLocation (driver b) (previewStages src) (lit "u_time") with
        | Some loc => [(loc, ((t - now) * milli)%float)]
        | None => []
        end).
  { intros times t.
    destruct (frames_spec times w2 _ Hp2) as (_ & Hpn & _ & _).
    destruct (frame_spec t _ _ Hpn) as (Hcalls & _).
    eexists. split; [exact Hcalls|].
    unfold renderCalls. cbn [r_program r_vao r_startTime r_timeLocation r_resolutionLocation].
    destruct (GL.uniformLocation (driver b) (previewStages src) (lit "u_time")),
             (GL.uniformLocation (driver b) (previewStages src) (lit "u_resolution"));
      reflexivity. }
  split; [exact Hframe|].
  intros Hfin times. destruct (Hframe times now) as (ks & Hcalls & Hval).
  exists ks. split; [exact Hcalls|].
  rewrite Hval, (elapsed_at_start _ Hfin). reflexivity.
Qed.

Lemma frame_clock_restarts_witness :
  exists cb,
    rafPending
      (snd (rerender (Samples.browser Samples.healthy) Samples.snippet2 true 5000%float
              (fst (mounted (Samples.browser Samples.healthy) Samples.snippet true 0%float
                      (mount Samples.canvas0)))
              (snd (mounted (Samples.browser Samples.healthy) Samples.snippet true 0%float
                      (mount Samples.canvas0))))) = [(2, cb)] /\
    r_program cb = 7 /\
    r_startTime cb = 5000%float /\
    r_timeLocation cb = Some 0.
Proof.
  pose (b := Samples.browser Samples.healthy).
  pose (first := mounted b Samples.snippet true 0%float (mount Samples.canvas0)).
  pose (second := rerender b Samples.snippet2 true 5000%float (fst first) (snd first)).
  destruct (frame_clock_restarts b Samples.snippet2 5000%float
              (Some (CleanupLive 0 2 0 1)) (fst second) (snd first) (snd second)
              1 7 5 6)
    as (_ & cb & Hpend & Hprog & Hstart & Htime & _).
  - right.
    exists {| r_program := 2; r_vao := Some 4; r_timeLocation := Some 0;
              r_resolutionLocation := Some 1; r_startTime := 0%float |},
           (CleanupLive 0 2 0 1).
    split; [reflexivity|]. vm_compute. reflexivity.
  - vm_compute. reflexivity.
  - vm_compute. reflexivity.
  - exists cb. split; [etransitivity; [exact Hpend|]; vm_compute; reflexivity|].
    split; [exact Hprog|]. split; [exact Hstart|].
    etransitivity; [exact Htime|]. vm_compute. reflexivity.
Defined.

(** With the clock started at 0, the frame delivered at 1000 milliseconds
    passes one second to [uniform1f]. *)
Lemma time_uniform_in_seconds :
  uniform1fValues
    (glCalls (exec (frame 1000%float)
                (snd (mounted (Samples.browser Samples.healthy) Samples.snippet true
                        0%float (mount Samples.canvas0))))) = [(0, 1%float)].
Proof. vm_compute. reflexivity. Qed.

(** ** What stays allocated *)

(** C1, on any driver that hands out objects, compiles the vertex stage
    and rejects the fragment source.  The effect ends in the failure exit
    with [compiled = false] and no program, and [error] is whatever
    [getShaderInfoLog] returned, [null] or the empty string included.  Of
    the three shaders created, only the fragment shader rejected inside
    [createShader] is deleted: the vertex shader and the temporary shader
    compiled to fetch the log are still allocated, and the cleanup
    closure of that exit does not delete them either. *)
Theorem fragment_failure_leaks (b : Browser) (src : jsstring) (now : float) (w : World) :
  canvasRef w = true ->
  webgl2 b = true ->
  (forall k, GL.allocates (driver b) k = true) ->
  GL.compiles (driver b) GL.VERTEX_SHADER Webgl.DEFAULT_VERTEX_SHADER = true ->
  GL.compiles (driver b) GL.FRAGMENT_SHADER src = false ->
  liveObjects w !! S (GL.created (Webgl.ctx (runtime w))) = None ->
  cleanup (fst (mounted b src true now w)) = Some (CleanupFailed (closures w)) /\
  compiled (snd (mounted b src true now w)) = false /\
  error (snd (mounted b src true now w)) =
    GL.shaderInfoLog (driver b) GL.FRAGMENT_SHADER src /\
  liveObjects (snd (mounted b src true now w)) =
    <[ S (S (GL.created (Webgl.ctx (runtime w)))) :=
         GL.OShader GL.FRAGMENT_SHADER src false ]>
      (<[ GL.created (Webgl.ctx (runtime w)) :=
            GL.OShader GL.VERTEX_SHADER Webgl.DEFAULT_VERTEX_SHADER true ]>
         (liveObjects w)) /\
  liveObjects (exec (unmount (fst (mounted b src true now w)))
                 (snd (mounted b src true now w))) =
    liveObjects (snd (mounted b src true now w)).
Proof.
  intros Hc Hgl Halloc Hvs Hfs Hfresh.
  destruct w as [[[n os ab va cs] con] cv cr ls cl rc rp rr er cp].
  destruct b as [d gl2 px].
  cbn [canvasRef webgl2 driver liveObjects runtime Webgl.ctx GL.objects
       GL.created closures] in *.
  subst cr gl2. simulate.
  repeat (progress (rewrite ?Halloc, ?Hvs, ?Hfs, ?lookup_insert_eq); simulate).
  do 3 (split; [reflexivity|]). split; [|reflexivity].
  rewrite !insert_insert_eq, delete_insert_eq.
  rewrite delete_id; [reflexivity|].
  rewrite lookup_insert_ne by lia. exact Hfresh.
Qed.

Lemma fragment_failure_leaks_witness :
  error (snd (mounted (Samples.browser (Samples.rejecting None)) Samples.broken true
                0%float (mount Samples.canvas0))) = None /\
  liveObjects (snd (mounted (Samples.browser (Samples.rejecting None)) Samples.broken true
                      0%float (mount Samples.canvas0))) =
    {[ 0 := GL.OShader GL.VERTEX_SHADER Webgl.DEFAULT_VERTEX_SHADER true;
       2 := GL.OShader GL.FRAGMENT_SHADER Samples.broken false ]}.
Proof.
  destruct (fragment_failure_leaks (Samples.browser (Samples.rejecting None))
              Samples.broken 0%float (mount Samples.canvas0))
    as (_ & _ & Herr & Hobj & _).
  - reflexivity.
  - reflexivity.
  - intros k. reflexivity.
  - reflexivity.
  - reflexivity.
  - reflexivity.
  - split; [exact Herr|]. etransitivity; [exact Hobj|]. vm_compute. reflexivity.
Defined.

(** C3, on any driver on which every call of the effect succeeds.
    Unmounting a live preview removes the resize listener, revokes the
    pending frame callback and deletes the program and both shaders; the
    vertex buffer and the vertex array the effect created stay
    allocated. *)
Theorem deactivation_leaks_geometry (b : Browser) (src : jsstring) (now : float)
    (w : World) :
  canvasRef w = true ->
  webgl2 b = true ->
  (forall k, GL.allocates (driver b) k = true) ->
  (forall ty s, GL.compiles (driver b) ty s = true) ->
  (forall st, GL.links (driver b) st = true) ->
  rafPending w = [] ->
  cleanup (fst (mounted b src true now w)) =
    Some (CleanupLive (closures w)
            (S (S (GL.created (Webgl.ctx (runtime w)))))
            (GL.created (Webgl.ctx (runtime w)))
            (S (GL.created (Webgl.ctx (runtime w))))) /\
  compiled (snd (mounted b src true now w)) = true /\
  rafPending (exec (unmount (fst (mounted b src true now w)))
                (snd (mounted b src true now w))) = [] /\
  liveObjects (exec (unmount (fst (mounted b src true now w)))
                 (snd (mounted b src true now w)))
    !! S (S (S (GL.created (Webgl.ctx (runtime w))))) = Some (GL.OBuffer positions) /\
  exists index,
    liveObjects (exec (unmount (fst (mounted b src true now w)))
                   (snd (mounted b src true now w)))
      !! S (S (S (S (GL.created (Webgl.ctx (runtime w)))))) =
    Some (GL.OVertexArray [index]
            [{| GL.ap_index := index;
                GL.ap_buffer := Some (S (S (S (GL.created (Webgl.ctx (runtime w))))));
                GL.ap_size := 2 |}]).
Proof.
  intros Hc Hgl Halloc Hcomp Hlink Hpend.
  destruct w as [[[n os ab va cs] con] cv cr ls cl rc rp rr er cp].
  destruct b as [d gl2 px].
  cbn [canvasRef webgl2 driver liveObjects runtime Webgl.ctx GL.objects
       GL.created closures rafPending] in *.
  subst cr gl2 rp. simulate.
  repeat (progress (rewrite ?Halloc, ?Hcomp, ?Hlink, ?lookup_insert_eq,
                      ?(lookup_insert_ne (M := gmap nat)) by lia); simulate).
  do 2 (split; [reflexivity|]).
  split.
  { cbn [app List.filter]. rewrite Nat.eqb_refl. reflexivity. }
  split.
  - rewrite !lookup_delete_ne by lia. rewrite !lookup_insert_ne by lia.
    apply lookup_insert_eq.
  - eexists. rewrite !lookup_delete_ne by lia. apply lookup_insert_eq.
Qed.

Lemma deactivation_leaks_geometry_witness :
  liveObjects (exec (unmount (fst (mounted (Samples.browser Samples.healthy)
                                      Samples.snippet true 0%float
                                      (mount Samples.canvas0))))
                 (snd (mounted (Samples.browser Samples.healthy) Samples.snippet true
                         0%float (mount Samples.canvas0))))
    !! 3 = Some (GL.OBuffer positions).
Proof.
  destruct (deactivation_leaks_geometry (Samples.browser Samples.healthy)
              Samples.snippet 0%float (mount Samples.canvas0))
    as (_ & _ & _ & Hbuf & _).
  - reflexivity.
  - reflexivity.
  - intros k. reflexivity.
  - intros ty s. reflexivity.
  - intros st. reflexivity.
  - reflexivity.
  - exact Hbuf.
Defined.

(** On the sample driver the two objects are all that is left, whether
    the preview is deactivated or unmounted. *)
Lemma deactivation_leaves_two_objects (now later : float) :
  let b := Samples.browser Samples.healthy in
  let live := mounted b Samples.snippet true now (mount Samples.canvas0) in
  let off := rerender b Samples.snippet false later (fst live) (snd live) in
  cleanup (fst off) = None /\
  rafPending (snd off) = [] /\
  listeners (snd off) = [] /\
  liveObjects (snd off) =
    {[ 3 := GL.OBuffer positions;
       4 := GL.OVertexArray [0%Z]
              [{| GL.ap_index := 0; GL.ap_buffer := Some 3; GL.ap_size := 2 |}] ]} /\
  liveObjects (exec (unmount (fst live)) (snd live)) = liveObjects (snd off).
Proof. vm_compute. repeat split; reflexivity. Qed.

End PreviewFacts.

(* ===================================================================== *)
(** * The handlers of the application *)
(* ===================================================================== *)

Module AppFacts.
Import JS JSFacts Gemini App.



(** React keeps the preview as it is when neither the tab nor the output
    code changed. *)
Lemma commit_same (b : Preview.Browser) (cv : Preview.Canvas) (now : float)
    (s s' : AppState) (pv : option (Preview.Instance * Preview.World)) :
  shows s pv ->
  outputCode s' = outputCode s -> activeTab s' = activeTab s ->
  commit b cv now s' pv = pv.
Proof.
  intros Hshow Hout Htab. unfold commit, shows, previewProps in *.
  rewrite Hout, Htab. destruct (activeTab s).
  - destruct pv as [[i w]|]; [contradiction | reflexivity].
  - destruct pv as [[i w]|]; [|contradiction].
    unfold Preview.rerender. rewrite bool_decide_eq_true_2 by exact Hshow.
    reflexivity.
Qed.




End AppFacts.

(* ===================================================================== *)
(** * More on the helpers of [webgl.ts] *)
(* ===================================================================== *)

Module WebglMore.
Import JS JSFacts Webgl.

(** X1.  When the driver hands out a shader and compiles the source,
    [createShader] returns the new handle, which is the one the context
    had not used yet; the context gains that shader, holding the source
    and marked compiled; nothing is deleted and nothing is written to the
    console. *)
Theorem createShader_success (d : GL.Driver) (type : GL.ShaderType)
    (source : jsstring) (r : Runtime) :
  GL.allocates d (GL.created (ctx r)) = true ->
  GL.compiles d type source = true ->
  exists r',
    createShader d type source r = (Some (GL.created (ctx r)), r') /\
    GL.objects (ctx r') =
      <[ GL.created (ctx r) := GL.OShader type source true ]> (GL.objects (ctx r)) /\
    GL.created (ctx r') = S (GL.created (ctx r)) /\
    console r' = console r /\
    GL.calls (ctx r') =
      GL.calls (ctx r) ++
        [GL.CreateShader type;
         GL.ShaderSource (GL.created (ctx r)) source;
         GL.CompileShader (GL.created (ctx r))].
Proof.
  intros Halloc Hok.
  destruct r as [[n os ab va cs] con].
  cbn [ctx console GL.created GL.objects GL.calls] in *.
  unfold createShader. simulate.
  repeat (progress (rewrite ?Halloc, ?Hok, ?lookup_insert_eq); simulate).
  eexists. split; [reflexivity|]. simulate.
  split; [rewrite !insert_insert_eq; reflexivity|].
  split; [reflexivity|]. split; [reflexivity|].
  rewrite <- !app_assoc. reflexivity.
Qed.

Lemma createShader_success_witness :
  exists r',
    createShader Samples.healthy GL.FRAGMENT_SHADER Samples.snippet boot = (Some 0, r') /\
    GL.objects (ctx r') = {[ 0 := GL.OShader GL.FRAGMENT_SHADER Samples.snippet true ]} /\
    console r' = [].
Proof.
  destruct (createShader_success Samples.healthy GL.FRAGMENT_SHADER Samples.snippet boot)
    as (r' & Hrun & Hobj & _ & Hcon & _); [reflexivity | reflexivity |].
  exists r'. split; [exact Hrun|]. split; [exact Hobj | exact Hcon].
Defined.

(** X2.  When the context cannot hand out a shader ([gl.createShader]
    returns [null]), [createShader] returns [null] at once: no source is
    set, nothing is compiled, and nothing is written to the console. *)
Theorem createShader_without_handle (d : GL.Driver) (type : GL.ShaderType)
    (source : jsstring) (r : Runtime) :
  GL.allocates d (GL.created (ctx r)) = false ->
  exists r',
    createShader d type source r = (None, r') /\
    GL.objects (ctx r') = GL.objects (ctx r) /\
    console r' = console r /\
    GL.calls (ctx r') = GL.calls (ctx r) ++ [GL.CreateShader type].
Proof.
  intros Halloc.
  destruct r as [[n os ab va cs] con].
  cbn [ctx console GL.created GL.objects GL.calls] in *.
  unfold createShader. simulate. rewrite Halloc. simulate.
  eexists. split; [reflexivity|]. simulate. repeat split; reflexivity.
Qed.

Lemma createShader_without_handle_witness :
  exists r',
    createShader Samples.lost GL.VERTEX_SHADER DEFAULT_VERTEX_SHADER boot = (None, r') /\
    console r' = [] /\
    GL.calls (ctx r') = [GL.CreateShader GL.VERTEX_SHADER].
Proof.
  destruct (createShader_without_handle Samples.lost GL.VERTEX_SHADER
              DEFAULT_VERTEX_SHADER boot)
    as (r' & Hrun & _ & Hcon & Hcalls); [reflexivity|].
  exists r'. split; [exact Hrun|]. split; [exact Hcon | exact Hcalls].
Defined.

(** The stages of a program to which two live shaders were attached. *)
Lemma stages_two (os : gmap nat GL.Obj) (p vs fs : nat) (ok : bool)
    (t1 t2 : GL.ShaderType) (s1 s2 : jsstring) (c1 c2 : bool) :
  os !! p = None ->
  os !! vs = Some (GL.OShader t1 s1 c1) ->
  os !! fs = Some (GL.OShader t2 s2 c2) ->
  GL.stages (<[p := GL.OProgram [vs; fs] ok]> os) p = [(t1, s1); (t2, s2)].
Proof.
  intros Hp Hvs Hfs. unfold GL.stages. rewrite lookup_insert_eq.
  assert (vs <> p) by congruence. assert (fs <> p) by congruence.
  cbn [omap list_omap]. rewrite !lookup_insert_ne by congruence.
  rewrite Hvs, Hfs. reflexivity.
Qed.

(** X3.  When the driver hands out a program and then reports that the
    two stages do not link, [createProgram] returns [null], passes the
    driver's program log, whatever it is, to [console.warn], and deletes
    the program.  It does not delete the two shaders it was given: the
    context holds exactly the objects it held before the call. *)
Theorem createProgram_link_failure (d : GL.Driver) (vs fs : nat) (r : Runtime)
    (t1 t2 : GL.ShaderType) (s1 s2 : jsstring) (c1 c2 : bool) :
  GL.allocates d (GL.created (ctx r)) = true ->
  GL.objects (ctx r) !! GL.created (ctx r) = None ->
  GL.objects (ctx r) !! vs = Some (GL.OShader t1 s1 c1) ->
  GL.objects (ctx r) !! fs = Some (GL.OShader t2 s2 c2) ->
  GL.links d [(t1, s1); (t2, s2)] = false ->
  exists r',
    createProgram d vs fs r = (None, r') /\
    GL.objects (ctx r') = GL.objects (ctx r) /\
    console r' = console r ++ [GL.programInfoLog d [(t1, s1); (t2, s2)]] /\
    GL.calls (ctx r') =
      GL.calls (ctx r) ++
        [GL.CreateProgram;
         GL.AttachShader (GL.created (ctx r)) vs;
         GL.AttachShader (GL.created (ctx r)) fs;
         GL.LinkProgram (GL.created (ctx r));
         GL.DeleteProgram (GL.created (ctx r))].
Proof.
  intros Halloc Hfresh Hvs Hfs Hlink.
  destruct r as [[n os ab va cs] con].
  cbn [ctx console GL.created GL.objects GL.calls] in *.
  unfold createProgram. simulate.
  repeat (progress (rewrite ?Halloc, ?lookup_insert_eq, ?insert_insert_eq); simulate).
  cbn [app].
  rewrite !(stages_two os n vs fs _ t1 t2 s1 s2 c1 c2 Hfresh Hvs Hfs).
  rewrite Hlink. simulate.
  repeat (progress (rewrite ?lookup_insert_eq, ?insert_insert_eq); simulate).
  rewrite ?(stages_two os n vs fs _ t1 t2 s1 s2 c1 c2 Hfresh Hvs Hfs).
  eexists. split; [reflexivity|]. simulate.
  split; [|split].
  - rewrite ?insert_insert_eq, delete_insert_eq. apply delete_id. exact Hfresh.
  - reflexivity.
  - rewrite <- !app_assoc. reflexivity.
Qed.


Lemma createProgram_link_failure_witness :
  exists r',
    createProgram (Samples.unlinkable None) 0 1
      (snd (createShader (Samples.unlinkable None) GL.FRAGMENT_SHADER Samples.snippet
              (snd (createShader (Samples.unlinkable None) GL.VERTEX_SHADER
                      DEFAULT_VERTEX_SHADER boot)))) = (None, r') /\
    GL.objects (ctx r') =
      {[ 0 := GL.OShader GL.VERTEX_SHADER DEFAULT_VERTEX_SHADER true;
         1 := GL.OShader GL.FRAGMENT_SHADER Samples.snippet true ]} /\
    console r' = [None].
Proof.
  destruct (createProgram_link_failure (Samples.unlinkable None) 0 1
              (snd (createShader (Samples.unlinkable None) GL.FRAGMENT_SHADER
                      Samples.snippet
                      (snd (createShader (Samples.unlinkable None) GL.VERTEX_SHADER
                              DEFAULT_VERTEX_SHADER boot))))
              GL.VERTEX_SHADER GL.FRAGMENT_SHADER DEFAULT_VERTEX_SHADER Samples.snippet
              true true)
    as (r' & Hrun & Hobj & Hcon & _).
  - reflexivity.
  - vm_compute. reflexivity.
  - vm_compute. reflexivity.
  - vm_compute. reflexivity.
  - reflexivity.
  - exists r'. split; [exact Hrun|]. split.
    + etransitivity; [exact Hobj|]. vm_compute. reflexivity.
    + exact Hcon.
Defined.

(** X4.  When the driver hands out a program and links the two stages,
    [createProgram] returns the new handle; the context gains a linked
    program with the vertex shader attached first and the fragment shader
    second; the shaders stay as they were and nothing is written to the
    console. *)
Theorem createProgram_success (d : GL.Driver) (vs fs : nat) (r : Runtime)
    (t1 t2 : GL.ShaderType) (s1 s2 : jsstring) (c1 c2 : bool) :
  GL.allocates d (GL.created (ctx r)) = true ->
  GL.objects (ctx r) !! GL.created (ctx r) = None ->
  GL.objects (ctx r) !! vs = Some (GL.OShader t1 s1 c1) ->
  GL.objects (ctx r) !! fs = Some (GL.OShader t2 s2 c2) ->
  GL.links d [(t1, s1); (t2, s2)] = true ->
  exists r',
    createProgram d vs fs r = (Some (GL.created (ctx r)), r') /\
    GL.objects (ctx r') =
      <[ GL.created (ctx r) := GL.OProgram [vs; fs] true ]> (GL.objects (ctx r)) /\
    console r' = console r.
Proof.
  intros Halloc Hfresh Hvs Hfs Hlink.
  destruct r as [[n os ab va cs] con].
  cbn [ctx console GL.created GL.objects GL.calls] in *.
  unfold createProgram. simulate.
  repeat (progress (rewrite ?Halloc, ?lookup_insert_eq, ?insert_insert_eq); simulate).
  cbn [app].
  rewrite !(stages_two os n vs fs _ t1 t2 s1 s2 c1 c2 Hfresh Hvs Hfs).
  rewrite Hlink. simulate.
  repeat (progress (rewrite ?lookup_insert_eq, ?insert_insert_eq); simulate).
  eexists. split; [reflexivity|]. simulate.
  split; reflexivity.
Qed.

Lemma createProgram_success_witness :
  exists r',
    createProgram Samples.healthy 0 1
      (snd (createShader Samples.healthy GL.FRAGMENT_SHADER Samples.snippet
              (snd (createShader Samples.healthy GL.VERTEX_SHADER
                      DEFAULT_VERTEX_SHADER boot)))) = (Some 2, r') /\
    GL.objects (ctx r') !! 2 = Some (GL.OProgram [0; 1] true).
Proof.
  destruct (createProgram_success Samples.healthy 0 1
              (snd (createShader Samples.healthy GL.FRAGMENT_SHADER Samples.snippet
                      (snd (createShader Samples.healthy GL.VERTEX_SHADER
                              DEFAULT_VERTEX_SHADER boot))))
              GL.VERTEX_SHADER GL.FRAGMENT_SHADER DEFAULT_VERTEX_SHADER Samples.snippet
              true true)
    as (r' & Hrun & Hobj & _).
  - reflexivity.
  - vm_compute. reflexivity.
  - vm_compute. reflexivity.
  - vm_compute. reflexivity.
  - reflexivity.
  - exists r'. split; [exact Hrun|]. rewrite Hobj. apply lookup_insert_eq.
Defined.

(** ** [formatForPreview] *)

Lemma includes_app_l (a b pat : jsstring) :
  includes a pat = true -> includes (a ++ b) pat = true.
Proof.
  intros H. apply includes_spec in H as (pre & post & ->).
  rewrite <- !app_assoc. apply includes_intro.
Qed.

(** The output always carries a version pragma. *)
Lemma formatForPreview_has_version (userCode : jsstring) :
  includes (formatForPreview userCode) (lit "#version") = true.
Proof.
  unfold formatForPreview.
  destruct (includes userCode (lit "#version")) eqn:E; [exact E|].
  apply includes_app_l. vm_compute. reflexivity.
Qed.

(** X5.  Formatting is idempotent: text that went through
    [formatForPreview] once is returned unchanged the second time, so a
    snippet is never wrapped twice. *)
Theorem formatForPreview_idempotent (userCode : jsstring) :
  formatForPreview (formatForPreview userCode) = formatForPreview userCode.
Proof.
  unfold formatForPreview at 1.
  rewrite formatForPreview_has_version. reflexivity.
Qed.

(** X6.  The texts [formatForPreview] leaves unchanged are exactly those
    that contain [#version]; every other text comes back longer, by the
    fixed length of the preamble and the fallback [main]. *)
Theorem formatForPreview_fixed_points (userCode : jsstring) :
  (formatForPreview userCode = userCode <->
   includes userCode (lit "#version") = true) /\
  (includes userCode (lit "#version") = false ->
   length (formatForPreview userCode) =
     length userCode + length PREAMBLE + length FALLBACK_MAIN).
Proof.
  assert (Hlen : includes userCode (lit "#version") = false ->
                 length (formatForPreview userCode) =
                   length userCode + length PREAMBLE + length FALLBACK_MAIN).
  { intros E. unfold formatForPreview. rewrite E.
    rewrite !length_app. lia. }
  split; [|exact Hlen].
  split.
  - intros Hfix. destruct (includes userCode (lit "#version")) eqn:E; [reflexivity|].
    exfalso. specialize (Hlen eq_refl). rewrite Hfix in Hlen.
    assert (0 < length PREAMBLE) by (vm_compute; lia). lia.
  - intros E. unfold formatForPreview. rewrite E. reflexivity.
Qed.

End WebglMore.

(* ===================================================================== *)
(** * More on the translation client *)
(* ===================================================================== *)

Module GeminiMore.
Import JS JSFacts Gemini.

Lemma or_default_truthy (v : option jsstring) (d : jsstring) :
  truthy d = true -> truthy (or_default v d) = true.
Proof.
  intros Hd. unfold or_default. destruct v as [s|]; [|exact Hd].
  destruct (truthy s) eqn:E; [exact E | exact Hd].
Qed.

(** [v || d] is [d], or the string [v] holds. *)
Lemma or_default_cases (v : option jsstring) (d : jsstring) :
  or_default v d = d \/ v = Some (or_default v d).
Proof.
  unfold or_default. destruct v as [s|]; [|left; reflexivity].
  destruct (truthy s); [right; reflexivity | left; reflexivity].
Qed.

Lemma nonblank_trim (code : jsstring) :
  forallb isWhiteSpace code = false -> truthy (trim code) = true.
Proof.
  intros H. destruct (trim code) eqn:E; [|reflexivity].
  apply trim_nil_iff in E. congruence.
Qed.

(** X7.  [transpileShader] issues exactly one request when the code has a
    character that is not whitespace, and none otherwise; the request
    names the model [gemini-2.5-flash], carries the prompt built from the
    code and the two languages, and asks for a JSON response. *)
Theorem transpileShader_requests (svc : Service) (code : jsstring)
    (sourceLang targetLang : ShaderLanguage) (n : Net) :
  sent (snd (transpileShader svc code sourceLang targetLang n)) =
    sent n ++
      (if forallb isWhiteSpace code then []
       else [{| model := lit "gemini-2.5-flash";
                contents := TranspilePrompt code sourceLang targetLang;
                responseMimeType := Some (lit "application/json") |}]).
Proof.
  unfold transpileShader.
  destruct (forallb isWhiteSpace code) eqn:Hb.
  - rewrite (proj2 (trim_nil_iff code) Hb). cbn. rewrite app_nil_r. reflexivity.
  - rewrite (nonblank_trim _ Hb). cbn [negb].
    unfold bind, request, console_error, modify, ret.
    destruct (generateContent svc (length (sent n)) _) as [[[|c t]|]|m];
      try destruct (JSON_parse svc (c :: t)); reflexivity.
Qed.

(** The message of a rejection made in a [catch] block starts with the
    block's prefix, unless the value caught was [null] or [undefined]:
    then it is the engine's message for the failed read. *)
Lemma rethrow_message {A} (svc : Service) (prefix : jsstring) (e : Thrown) :
  exists msg, @rethrow svc A prefix e = Rejected msg /\
    match e with
    | ThrownNullish => msg = typeErrorMessage svc
    | ThrownValue m => msg = prefix ++ render m
    end.
Proof. destruct e as [|m]; eexists; split; reflexivity. Qed.

(** X8.  On code that is not blank, [transpileShader] either resolves
    with a non-empty [code] and a non-empty [explanation] (a field the
    response lacks is replaced by a fixed text) and writes nothing to the
    console, or rejects after passing what it caught to [console.error],
    once.  The rejection message starts with "Transpilation failed: ",
    except when the service threw [null] or [undefined]: then it is the
    message of the [TypeError] of the read of [error.message]. *)
Theorem transpileShader_outcomes (svc : Service) (code : jsstring)
    (sourceLang targetLang : ShaderLanguage) (n : Net) :
  forallb isWhiteSpace code = false ->
  match fst (transpileShader svc code sourceLang targetLang n) with
  | Resolved r =>
      truthy (Gemini.code r) = true /\
      truthy (explanation r) = true /\
      consoleErrors (snd (transpileShader svc code sourceLang targetLang n)) =
        consoleErrors n
  | Rejected msg =>
      (exists line,
        consoleErrors (snd (transpileShader svc code sourceLang targetLang n)) =
          consoleErrors n ++ [line]) /\
      match generateContent svc (length (sent n))
              (transpileRequest code sourceLang targetLang) with
      | Throws ThrownNullish =>
          msg = typeErrorMessage svc /\
          consoleErrors (snd (transpileShader svc code sourceLang targetLang n)) =
            consoleErrors n ++ [ThrownNullish]
      | _ => startsWith (lit "Transpilation failed: ") msg = true
      end
  end.
Proof.
  intros Hb. unfold transpileShader. rewrite (nonblank_trim _ Hb). cbn [negb].
  unfold bind, request, console_error, modify, ret.
  destruct (generateContent svc (length (sent n)) _) as [[[|c t]|]|[|m]];
    cbn [fst snd consoleErrors rethrow].
  - split; [eexists; reflexivity | apply startsWith_app].
  - destruct (JSON_parse svc (c :: t)) as [m|jc je];
      cbn [fst snd consoleErrors Gemini.code explanation rethrow].
    + split; [eexists; reflexivity | apply startsWith_app].
    + split; [apply or_default_truthy; reflexivity|].
      split; [apply or_default_truthy; reflexivity | reflexivity].
  - split; [eexists; reflexivity | apply startsWith_app].
  - split; [eexists; reflexivity|]. split; reflexivity.
  - split; [eexists; reflexivity | apply startsWith_app].
Qed.

Lemma transpileShader_outcomes_witness :
  fst (transpileShader (Samples.answering None None) Samples.snippet HLSL GLSL offline) =
    Resolved {| Gemini.code := lit "// Error parsing generated code";
                explanation := lit "No explanation provided." |} /\
  truthy (lit "// Error parsing generated code") = true.
Proof.
  pose proof (transpileShader_outcomes (Samples.answering None None) Samples.snippet
                HLSL GLSL offline eq_refl) as H.
  split; [reflexivity|]. exact (proj1 H).
Defined.

(** X9.  [optimizeShader] has no guard for blank code: it always issues
    exactly one request, and it never writes to the console.  When it
    resolves, the explanation is not empty and the code is either the
    [code] field the response carried or, when that field is missing or
    empty, the input code itself.  A rejection message starts with
    "Optimization failed: ", except when the service threw [null] or
    [undefined]: then it is the message of the [TypeError] of the read of
    [error.message]. *)
Theorem optimizeShader_outcomes (svc : Service) (code : jsstring)
    (lang : ShaderLanguage) (n : Net) :
  sent (snd (optimizeShader svc code lang n)) = sent n ++ [optimizeRequest code lang] /\
  consoleErrors (snd (optimizeShader svc code lang n)) = consoleErrors n /\
  match fst (optimizeShader svc code lang n) with
  | Resolved r =>
      truthy (explanation r) = true /\
      (Gemini.code r = code \/
       exists text jexplanation,
         generateContent svc (length (sent n)) (optimizeRequest code lang) = Responds text /\
         JSON_parse svc (or_default text (lit "{}")) =
           ParsedFields (Some (Gemini.code r)) jexplanation /\
         truthy (Gemini.code r) = true)
  | Rejected msg =>
      match generateContent svc (length (sent n)) (optimizeRequest code lang) with
      | Throws ThrownNullish => msg = typeErrorMessage svc
      | _ => startsWith (lit "Optimization failed: ") msg = true
      end
  end.
Proof.
  unfold optimizeShader, bind, request, ret.
  destruct (generateContent svc (length (sent n)) _) as [text|[|m]] eqn:Eg;
    cbn [fst snd sent consoleErrors rethrow].
  - destruct (JSON_parse svc (or_default text (lit "{}"))) as [m|jc je] eqn:Ej;
      cbn [fst snd sent consoleErrors Gemini.code explanation rethrow].
    + split; [reflexivity|]. split; [reflexivity|]. apply startsWith_app.
    + split; [reflexivity|]. split; [reflexivity|].
      split; [apply or_default_truthy; reflexivity|].
      destruct jc as [s|]; [|left; reflexivity].
      cbn [or_default]. destruct (truthy s) eqn:Es; [|left; reflexivity].
      right. exists text, je. split; [reflexivity|]. split; [exact Ej | exact Es].
  - split; [reflexivity|]. split; reflexivity.
  - split; [reflexivity|]. split; [reflexivity|]. apply startsWith_app.
Qed.

(** X10.  [analyzeShader] always issues exactly one request, without a
    response type, and never writes to the console.  When it resolves,
    the string it resolves with is not empty.  It rejects only when the
    service throws [null] or [undefined], with the message of the
    [TypeError] of the read of [error.message]. *)
Theorem analyzeShader_outcomes (svc : Service) (code : jsstring)
    (lang : ShaderLanguage) (n : Net) :
  sent (snd (analyzeShader svc code lang n)) =
    sent n ++ [{| model := lit "gemini-2.5-flash";
                  contents := AnalyzePrompt code lang;
                  responseMimeType := None |}] /\
  consoleErrors (snd (analyzeShader svc code lang n)) = consoleErrors n /\
  match fst (analyzeShader svc code lang n) with
  | Resolved text =>
      truthy text = true /\
      generateContent svc (length (sent n)) (analyzeRequest code lang) <>
        Throws ThrownNullish
  | Rejected msg =>
      msg = typeErrorMessage svc /\
      generateContent svc (length (sent n)) (analyzeRequest code lang) =
        Throws ThrownNullish
  end.
Proof.
  unfold analyzeShader, bind, request, ret.
  destruct (generateContent svc (length (sent n)) _) as [text|[|m]];
    cbn [fst snd sent consoleErrors].
  - split; [reflexivity|]. split; [reflexivity|].
    split; [apply or_default_truthy; reflexivity | discriminate].
  - split; [reflexivity|]. split; [reflexivity|]. split; reflexivity.
  - split; [reflexivity|]. split; [reflexivity|].
    split; [reflexivity | discriminate].
Qed.

End GeminiMore.

(* ===================================================================== *)
(** * More on the handlers of the application *)
(* ===================================================================== *)

Module AppMore.
Import JS JSFacts Gemini App.

(** X11.  With an empty source, the optimize and analyze handlers return
    at once: no request is issued, nothing is logged, and no cell of the
    component changes, [isProcessing] included. *)
Theorem handlers_without_source (svc : Service) (stamp : nat -> jsstring * float)
    (k : ServiceCall) (p : Page) :
  k <> Translate ->
  inputCode (state p) = [] ->
  handler svc stamp k p = (tt, p).
Proof.
  intros Hk Hin. destruct p as [[il ol ic oc lg ip tab ex] n st].
  cbn [state inputCode] in Hin. subst ic.
  destruct k; [congruence | reflexivity | reflexivity].
Qed.

Lemma handlers_without_source_witness :
  handler Samples.unreachable Samples.stamp0 Optimize Samples.emptyPage =
    (tt, Samples.emptyPage).
Proof.
  apply (handlers_without_source Samples.unreachable Samples.stamp0 Optimize
           Samples.emptyPage).
  - intros H. discriminate H.
  - reflexivity.
Defined.

(** X12.  The translate handler has no guard of its own.  On a source
    that is empty or all whitespace it issues no request, yet it replaces
    the output code by the empty string and the explanation by
    "No code provided.", and logs the opening info entry and then
    "Compilation successful.". *)
Theorem handleTranspile_blank_source (svc : Service) (stamp : nat -> jsstring * float)
    (p : Page) :
  forallb isWhiteSpace (inputCode (state p)) = true ->
  outputCode (state (exec (handleTranspile svc stamp) p)) = [] /\
  explanation (state (exec (handleTranspile svc stamp) p)) = lit "No code provided." /\
  net (exec (handleTranspile svc stamp) p) = net p /\
  isProcessing (state (exec (handleTranspile svc stamp) p)) = false /\
  exists top opening,
    logs (state (exec (handleTranspile svc stamp) p)) = top :: opening :: logs (state p) /\
    type opening = LInfo /\
    type top = LSuccess /\
    message top = lit "Compilation successful.".
Proof.
  intros Hb. destruct p as [[il ol ic oc lg ip tab ex] n st].
  cbn [state inputCode] in Hb.
  simulate_app.
  unfold transpileShader. rewrite (GeminiFacts.blank_trim _ Hb). simulate_app.
  repeat (split; [reflexivity|]). eexists _, _. repeat split; reflexivity.
Qed.


Lemma handleTranspile_blank_source_witness :
  outputCode (state Samples.blankPage) = Samples.snippet /\
  outputCode (state (exec (handleTranspile Samples.unreachable Samples.stamp0)
                       Samples.blankPage)) = [] /\
  net (exec (handleTranspile Samples.unreachable Samples.stamp0) Samples.blankPage) =
    offline.
Proof.
  destruct (handleTranspile_blank_source Samples.unreachable Samples.stamp0
              Samples.blankPage) as (Hout & _ & Hnet & _); [reflexivity|].
  split; [reflexivity|]. split; [exact Hout | exact Hnet].
Defined.

(** X13.  The log is append-only and newest first: whatever the service
    answers, a handler leaves the entries that were there as a suffix of
    the log and puts at most three new ones in front, as many as it took
    stamps; it never changes the two languages or the active tab; and
    if it logged anything it ends with [isProcessing = false]. *)
Theorem handlers_append_to_log (svc : Service) (stamp : nat -> jsstring * float)
    (k : ServiceCall) (p : Page) :
  exists new,
    logs (state (exec (handler svc stamp k) p)) = new ++ logs (state p) /\
    length new <= 3 /\
    stamped (exec (handler svc stamp k) p) = stamped p + length new /\
    inputLang (state (exec (handler svc stamp k) p)) = inputLang (state p) /\
    outputLang (state (exec (handler svc stamp k) p)) = outputLang (state p) /\
    activeTab (state (exec (handler svc stamp k) p)) = activeTab (state p) /\
    (new = [] \/ isProcessing (state (exec (handler svc stamp k) p)) = false).
Proof.
  destruct p as [[il ol ic oc lg ip tab ex] n st].
  destruct k; simulate_app.
  - destruct (transpileShader svc ic il ol n) as [[r|msg] n']; simulate_app.
    + exists [ {| id := (stamp (S st)).1; type := LSuccess;
                  message := lit "Compilation successful.";
                  timestamp := (stamp (S st)).2 |};
               {| id := (stamp st).1; type := LInfo;
                  message := lit "Compiling " ++ languageName il ++ lit " to "
                             ++ languageName ol ++ lit "...";
                  timestamp := (stamp st).2 |} ].
      cbn [length app]. repeat split; try reflexivity; try lia; try (right; reflexivity).
    + exists [ {| id := (stamp (S st)).1; type := LError; message := msg;
                  timestamp := (stamp (S st)).2 |};
               {| id := (stamp st).1; type := LInfo;
                  message := lit "Compiling " ++ languageName il ++ lit " to "
                             ++ languageName ol ++ lit "...";
                  timestamp := (stamp st).2 |} ].
      cbn [length app]. repeat split; try reflexivity; try lia; try (right; reflexivity).
  - destruct (truthy ic); simulate_app.
    2: { exists []. cbn [length app]. repeat split; try reflexivity; try lia;
           try (left; reflexivity). }
    destruct (optimizeShader svc ic il n) as [[r|msg] n']; simulate_app.
    + eexists [_; _; _]. cbn [length app].
      repeat split; try reflexivity; try lia; try (right; reflexivity).
    + eexists [_; _]. cbn [length app].
      repeat split; try reflexivity; try lia; try (right; reflexivity).
  - destruct (truthy ic); simulate_app.
    2: { exists []. cbn [length app]. repeat split; try reflexivity; try lia;
           try (left; reflexivity). }
    destruct (analyzeShader svc ic il n) as [[r|msg] n']; simulate_app.
    + eexists [_; _]. cbn [length app].
      repeat split; try reflexivity; try lia; try (right; reflexivity).
    + eexists [_; _]. cbn [length app].
      repeat split; try reflexivity; try lia; try (right; reflexivity).
Qed.

(** X14.  Optimizing and analyzing never touch the output: whatever the
    service answers, the output code and the active tab are what they
    were, so React leaves the preview and its program as they are.
    Analyzing does not change the source either. *)
Theorem optimize_and_analyze_keep_output (svc : Service)
    (stamp : nat -> jsstring * float) (k : ServiceCall) (p : Page)
    (b : Preview.Browser) (cv : Preview.Canvas) (now : float)
    (pv : option (Preview.Instance * Preview.World)) :
  k <> Translate ->
  shows (state p) pv ->
  outputCode (state (exec (handler svc stamp k) p)) = outputCode (state p) /\
  commit b cv now (state (exec (handler svc stamp k) p)) pv = pv /\
  (k = Analyze ->
   inputCode (state (exec (handler svc stamp k) p)) = inputCode (state p)).
Proof.
  intros Hk Hshow.
  assert (H : outputCode (state (exec (handler svc stamp k) p)) = outputCode (state p) /\
              activeTab (state (exec (handler svc stamp k) p)) = activeTab (state p) /\
              (k = Analyze ->
               inputCode (state (exec (handler svc stamp k) p)) = inputCode (state p))).
  { destruct p as [[il ol ic oc lg ip tab ex] n st].
    destruct k; [congruence | |]; simulate_app.
    - destruct (truthy ic); simulate_app;
        [|split; [reflexivity|]; split; [reflexivity | discriminate]].
      destruct (optimizeShader svc ic il n) as [[r|msg] n']; simulate_app;
        (split; [reflexivity|]; split; [reflexivity | discriminate]).
    - destruct (truthy ic); simulate_app;
        [|split; [reflexivity|]; split; [reflexivity | intros _; reflexivity]].
      destruct (analyzeShader svc ic il n) as [[r|msg] n']; simulate_app;
        (split; [reflexivity|]; split; [reflexivity | intros _; reflexivity]). }
  destruct H as (Hout & Htab & Hin).
  split; [exact Hout|]. split; [|exact Hin].
  apply (AppFacts.commit_same b cv now (state p)); assumption.
Qed.

Lemma optimize_and_analyze_keep_output_witness :
  outputCode (state (exec (handler (Samples.answering (Some Samples.snippet2) None)
                             Samples.stamp0 Optimize) Samples.page0)) = Samples.snippet /\
  inputCode (state (exec (handler (Samples.answering (Some Samples.snippet2) None)
                            Samples.stamp0 Optimize) Samples.page0)) = Samples.snippet2.
Proof.
  destruct (optimize_and_analyze_keep_output
              (Samples.answering (Some Samples.snippet2) None) Samples.stamp0 Optimize
              Samples.page0 (Samples.browser Samples.healthy) Samples.canvas0 0%float
              (Some (Preview.mounted (Samples.browser Samples.healthy) Samples.snippet
                       true 0%float (Preview.mount Samples.canvas0))))
    as (Hout & _).
  - intros H. discriminate H.
  - vm_compute. reflexivity.
  - split; [exact Hout|]. vm_compute. reflexivity.
Defined.

(** X15.  Optimizing never empties the source: when the source is not
    empty before the handler runs it is not empty afterwards, whatever
    the service answers (a response without code leaves the source as it
    was, a failure too). *)
Theorem handleOptimize_keeps_source (svc : Service) (stamp : nat -> jsstring * float)
    (p : Page) :
  truthy (inputCode (state p)) = true ->
  truthy (inputCode (state (exec (handleOptimize svc stamp) p))) = true.
Proof.
  intros Hin. destruct p as [[il ol ic oc lg ip tab ex] n st].
  cbn [state inputCode] in Hin. simulate_app. rewrite Hin. simulate_app.
  pose proof (GeminiMore.or_default_truthy) as Hor.
  unfold optimizeShader, bind, request, ret. simulate_app.
  destruct (generateContent svc _ _) as [text|[|m]]; simulate_app;
    [|exact Hin|exact Hin].
  destruct (JSON_parse svc _) as [m|jc je]; simulate_app; [exact Hin|].
  apply Hor. exact Hin.
Qed.

Lemma handleOptimize_keeps_source_witness :
  inputCode (state (exec (handleOptimize Samples.silent Samples.stamp0) Samples.page0)) =
    inputCode (state Samples.page0) /\
  truthy (inputCode (state (exec (handleOptimize Samples.silent Samples.stamp0)
                              Samples.page0))) = true.
Proof.
  split; [vm_compute; reflexivity|].
  apply (handleOptimize_keeps_source Samples.silent Samples.stamp0 Samples.page0).
  reflexivity.
Defined.

(** X16.  On a source that is not blank, translating either fails, and
    then the output code and the explanation are what they were and the
    newest log entry is an error; or succeeds, and then the output code
    and the explanation are both non-empty and the newest log entry is
    "Compilation successful.".  Translating never blanks the output of a
    source that is not blank. *)
Theorem handleTranspile_output (svc : Service) (stamp : nat -> jsstring * float)
    (p : Page) :
  forallb isWhiteSpace (inputCode (state p)) = false ->
  exists top rest,
    logs (state (exec (handleTranspile svc stamp) p)) = top :: rest /\
    ((type top = LError /\
      outputCode (state (exec (handleTranspile svc stamp) p)) = outputCode (state p) /\
      explanation (state (exec (handleTranspile svc stamp) p)) = explanation (state p))
     \/
     (type top = LSuccess /\
      truthy (outputCode (state (exec (handleTranspile svc stamp) p))) = true /\
      truthy (explanation (state (exec (handleTranspile svc stamp) p))) = true)).
Proof.
  intros Hb. destruct p as [[il ol ic oc lg ip tab ex] n st].
  cbn [state inputCode] in Hb. simulate_app.
  unfold transpileShader. rewrite (GeminiMore.nonblank_trim _ Hb). cbn [negb].
  unfold bind, request, console_error, modify, ret. simulate_app.
  destruct (generateContent svc _ _) as [[[|c t]|]|[|m]]; simulate_app;
    try (eexists _, _; split; [reflexivity|]; left; repeat split; reflexivity).
  destruct (JSON_parse svc (c :: t)) as [m|jc je]; simulate_app.
  - eexists _, _. split; [reflexivity|]. left. repeat split; reflexivity.
  - eexists _, _. split; [reflexivity|]. right.
    split; [reflexivity|]. cbn [Gemini.code Gemini.explanation].
    split; apply GeminiMore.or_default_truthy; reflexivity.
Qed.

Lemma handleTranspile_output_witness :
  outputCode (state (exec (handleTranspile (Samples.answering (Some Samples.snippet2) None)
                             Samples.stamp0) Samples.page0)) = Samples.snippet2 /\
  exists top rest,
    logs (state (exec (handleTranspile (Samples.answering (Some Samples.snippet2) None)
                         Samples.stamp0) Samples.page0)) = top :: rest.
Proof.
  split; [vm_compute; reflexivity|].
  destruct (handleTranspile_output (Samples.answering (Some Samples.snippet2) None)
              Samples.stamp0 Samples.page0) as (top & rest & Hlogs & _); [reflexivity|].
  exists top, rest. exact Hlogs.
Defined.

End AppMore.

(* ===================================================================== *)
(** * More on the preview component *)
(* ===================================================================== *)

Module PreviewMore.
Import JS Preview.

(** ** What each part of the effect leaves alone *)

Lemma rt_shell {A} (m : State Webgl.Runtime A) (w : World) :
  listeners (snd (rt m w)) = listeners w /\
  closures (snd (rt m w)) = closures w /\
  rafPending (snd (rt m w)) = rafPending w /\
  rafCounter (snd (rt m w)) = rafCounter w /\
  requestRef (snd (rt m w)) = requestRef w /\
  compiled (snd (rt m w)) = compiled w /\
  error (snd (rt m w)) = error w.
Proof. unfold rt. destruct (m (runtime w)). repeat split; reflexivity. Qed.

Lemma prepared_shell (b : Browser) (w : World) :
  fst (addResizeListener (exec (resize b) w)) = closures w /\
  listeners (prepared b w) = listeners w ++ [closures w] /\
  closures (prepared b w) = S (closures w) /\
  rafPending (prepared b w) = rafPending w /\
  rafCounter (prepared b w) = rafCounter w /\
  requestRef (prepared b w) = requestRef w.
Proof. repeat split; reflexivity. Qed.

Lemma compileFailed_control (b : Browser) (src : jsstring) (fs : option nat)
    (l : nat) (w : World) :
  fst (compileFailed b src fs l w) = Some (CleanupFailed l) /\
  compiled (snd (compileFailed b src fs l w)) = false /\
  listeners (snd (compileFailed b src fs l w)) = listeners w /\
  closures (snd (compileFailed b src fs l w)) = closures w /\
  rafPending (snd (compileFailed b src fs l w)) = rafPending w /\
  rafCounter (snd (compileFailed b src fs l w)) = rafCounter w /\
  requestRef (snd (compileFailed b src fs l w)) = requestRef w.
Proof.
  destruct w as [[[n os ab va cs] con] cv cr ls cl rc rp rr er cp].
  destruct b as [d gl2 px].
  destruct fs as [f|]; simulate; [repeat split; reflexivity|].
  destruct (GL.allocates d n); simulate; repeat split; reflexivity.
Qed.

Lemma linkFailed_control (l : nat) (w : World) :
  fst (linkFailed l w) = Some (CleanupFailed l) /\
  compiled (snd (linkFailed l w)) = false /\
  error (snd (linkFailed l w)) = Some (lit "Program linking failed.") /\
  listeners (snd (linkFailed l w)) = listeners w /\
  closures (snd (linkFailed l w)) = closures w /\
  rafPending (snd (linkFailed l w)) = rafPending w /\
  rafCounter (snd (linkFailed l w)) = rafCounter w /\
  requestRef (snd (linkFailed l w)) = requestRef w.
Proof. repeat split; reflexivity. Qed.

Lemma goLive_control (b : Browser) (now : float) (l p v f : nat) (w : World) :
  fst (goLive b now l p v f w) = Some (CleanupLive l p v f) /\
  compiled (snd (goLive b now l p v f w)) = true /\
  error (snd (goLive b now l p v f w)) = None /\
  listeners (snd (goLive b now l p v f w)) = listeners w /\
  closures (snd (goLive b now l p v f w)) = closures w /\
  requestRef (snd (goLive b now l p v f w)) = S (rafCounter w) /\
  rafCounter (snd (goLive b now l p v f w)) = S (rafCounter w) /\
  exists cb,
    rafPending (snd (goLive b now l p v f w)) =
      rafPending w ++ [(S (rafCounter w), cb)].
Proof.
  destruct w as [[[n os ab va cs] con] cv cr ls cl rc rp rr er cp].
  destruct b as [d gl2 px]. simulate.
  destruct (GL.allocates d n) eqn:Ebuf, (GL.allocates d (S n)) eqn:Evao.
  all: repeat (progress (rewrite ?Ebuf, ?Evao, ?lookup_insert_eq); simulate).
  all: repeat (split; [reflexivity|]); eexists; reflexivity.
Qed.

(** The outcome of a run of the effect, exit by exit. *)
Lemma effect_outcome (b : Browser) (src : jsstring) (act : bool) (now : float)
    (w : World) :
  effectOutcome b act w (fst (effect b src act now w)) (snd (effect b src act now w)).
Proof.
  remember (effect b src act now w) as r eqn:Er.
  unfold effect in Er. unfold bind at 1 in Er. unfold gets at 1 in Er.
  destruct act; [|subst r; cbn; repeat split; auto].
  destruct (canvasRef w) eqn:Hc; [|subst r; cbn; repeat split; auto].
  cbn [negb orb] in Er.
  destruct (webgl2 b) eqn:Hgl; [|subst r; cbn; repeat split; auto].
  cbn [negb] in Er.
  unfold bind at 1 in Er. destruct (resize b w) as [[] w1] eqn:E1.
  unfold bind at 1 in Er. destruct (addResizeListener w1) as [l w2] eqn:E2.
  assert (Hw2 : w2 = prepared b w).
  { unfold prepared, exec. rewrite E1. cbn [snd]. rewrite E2. reflexivity. }
  assert (Hl : l = closures w).
  { pose proof (prepared_shell b w) as (Hl & _). unfold exec in Hl.
    rewrite E1 in Hl. cbn [snd] in Hl. rewrite E2 in Hl. exact Hl. }
  destruct (prepared_shell b w) as (_ & Hls2 & Hcl2 & Hp2 & Hrc2 & Hrr2).
  rewrite <- Hw2 in Hls2, Hcl2, Hp2, Hrc2, Hrr2. subst l.
  unfold bind at 1 in Er.
  destruct (rt (Webgl.createShader (driver b) GL.VERTEX_SHADER Webgl.DEFAULT_VERTEX_SHADER) w2)
    as [vs w3] eqn:E3.
  pose proof (rt_shell (Webgl.createShader (driver b) GL.VERTEX_SHADER Webgl.DEFAULT_VERTEX_SHADER) w2) as H3.
  rewrite E3 in H3. cbn [snd] in H3. destruct H3 as (Hls3 & Hcl3 & Hp3 & Hrc3 & Hrr3 & _).
  unfold bind at 1 in Er.
  destruct (rt (Webgl.createShader (driver b) GL.FRAGMENT_SHADER src) w3)
    as [fs w4] eqn:E4.
  pose proof (rt_shell (Webgl.createShader (driver b) GL.FRAGMENT_SHADER src) w3) as H4.
  rewrite E4 in H4. cbn [snd] in H4. destruct H4 as (Hls4 & Hcl4 & Hp4 & Hrc4 & Hrr4 & _).
  assert (Hfail : forall fs', r = compileFailed b src fs' (closures w) w4 ->
                  effectOutcome b true w (fst r) (snd r)).
  { intros fs' ->.
    destruct (compileFailed_control b src fs' (closures w) w4)
      as (Hf & Hcomp & Hls & Hcl & Hp & Hrc & Hrr).
    rewrite Hf. cbn [effectOutcome cleanupListener].
    repeat split; congruence. }
  destruct vs as [v|]; [destruct fs as [f|]|]; [|apply (Hfail None Er)|apply (Hfail fs Er)].
  unfold bind at 1 in Er.
  destruct (rt (Webgl.createProgram (driver b) v f) w4) as [pr w5] eqn:E5.
  pose proof (rt_shell (Webgl.createProgram (driver b) v f) w4) as H5.
  rewrite E5 in H5. cbn [snd] in H5. destruct H5 as (Hls5 & Hcl5 & Hp5 & Hrc5 & Hrr5 & _).
  destruct pr as [p|]; subst r.
  - destruct (goLive_control b now (closures w) p v f w5)
      as (Hf & Hcomp & Herr & Hls & Hcl & Hrr & Hrc & cb & Hp).
    rewrite Hf. cbn [effectOutcome cleanupListener].
    repeat (split; [congruence|]). exists cb. rewrite Hp, Hrr. congruence.
  - destruct (linkFailed_control (closures w) w5)
      as (Hf & Hcomp & _ & Hls & Hcl & Hp & Hrc & Hrr).
    rewrite Hf. cbn [effectOutcome cleanupListener].
    repeat split; congruence.
Qed.


(** ** Handles stay below the count of [create*] calls *)

Lemma preserves_ret {S A} (P : S -> Prop) (a : A) : preserves P (ret a).
Proof. intros s H. exact H. Qed.

Lemma preserves_gets {S A} (P : S -> Prop) (f : S -> A) : preserves P (gets f).
Proof. intros s H. exact H. Qed.

Lemma preserves_bind {S A B} (P : S -> Prop) (m : State S A) (k : A -> State S B) :
  preserves P m -> (forall a, preserves P (k a)) -> preserves P (bind m k).
Proof.
  intros Hm Hk s H. unfold bind. specialize (Hm s H).
  destruct (m s) as [a s']. apply Hk. exact Hm.
Qed.

Lemma preserves_wgl {A} (m : GL.GLm A) :
  preserves GL.wellFormed m -> preserves Webgl.wfRuntime (Webgl.gl m).
Proof.
  intros Hm r H. unfold Webgl.gl, Webgl.wfRuntime in *. specialize (Hm _ H).
  destruct (m (Webgl.ctx r)). exact Hm.
Qed.

Lemma preserves_rt {A} (m : State Webgl.Runtime A) :
  preserves Webgl.wfRuntime m -> preserves wfWorld (rt m).
Proof.
  intros Hm w H. unfold rt, wfWorld, Webgl.wfRuntime in *. specialize (Hm _ H).
  destruct (m (runtime w)). exact Hm.
Qed.

Lemma preserves_gl {A} (m : GL.GLm A) :
  preserves GL.wellFormed m -> preserves wfWorld (gl m).
Proof. intros Hm. apply preserves_rt, preserves_wgl, Hm. Qed.

Lemma preserves_console (v : option jsstring) :
  preserves Webgl.wfRuntime (Webgl.console_warn v).
Proof. intros r H. exact H. Qed.

(** A world-level update that leaves the runtime alone. *)
Lemma preserves_shell {A} (m : State World A) :
  (forall w, runtime (snd (m w)) = runtime w) -> preserves wfWorld m.
Proof. intros Hm w H. unfold wfWorld. rewrite Hm. exact H. Qed.

Lemma wf_create (d : GL.Driver) (k : GL.Call) (o : GL.Obj) :
  preserves GL.wellFormed (GL.create d k o).
Proof.
  intros [n os ab va cs] H. unfold GL.create, GL.log_call.
  cbn [GL.created GL.objects GL.calls GL.arrayBuffer GL.vertexArray].
  destruct (GL.allocates d n); cbn [snd]; intros h Hh;
    cbn [GL.created GL.objects] in *.
  - apply lookup_insert_is_Some in Hh as [<- | [_ Hh]]; [lia|].
    specialize (H h Hh). cbn in H. lia.
  - specialize (H h Hh). cbn in H. lia.
Qed.

(** An update of the objects that adds no handle. *)
Lemma wf_update (f : GL.Context -> gmap nat GL.Obj -> gmap nat GL.Obj) (k : GL.Call) :
  (forall c os h, is_Some (f c os !! h) -> is_Some (os !! h)) ->
  preserves GL.wellFormed
    (modify (fun c => GL.with_objects (f c) (GL.log_call k c))).
Proof.
  intros Hf [n os ab va cs] H h Hh. unfold modify, GL.with_objects, GL.log_call in *.
  cbn [snd GL.created GL.objects GL.calls GL.arrayBuffer GL.vertexArray] in *.
  apply Hf in Hh. exact (H h Hh).
Qed.

Lemma wf_shaderSource (sh : nat) (src : jsstring) :
  preserves GL.wellFormed (GL.shaderSource sh src).
Proof.
  apply (wf_update (fun _ os => match os !! sh with
                                | Some (GL.OShader ty _ _) => <[sh := GL.OShader ty src false]> os
                                | _ => os end)).
  intros c os h Hh. destruct (os !! sh) as [[]|] eqn:E; try assumption.
  apply lookup_insert_is_Some in Hh as [<- | [_ Hh]]; [rewrite E; eauto | assumption].
Qed.

Lemma wf_compileShader (d : GL.Driver) (sh : nat) :
  preserves GL.wellFormed (GL.compileShader d sh).
Proof.
  apply (wf_update (fun _ os => match os !! sh with
                                | Some (GL.OShader ty src _) =>
                                    <[sh := GL.OShader ty src (GL.compiles d ty src)]> os
                                | _ => os end)).
  intros c os h Hh. destruct (os !! sh) as [[]|] eqn:E; try assumption.
  apply lookup_insert_is_Some in Hh as [<- | [_ Hh]]; [rewrite E; eauto | assumption].
Qed.

Lemma wf_deleteShader (sh : option nat) :
  preserves GL.wellFormed (GL.deleteShader sh).
Proof.
  apply (wf_update (fun _ os => match sh with Some h => delete h os | None => os end)).
  intros c os h Hh. destruct sh; [|assumption].
  apply lookup_delete_is_Some in Hh as [_ Hh]. exact Hh.
Qed.

Lemma wf_attachShader (p sh : nat) :
  preserves GL.wellFormed (GL.attachShader p sh).
Proof.
  apply (wf_update (fun _ os => match os !! p with
                                | Some (GL.OProgram att ok) => <[p := GL.OProgram (att ++ [sh]) ok]> os
                                | _ => os end)).
  intros c os h Hh. destruct (os !! p) as [[]|] eqn:E; try assumption.
  apply lookup_insert_is_Some in Hh as [<- | [_ Hh]]; [rewrite E; eauto | assumption].
Qed.

Lemma wf_linkProgram (d : GL.Driver) (p : nat) :
  preserves GL.wellFormed (GL.linkProgram d p).
Proof.
  apply (wf_update (fun _ os => match os !! p with
                                | Some (GL.OProgram att _) =>
                                    <[p := GL.OProgram att (GL.links d (GL.stages os p))]> os
                                | _ => os end)).
  intros c os h Hh. destruct (os !! p) as [[]|] eqn:E; try assumption.
  apply lookup_insert_is_Some in Hh as [<- | [_ Hh]]; [rewrite E; eauto | assumption].
Qed.

Lemma wf_deleteProgram (p : nat) :
  preserves GL.wellFormed (GL.deleteProgram p).
Proof.
  apply (wf_update (fun _ => delete p)).
  intros c os h Hh. apply lookup_delete_is_Some in Hh as [_ Hh]. exact Hh.
Qed.

Lemma wf_bufferData (data : list Z) :
  preserves GL.wellFormed (GL.bufferData data).
Proof.
  apply (wf_update (fun c os => match GL.arrayBuffer c with
                                | Some b => match os !! b with
                                            | Some (GL.OBuffer _) => <[b := GL.OBuffer data]> os
                                            | _ => os end
                                | None => os end)).
  intros c os h Hh. destruct (GL.arrayBuffer c) as [b|]; [|assumption].
  destruct (os !! b) as [[]|] eqn:E; try assumption.
  apply lookup_insert_is_Some in Hh as [<- | [_ Hh]]; [rewrite E; eauto | assumption].
Qed.

Lemma wf_enableVertexAttribArray (index : Z) :
  preserves GL.wellFormed (GL.enableVertexAttribArray index).
Proof.
  apply (wf_update (fun c os => match GL.vertexArray c with
                                | Some v => match os !! v with
                                            | Some (GL.OVertexArray en ps) =>
                                                <[v := GL.OVertexArray (index :: en) ps]> os
                                            | _ => os end
                                | None => os end)).
  intros c os h Hh. destruct (GL.vertexArray c) as [v|]; [|assumption].
  destruct (os !! v) as [[]|] eqn:E; try assumption.
  apply lookup_insert_is_Some in Hh as [<- | [_ Hh]]; [rewrite E; eauto | assumption].
Qed.

Lemma wf_vertexAttribPointer (index size : Z) :
  preserves GL.wellFormed (GL.vertexAttribPointer index size).
Proof.
  apply (wf_update (fun c os => match GL.vertexArray c with
                                | Some v => match os !! v with
                                            | Some (GL.OVertexArray en ps) =>
                                                <[v := GL.OVertexArray en
                                                         ({| GL.ap_index := index;
                                                             GL.ap_buffer := GL.arrayBuffer c;
                                                             GL.ap_size := size |} :: ps)]> os
                                            | _ => os end
                                | None => os end)).
  intros c os h Hh. destruct (GL.vertexArray c) as [v|]; [|assumption].
  destruct (os !! v) as [[]|] eqn:E; try assumption.
  apply lookup_insert_is_Some in Hh as [<- | [_ Hh]]; [rewrite E; eauto | assumption].
Qed.

(** A command that only records itself or changes a binding. *)
Lemma wf_same_objects (f : GL.Context -> GL.Context) :
  (forall c, GL.objects (f c) = GL.objects c /\ GL.created (f c) = GL.created c) ->
  preserves GL.wellFormed (modify f).
Proof.
  intros Hf c H h Hh. unfold modify in *. cbn [snd] in *.
  destruct (Hf c) as [Ho Hc]. rewrite Ho in Hh. rewrite Hc. exact (H h Hh).
Qed.


Ltac pres :=
  repeat first
    [ apply preserves_ret
    | apply preserves_gets
    | apply preserves_bind; [|intros ?]
    | match goal with
      | |- preserves _ (match ?x with _ => _ end) => destruct x
      end
    | apply preserves_console
    | apply preserves_gl
    | apply preserves_rt
    | apply preserves_wgl
    | apply wf_create
    | apply wf_shaderSource
    | apply wf_compileShader
    | apply wf_deleteShader
    | apply wf_attachShader
    | apply wf_linkProgram
    | apply wf_deleteProgram
    | apply wf_bufferData
    | apply wf_enableVertexAttribArray
    | apply wf_vertexAttribPointer
    | apply wf_same_objects; intros ?; split; reflexivity
    | apply preserves_shell; intros ?; reflexivity ].

Lemma wf_createShader (d : GL.Driver) (ty : GL.ShaderType) (src : jsstring) :
  preserves Webgl.wfRuntime (Webgl.createShader d ty src).
Proof.
  unfold Webgl.createShader, GL.createShader, GL.getShaderCompileStatus,
    GL.getShaderInfoLog. pres.
Qed.

Lemma wf_createProgram (d : GL.Driver) (vs fs : nat) :
  preserves Webgl.wfRuntime (Webgl.createProgram d vs fs).
Proof.
  unfold Webgl.createProgram, GL.createProgram, GL.getProgramLinkStatus,
    GL.getProgramInfoLog. pres.
Qed.

Lemma wf_resize (b : Browser) : preserves wfWorld (resize b).
Proof. unfold resize, GL.viewport. pres. Qed.

Lemma wf_render (cb : RenderClosure) (t : float) : preserves wfWorld (render cb t).
Proof.
  unfold render, GL.useProgram, GL.bindVertexArray, GL.uniform1f, GL.uniform2f,
    GL.drawArrays. pres.
Qed.

Lemma wf_runCleanupOpt (c : option Cleanup) : preserves wfWorld (runCleanupOpt c).
Proof. unfold runCleanupOpt, runCleanup. pres. Qed.

Lemma wf_effect (b : Browser) (src : jsstring) (act : bool) (now : float) :
  preserves wfWorld (effect b src act now).
Proof.
  unfold effect. apply preserves_bind; [pres|]. intros attached.
  destruct (negb act || negb attached); [pres|].
  destruct (negb (webgl2 b)); [unfold setError; pres|].
  apply preserves_bind; [apply wf_resize|]. intros _.
  apply preserves_bind; [pres|]. intros l.
  apply preserves_bind; [apply preserves_rt, wf_createShader|]. intros vs.
  apply preserves_bind; [apply preserves_rt, wf_createShader|]. intros fs.
  assert (Hfail : forall fs', preserves wfWorld (compileFailed b src fs' l)).
  { intros fs'. unfold compileFailed, setError, setCompiled, GL.createShader,
      GL.getShaderInfoLog. pres. }
  destruct vs as [v|]; [destruct fs as [f|]|]; try apply Hfail.
  apply preserves_bind; [apply preserves_rt, wf_createProgram|]. intros [p|].
  - unfold goLive, setError, setCompiled, GL.getAttribLocation, GL.createBuffer,
      GL.bindArrayBuffer, GL.createVertexArray, GL.bindVertexArray,
      GL.getUniformLocation. pres.
  - unfold linkFailed, setError, setCompiled. pres.
Qed.


(** ** The invariant of a mounted component *)

Lemma cleanup_control (c : Cleanup) (w : World) :
  listeners (exec (runCleanup c) w) =
    List.filter (fun x => negb (Nat.eqb x (cleanupListener c))) (listeners w) /\
  rafPending (exec (runCleanup c) w) =
    List.filter (fun e => negb (Nat.eqb (fst e) (requestRef w))) (rafPending w) /\
  closures (exec (runCleanup c) w) = closures w /\
  rafCounter (exec (runCleanup c) w) = rafCounter w /\
  requestRef (exec (runCleanup c) w) = requestRef w /\
  compiled (exec (runCleanup c) w) = compiled w /\
  error (exec (runCleanup c) w) = error w /\
  canvas (exec (runCleanup c) w) = canvas w.
Proof.
  destruct w as [[[n os ab va cs] con] cv cr ls cl rc rp rr er cp].
  destruct c; simulate; repeat split; reflexivity.
Qed.

Lemma render_control (cb : RenderClosure) (t : float) (w : World) :
  listeners (exec (render cb t) w) = listeners w /\
  closures (exec (render cb t) w) = closures w /\
  compiled (exec (render cb t) w) = compiled w /\
  error (exec (render cb t) w) = error w /\
  GL.created (Webgl.ctx (runtime (exec (render cb t) w))) =
    GL.created (Webgl.ctx (runtime w)).
Proof.
  destruct w as [[[n os ab va cs] con] cv cr ls cl rc rp rr er cp].
  destruct cb as [p vao tl rl st].
  unfold render. destruct tl, rl; simulate; repeat split; reflexivity.
Qed.

Lemma resize_control (b : Browser) (w : World) :
  listeners (exec (resize b) w) = listeners w /\
  closures (exec (resize b) w) = closures w /\
  rafPending (exec (resize b) w) = rafPending w /\
  rafCounter (exec (resize b) w) = rafCounter w /\
  requestRef (exec (resize b) w) = requestRef w /\
  compiled (exec (resize b) w) = compiled w /\
  error (exec (resize b) w) = error w /\
  liveObjects (exec (resize b) w) = liveObjects w /\
  canvas (exec (resize b) w) =
    {| width := devicePixels b (clientWidth (canvas w));
       height := devicePixels b (clientHeight (canvas w));
       clientWidth := clientWidth (canvas w);
       clientHeight := clientHeight (canvas w) |} /\
  glCalls (exec (resize b) w) =
    glCalls w ++ [GL.Viewport 0 0 (devicePixels b (clientWidth (canvas w)))
                    (devicePixels b (clientHeight (canvas w)))].
Proof.
  destruct w as [[[n os ab va cs] con] cv cr ls cl rc rp rr er cp].
  destruct b as [d gl2 px]. destruct cv as [cw ch ccw cch].
  simulate. repeat split; reflexivity.
Qed.

Lemma mount_quiet (b : Browser) (cv : Canvas) : quiet b (mount cv).
Proof.
  repeat split; try reflexivity; try (cbn; lia); try discriminate.
  intros h Hh. cbn in Hh. rewrite lookup_empty in Hh. destruct Hh as [? Hh]. discriminate Hh.
Qed.

Lemma cleanup_quiet (b : Browser) (i : Instance) (w : World) :
  Healthy b i w -> quiet b (exec (runCleanupOpt (cleanup i)) w).
Proof.
  intros [Hpend Hls Hcl Hcnt Herr Hfail Hctx Hina Hwf].
  assert (Hwf' : wfWorld (exec (runCleanupOpt (cleanup i)) w)).
  { apply wf_runCleanupOpt. exact Hwf. }
  destruct (cleanup i) as [c|] eqn:Ec; cbn [runCleanupOpt] in *.
  - destruct (cleanup_control c w) as (Hl & Hp & _ & Hrc & Hrr & Hcomp & Her & _).
    unfold quiet. rewrite Hl, Hp, Hrc, Hrr, Hcomp, Her, Hls.
    split.
    { destruct (isLive (Some c)).
      - destruct Hpend as (cb & -> & _). cbn [List.filter fst].
        rewrite Nat.eqb_refl. reflexivity.
      - rewrite Hpend. reflexivity. }
    split; [cbn [List.filter]; rewrite Nat.eqb_refl; reflexivity|].
    split; [exact Hcnt|]. split; [exact Herr|].
    split; [|exact Hwf'].
    intros Hgl. destruct (Hctx Hgl) as (_ & _ & Hnone). discriminate Hnone.
  - unfold quiet, exec, ret. cbn [snd isLive] in *.
    split; [exact Hpend|]. split; [exact Hls|]. split; [exact Hcnt|].
    split; [exact Herr|]. split; [|exact Hwf].
    intros Hgl. destruct (Hctx Hgl) as (Hc & Hg & _). split; assumption.
Qed.

Lemma mounted_healthy (b : Browser) (src : jsstring) (act : bool) (now : float)
    (w : World) :
  quiet b w ->
  Healthy b (fst (mounted b src act now w)) (snd (mounted b src act now w)).
Proof.
  intros (Hp & Hl & Hcnt & Herr & Hctx & Hwf).
  pose proof (effect_outcome b src act now w) as Hout.
  pose proof (wf_effect b src act now w Hwf) as Hwf'.
  unfold mounted, bind, ret.
  destruct (effect b src act now w) as [c w'] eqn:E. cbn [fst snd] in *.
  unfold effectOutcome in Hout.
  destruct c as [k|].
  - destruct Hout as (Hact & Hgl & Hk & Hls' & Hcl' & Hrest).
    rewrite Hl in Hls'. cbn [app] in Hls'.
    destruct k as [l|l p v f]; cbn [cleanupListener] in Hk; subst l.
    + destruct Hrest as (Hcomp & Hp' & Hrc' & Hrr').
      constructor; cbn [cleanup deps isLive cleanupListener snd].
      * congruence.
      * exact Hls'.
      * rewrite Hls', Hcl'. repeat constructor.
      * lia.
      * congruence.
      * exact Hcomp.
      * congruence.
      * congruence.
      * exact Hwf'.
    + destruct Hrest as (Hcomp & Herr' & Hrr' & Hrc' & cb & Hp').
      constructor; cbn [cleanup deps isLive cleanupListener snd].
      * exists cb. rewrite Hp', Hp. split; [reflexivity | exact Hcomp].
      * exact Hls'.
      * rewrite Hls', Hcl'. repeat constructor.
      * lia.
      * intros _. exact Herr'.
      * exact I.
      * congruence.
      * congruence.
      * exact Hwf'.
  - destruct Hout as (Hwhy & Hls' & Hcl' & Hp' & Hrc' & Hrr' & Hcomp & Hcalls & Herr').
    constructor; cbn [cleanup deps isLive snd].
    + congruence.
    + congruence.
    + rewrite Hls', Hl. constructor.
    + lia.
    + intros Hc. rewrite Hcomp in Hc. destruct Herr' as [-> | Hgl]; [auto|].
      destruct (Hctx Hgl) as (Hf & _). congruence.
    + exact I.
    + intros Hgl. destruct (Hctx Hgl) as (Hf & Hg).
      split; [congruence|]. split; [congruence | reflexivity].
    + reflexivity.
    + exact Hwf'.
Qed.


Lemma rerender_healthy (b : Browser) (src : jsstring) (act : bool) (now : float)
    (i : Instance) (w : World) :
  Healthy b i w ->
  Healthy b (fst (rerender b src act now i w)) (snd (rerender b src act now i w)).
Proof.
  intros H. unfold rerender.
  destruct (bool_decide (deps i = (src, act))); [exact H|].
  unfold activate, bind.
  pose proof (cleanup_quiet b i w H) as Hq. unfold exec in Hq.
  destruct (runCleanupOpt (cleanup i) w) as [[] w1]. cbn [snd] in Hq.
  apply mounted_healthy. exact Hq.
Qed.

Lemma frame_healthy (b : Browser) (t : float) (i : Instance) (w : World) :
  Healthy b i w -> Healthy b i (exec (frame t) w).
Proof.
  intros [Hpend Hls Hcl Hcnt Herr Hfail Hctx Hina Hwf].
  destruct (isLive (cleanup i)) eqn:Elive.
  - destruct Hpend as (cb & Hp & Hcomp).
    rewrite (PreviewFacts.frame_single t w _ cb Hp).
    set (w0 := with_raf (rafCounter w) [] w).
    destruct (PreviewFacts.render_spec cb t w0) as (Hcalls & Hp' & Hrc' & Hrr' & Hobj & _).
    destruct (render_control cb t w0) as (Hls' & Hcl' & Hcomp' & Herr' & Hcr').
    constructor.
    + rewrite Elive. exists cb. rewrite Hp', Hrr', Hcomp'. split; [reflexivity | exact Hcomp].
    + rewrite Hls'. exact Hls.
    + rewrite Hls', Hcl'. exact Hcl.
    + rewrite Hrr', Hrc'. cbn. lia.
    + rewrite Hcomp', Herr'. exact Herr.
    + rewrite Hcomp'. exact Hfail.
    + intros Hgl. destruct (Hctx Hgl) as (_ & _ & Hnone).
      rewrite Hnone in Elive. discriminate Elive.
    + exact Hina.
    + apply (wf_render cb t w0). exact Hwf.
  - replace (exec (frame t) w) with w.
    + constructor; try assumption. rewrite Elive. exact Hpend.
    + unfold frame, exec. cbn [snd]. rewrite Hpend. cbn [fold_left].
      destruct w. cbn in Hpend. subst. reflexivity.
Qed.

Lemma windowResized_healthy (b : Browser) (cw ch : Z) (i : Instance) (w : World) :
  Healthy b i w -> Healthy b i (exec (windowResized b cw ch) w).
Proof.
  intros [Hpend Hls Hcl Hcnt Herr Hfail Hctx Hina Hwf].
  unfold windowResized, exec at 1. cbn [snd].
  set (w1 := with_canvas _ w).
  assert (Hw1 : listeners w1 = listeners w) by reflexivity.
  rewrite Hw1, Hls.
  destruct (cleanup i) as [c|] eqn:Ec; cbn [fold_left].
  - destruct (resize_control b w1) as (Hls' & Hcl' & Hp' & Hrc' & Hrr' & Hcomp' & Herr' & _).
    constructor; rewrite ?Ec.
    + rewrite Hp', Hrr', Hcomp'. exact Hpend.
    + rewrite Hls'. exact Hls.
    + rewrite Hls', Hcl'. exact Hcl.
    + rewrite Hrr', Hrc'. exact Hcnt.
    + rewrite Hcomp', Herr'. exact Herr.
    + rewrite Hcomp'. exact Hfail.
    + intros Hgl. destruct (Hctx Hgl) as (_ & _ & Hnone). discriminate Hnone.
    + exact Hina.
    + apply (wf_resize b w1). exact Hwf.
  - constructor; rewrite ?Ec; assumption.
Qed.

Lemma step_healthy (b : Browser) (e : Event) (iw : Instance * World) :
  Healthy b (fst iw) (snd iw) ->
  Healthy b (fst (step b e iw)) (snd (step b e iw)).
Proof.
  intros H. destruct iw as [i w]. destruct e as [src act now | t | cw ch];
    cbn [step fst snd] in *.
  - apply rerender_healthy. exact H.
  - apply frame_healthy. exact H.
  - apply windowResized_healthy. exact H.
Qed.

Lemma run_healthy (b : Browser) (es : list Event) (iw : Instance * World) :
  Healthy b (fst iw) (snd iw) ->
  Healthy b (fst (run b es iw)) (snd (run b es iw)).
Proof.
  revert iw. induction es as [|e es IH]; intros iw H; [exact H|].
  cbn [run fold_left]. apply IH. apply step_healthy. exact H.
Qed.

(** Every component the events can produce from a fresh mount. *)
Lemma reachable_healthy (b : Browser) (cv : Canvas) (src : jsstring) (act : bool)
    (now : float) (es : list Event) :
  Healthy b (fst (run b es (mounted b src act now (mount cv))))
            (snd (run b es (mounted b src act now (mount cv)))).
Proof. apply run_healthy, mounted_healthy, mount_quiet. Qed.


(** ** What holds whatever happens to a mounted component *)

(** X17.  Frame loops never overlap.  After any sequence of renders,
    frames and resizes from a fresh mount, at most one frame callback is
    pending; a pending callback is the one [requestRef] names, so the
    next cleanup revokes it; and a callback is pending exactly when the
    last run of the effect ended in the success exit. *)
Theorem at_most_one_frame_callback (b : Browser) (cv : Canvas) (src : jsstring)
    (act : bool) (now : float) (es : list Event) :
  length (rafPending (snd (run b es (mounted b src act now (mount cv))))) <= 1 /\
  (forall e, In e (rafPending (snd (run b es (mounted b src act now (mount cv))))) ->
             fst e = requestRef (snd (run b es (mounted b src act now (mount cv))))) /\
  (rafPending (snd (run b es (mounted b src act now (mount cv)))) = [] <->
   isLive (cleanup (fst (run b es (mounted b src act now (mount cv))))) = false).
Proof.
  destruct (reachable_healthy b cv src act now es) as [Hpend _ _ _ _ _ _ _ _].
  destruct (isLive _).
  - destruct Hpend as (cb & -> & _). cbn [length In].
    split; [lia|]. split.
    + intros e [<- | []]. reflexivity.
    + split; discriminate.
  - rewrite Hpend. cbn [length In]. split; [lia|]. split; [intros e []|].
    split; reflexivity.
Qed.

(** X18.  At most one [resize] listener of the component is registered
    on the window at any time, it is the one the current cleanup closure
    removes, and none is registered when the last run of the effect
    returned no cleanup. *)
Theorem at_most_one_resize_listener (b : Browser) (cv : Canvas) (src : jsstring)
    (act : bool) (now : float) (es : list Event) :
  listeners (snd (run b es (mounted b src act now (mount cv)))) =
    match cleanup (fst (run b es (mounted b src act now (mount cv)))) with
    | Some c => [cleanupListener c]
    | None => []
    end /\
  length (listeners (snd (run b es (mounted b src act now (mount cv))))) <= 1.
Proof.
  destruct (reachable_healthy b cv src act now es) as [_ Hls _ _ _ _ _ _ _].
  split; [exact Hls|]. rewrite Hls. destruct (cleanup _); cbn; lia.
Qed.

Lemma rerender_deps (b : Browser) (src : jsstring) (act : bool) (now : float)
    (i : Instance) (w : World) :
  deps (fst (rerender b src act now i w)) = (src, act).
Proof.
  unfold rerender. destruct (bool_decide (deps i = (src, act))) eqn:E.
  - apply bool_decide_eq_true_1 in E. exact E.
  - unfold activate, bind. destruct (runCleanupOpt (cleanup i) w) as [[] w1].
    unfold mounted, bind, ret. destruct (effect b src act now w1). reflexivity.
Qed.

(** X19.  Deactivating stops everything that was scheduled.  After any
    sequence of events, a render with [isActive = false] leaves no frame
    callback pending, no [resize] listener registered and no cleanup to
    run; an unmount leaves no callback and no listener either. *)
Theorem deactivation_stops_the_loop (b : Browser) (cv : Canvas) (src : jsstring)
    (act : bool) (now : float) (es : list Event) (src' : jsstring) (now' : float) :
  rafPending (snd (run b (es ++ [Rendered src' false now'])
                     (mounted b src act now (mount cv)))) = [] /\
  listeners (snd (run b (es ++ [Rendered src' false now'])
                    (mounted b src act now (mount cv)))) = [] /\
  cleanup (fst (run b (es ++ [Rendered src' false now'])
                  (mounted b src act now (mount cv)))) = None /\
  rafPending (exec (unmount (fst (run b es (mounted b src act now (mount cv)))))
                (snd (run b es (mounted b src act now (mount cv))))) = [] /\
  listeners (exec (unmount (fst (run b es (mounted b src act now (mount cv)))))
               (snd (run b es (mounted b src act now (mount cv))))) = [].
Proof.
  pose proof (reachable_healthy b cv src act now es) as H.
  split; [|split; [|split]].
  1-3: pose proof (reachable_healthy b cv src act now (es ++ [Rendered src' false now']))
         as [Hpend Hls _ _ _ _ _ Hina _];
       assert (Hnone : cleanup (fst (run b (es ++ [Rendered src' false now'])
                                       (mounted b src act now (mount cv)))) = None)
         by (apply Hina; unfold run; rewrite fold_left_app; cbn [fold_left step];
             rewrite rerender_deps; reflexivity);
       rewrite Hnone in Hpend, Hls; cbn [isLive] in Hpend; assumption.
  destruct (cleanup_quiet b _ _ H) as (Hp & Hl & _).
  unfold unmount. split; assumption.
Qed.

(** X20.  What is on screen is consistent.  After any sequence of events
    the LIVE badge and the error overlay are never shown together, and
    exactly one of the badge and the placeholder is shown; while a frame
    callback is pending the badge is shown, and after a run of the effect
    that ended in a failure exit the placeholder is. *)
Theorem badge_excludes_overlay (b : Browser) (cv : Canvas) (src : jsstring)
    (act : bool) (now : float) (es : list Event) :
  (liveBadge (view (snd (run b es (mounted b src act now (mount cv))))) = true ->
   errorOverlay (view (snd (run b es (mounted b src act now (mount cv))))) = None) /\
  placeholder (view (snd (run b es (mounted b src act now (mount cv))))) =
    negb (liveBadge (view (snd (run b es (mounted b src act now (mount cv)))))) /\
  (rafPending (snd (run b es (mounted b src act now (mount cv)))) <> [] ->
   liveBadge (view (snd (run b es (mounted b src act now (mount cv))))) = true) /\
  (forall l,
     cleanup (fst (run b es (mounted b src act now (mount cv)))) = Some (CleanupFailed l) ->
     placeholder (view (snd (run b es (mounted b src act now (mount cv))))) = true).
Proof.
  destruct (reachable_healthy b cv src act now es) as [Hpend _ _ _ Herr Hfail _ _ _].
  unfold view. cbn [liveBadge errorOverlay placeholder].
  split; [intros Hc; rewrite (Herr Hc); reflexivity|].
  split; [reflexivity|]. split.
  - intros Hne. destruct (isLive _); [|contradiction].
    destruct Hpend as (_ & _ & Hc). exact Hc.
  - intros l Hl. rewrite Hl in Hfail. rewrite Hfail. reflexivity.
Qed.

(** X21.  Without WebGL2 the component never touches the GPU: after any
    sequence of events no command was issued on a context, no frame
    callback is pending, no listener is registered, and the badge is not
    shown. *)
Theorem without_webgl2_nothing_runs (b : Browser) (cv : Canvas) (src : jsstring)
    (act : bool) (now : float) (es : list Event) :
  webgl2 b = false ->
  glCalls (snd (run b es (mounted b src act now (mount cv)))) = [] /\
  rafPending (snd (run b es (mounted b src act now (mount cv)))) = [] /\
  listeners (snd (run b es (mounted b src act now (mount cv)))) = [] /\
  compiled (snd (run b es (mounted b src act now (mount cv)))) = false.
Proof.
  intros Hgl.
  destruct (reachable_healthy b cv src act now es) as [Hpend Hls _ _ _ _ Hctx _ _].
  destruct (Hctx Hgl) as (Hc & Hcalls & Hnone).
  rewrite Hnone in Hpend, Hls. cbn [isLive] in Hpend.
  repeat split; assumption.
Qed.

Lemma without_webgl2_nothing_runs_witness :
  glCalls (snd (run Samples.legacy
                  [Rendered Samples.snippet2 true 10%float; FrameDue 16%float;
                   Resized 800 600]
                  (mounted Samples.legacy Samples.snippet true 0%float
                     (mount Samples.canvas0)))) = [] /\
  error (snd (run Samples.legacy
                [Rendered Samples.snippet2 true 10%float; FrameDue 16%float;
                 Resized 800 600]
                (mounted Samples.legacy Samples.snippet true 0%float
                   (mount Samples.canvas0)))) = Some (lit "WebGL2 not supported").
Proof.
  destruct (without_webgl2_nothing_runs Samples.legacy Samples.canvas0 Samples.snippet
              true 0%float
              [Rendered Samples.snippet2 true 10%float; FrameDue 16%float;
               Resized 800 600]) as (Hcalls & _); [reflexivity|].
  split; [exact Hcalls|]. vm_compute. reflexivity.
Defined.

(** ** The other exits of the effect *)

(** X23.  When both stages compile and the driver does not link them, the
    effect ends in the failure exit with [compiled = false] and the
    fixed message "Program linking failed." (the driver's program log
    goes to the console only).  [createProgram] has deleted the program,
    but the two compiled shaders stay allocated, and the cleanup closure
    of that exit does not delete them either. *)
Theorem link_failure_leaks_shaders (b : Browser) (src : jsstring) (now : float)
    (w : World) :
  canvasRef w = true ->
  webgl2 b = true ->
  (forall k, GL.allocates (driver b) k = true) ->
  (forall ty s, GL.compiles (driver b) ty s = true) ->
  (forall st, GL.links (driver b) st = false) ->
  liveObjects w !! S (S (GL.created (Webgl.ctx (runtime w)))) = None ->
  cleanup (fst (mounted b src true now w)) = Some (CleanupFailed (closures w)) /\
  compiled (snd (mounted b src true now w)) = false /\
  error (snd (mounted b src true now w)) = Some (lit "Program linking failed.") /\
  rafPending (snd (mounted b src true now w)) = rafPending w /\
  liveObjects (snd (mounted b src true now w)) =
    <[ S (GL.created (Webgl.ctx (runtime w))) := GL.OShader GL.FRAGMENT_SHADER src true ]>
      (<[ GL.created (Webgl.ctx (runtime w)) :=
            GL.OShader GL.VERTEX_SHADER Webgl.DEFAULT_VERTEX_SHADER true ]>
         (liveObjects w)) /\
  liveObjects (exec (unmount (fst (mounted b src true now w)))
                 (snd (mounted b src true now w))) =
    liveObjects (snd (mounted b src true now w)).
Proof.
  intros Hc Hgl Halloc Hcomp Hlink Hfresh.
  destruct w as [[[n os ab va cs] con] cv cr ls cl rc rp rr er cp].
  destruct b as [d gl2 px].
  cbn [canvasRef webgl2 driver liveObjects runtime Webgl.ctx GL.objects
       GL.created closures rafPending] in *.
  subst cr gl2. simulate.
  repeat (progress (rewrite ?Halloc, ?Hcomp, ?Hlink, ?lookup_insert_eq); simulate).
  do 4 (split; [reflexivity|]). split; [|reflexivity].
  rewrite !insert_insert_eq, delete_insert_eq.
  rewrite delete_id; [reflexivity|].
  rewrite !lookup_insert_ne by lia. exact Hfresh.
Qed.

Lemma link_failure_leaks_shaders_witness :
  error (snd (mounted (Samples.browser (Samples.unlinkable None)) Samples.snippet true
                0%float (mount Samples.canvas0))) =
    Some (lit "Program linking failed.") /\
  liveObjects (snd (mounted (Samples.browser (Samples.unlinkable None)) Samples.snippet
                      true 0%float (mount Samples.canvas0))) =
    {[ 0 := GL.OShader GL.VERTEX_SHADER Webgl.DEFAULT_VERTEX_SHADER true;
       1 := GL.OShader GL.FRAGMENT_SHADER Samples.snippet true ]}.
Proof.
  destruct (link_failure_leaks_shaders (Samples.browser (Samples.unlinkable None))
              Samples.snippet 0%float (mount Samples.canvas0))
    as (_ & _ & Herr & _ & Hobj & _).
  - reflexivity.
  - reflexivity.
  - intros k. reflexivity.
  - intros ty s. reflexivity.
  - intros st. reflexivity.
  - reflexivity.
  - split; [exact Herr|]. etransitivity; [exact Hobj|]. vm_compute. reflexivity.
Defined.

(** X24.  When the vertex stage does not compile and the fragment stage
    does, the effect ends in the failure exit with the fixed message
    "Shader compilation failed. Check the logs below or code syntax.":
    no temporary shader is created and the driver's log is not shown.
    The fragment shader that did compile stays allocated, after the
    cleanup too. *)
Theorem vertex_failure_keeps_generic_message (b : Browser) (src : jsstring)
    (now : float) (w : World) :
  canvasRef w = true ->
  webgl2 b = true ->
  (forall k, GL.allocates (driver b) k = true) ->
  GL.compiles (driver b) GL.VERTEX_SHADER Webgl.DEFAULT_VERTEX_SHADER = false ->
  GL.compiles (driver b) GL.FRAGMENT_SHADER src = true ->
  liveObjects w !! GL.created (Webgl.ctx (runtime w)) = None ->
  cleanup (fst (mounted b src true now w)) = Some (CleanupFailed (closures w)) /\
  compiled (snd (mounted b src true now w)) = false /\
  error (snd (mounted b src true now w)) =
    Some (lit "Shader compilation failed. Check the logs below or code syntax.") /\
  GL.created (Webgl.ctx (runtime (snd (mounted b src true now w)))) =
    S (S (GL.created (Webgl.ctx (runtime w)))) /\
  liveObjects (snd (mounted b src true now w)) =
    <[ S (GL.created (Webgl.ctx (runtime w))) := GL.OShader GL.FRAGMENT_SHADER src true ]>
      (liveObjects w) /\
  liveObjects (exec (unmount (fst (mounted b src true now w)))
                 (snd (mounted b src true now w))) =
    liveObjects (snd (mounted b src true now w)).
Proof.
  intros Hc Hgl Halloc Hvs Hfs Hfresh.
  destruct w as [[[n os ab va cs] con] cv cr ls cl rc rp rr er cp].
  destruct b as [d gl2 px].
  cbn [canvasRef webgl2 driver liveObjects runtime Webgl.ctx GL.objects
       GL.created closures rafPending] in *.
  subst cr gl2. simulate.
  repeat (progress (rewrite ?Halloc, ?Hvs, ?Hfs, ?lookup_insert_eq,
                      ?(lookup_insert_ne (M := gmap nat)) by lia); simulate).
  do 4 (split; [reflexivity|]). split; [|reflexivity].
  rewrite !insert_insert_eq, delete_insert_eq.
  rewrite delete_id by exact Hfresh. reflexivity.
Qed.

Lemma vertex_failure_keeps_generic_message_witness :
  error (snd (mounted (Samples.browser Samples.noVertex) Samples.snippet true 0%float
                (mount Samples.canvas0))) =
    Some (lit "Shader compilation failed. Check the logs below or code syntax.") /\
  liveObjects (snd (mounted (Samples.browser Samples.noVertex) Samples.snippet true
                      0%float (mount Samples.canvas0))) =
    {[ 1 := GL.OShader GL.FRAGMENT_SHADER Samples.snippet true ]}.
Proof.
  destruct (vertex_failure_keeps_generic_message (Samples.browser Samples.noVertex)
              Samples.snippet 0%float (mount Samples.canvas0))
    as (_ & _ & Herr & _ & Hobj & _).
  - reflexivity.
  - reflexivity.
  - intros k. reflexivity.
  - reflexivity.
  - reflexivity.
  - reflexivity.
  - split; [exact Herr|]. etransitivity; [exact Hobj|]. vm_compute. reflexivity.
Defined.

(** X25.  After a fragment-stage failure the overlay shows the driver's
    log verbatim when it is a non-empty string, and nothing at all when
    the log is [null] or empty: then only the placeholder tells that no
    program runs. *)
Theorem fragment_failure_overlay (b : Browser) (src : jsstring) (now : float)
    (w : World) :
  canvasRef w = true ->
  webgl2 b = true ->
  (forall k, GL.allocates (driver b) k = true) ->
  GL.compiles (driver b) GL.VERTEX_SHADER Webgl.DEFAULT_VERTEX_SHADER = true ->
  GL.compiles (driver b) GL.FRAGMENT_SHADER src = false ->
  view (snd (mounted b src true now w)) =
    {| placeholder := true;
       errorOverlay :=
         match GL.shaderInfoLog (driver b) GL.FRAGMENT_SHADER src with
         | Some (c :: log) => Some (c :: log)
         | _ => None
         end;
       liveBadge := false |}.
Proof.
  intros Hc Hgl Halloc Hvs Hfs.
  destruct w as [[[n os ab va cs] con] cv cr ls cl rc rp rr er cp].
  destruct b as [d gl2 px].
  cbn [canvasRef webgl2 driver] in *. subst cr gl2.
  unfold view. simulate.
  repeat (progress (rewrite ?Halloc, ?Hvs, ?Hfs, ?lookup_insert_eq); simulate).
  destruct (GL.shaderInfoLog d GL.FRAGMENT_SHADER src) as [[|c log]|]; reflexivity.
Qed.

Lemma fragment_failure_overlay_witness :
  view (snd (mounted (Samples.browser (Samples.rejecting (Some []))) Samples.broken true
               0%float (mount Samples.canvas0))) =
    {| placeholder := true; errorOverlay := None; liveBadge := false |}.
Proof.
  apply (fragment_failure_overlay (Samples.browser (Samples.rejecting (Some [])))
           Samples.broken 0%float (mount Samples.canvas0)).
  - reflexivity.
  - reflexivity.
  - intros k. reflexivity.
  - reflexivity.
  - reflexivity.
Defined.

(** X26.  A resize of the window shows in the next frame.  While a
    program is live (its listener registered, its callback pending), a
    [resize] event sets the canvas to the new size in device pixels and
    issues [viewport(0, 0, width, height)]; the frame that follows runs
    [render] with that size, so [u_resolution] receives it.  Nothing else
    is issued and the callback stays pending. *)
Theorem resize_reaches_next_frame (b : Browser) (w : World) (l : nat)
    (cb : RenderClosure) (cw ch : Z) (t : float) :
  listeners w = [l] ->
  rafPending w = [(requestRef w, cb)] ->
  canvas (exec (frame t) (exec (windowResized b cw ch) w)) =
    {| width := devicePixels b cw; height := devicePixels b ch;
       clientWidth := cw; clientHeight := ch |} /\
  glCalls (exec (frame t) (exec (windowResized b cw ch) w)) =
    glCalls w
    ++ [GL.Viewport 0 0 (devicePixels b cw) (devicePixels b ch)]
    ++ renderCalls cb t {| width := devicePixels b cw; height := devicePixels b ch;
                           clientWidth := cw; clientHeight := ch |} /\
  (forall loc, r_resolutionLocation cb = Some loc ->
     In (GL.Uniform2f loc (devicePixels b cw) (devicePixels b ch))
        (glCalls (exec (frame t) (exec (windowResized b cw ch) w)))) /\
  exists id,
    rafPending (exec (frame t) (exec (windowResized b cw ch) w)) = [(id, cb)].
Proof.
  intros Hls Hp.
  assert (Hres : exec (windowResized b cw ch) w =
                 exec (resize b)
                   (with_canvas {| width := width (canvas w); height := height (canvas w);
                                   clientWidth := cw; clientHeight := ch |} w)).
  { unfold windowResized, exec at 1. cbn [snd].
    change (listeners (with_canvas _ w)) with (listeners w). rewrite Hls. reflexivity. }
  set (w1 := with_canvas _ w) in Hres.
  destruct (resize_control b w1) as (_ & _ & Hp' & _ & Hrr' & _ & _ & _ & Hcv & Hcalls).
  assert (Hpend : rafPending (exec (windowResized b cw ch) w) =
                  [(requestRef (exec (windowResized b cw ch) w), cb)]).
  { rewrite Hres, Hp', Hrr'. exact Hp. }
  destruct (PreviewFacts.frame_spec t _ cb Hpend) as (Hfc & Hfp & _ & _ & Hfv).
  rewrite Hfv, Hfc, Hfp, Hres, Hcv, Hcalls. cbn [clientWidth clientHeight canvas w1 with_canvas].
  split; [reflexivity|]. split; [rewrite <- app_assoc; reflexivity|].
  split; [|eexists; reflexivity].
  intros loc Hloc. apply in_or_app. right. unfold renderCalls. rewrite Hloc.
  cbn [width height].
  apply in_or_app. right. destruct (r_timeLocation cb); cbn; auto.
Qed.

Lemma resize_reaches_next_frame_witness :
  In (GL.Uniform2f 1 1600 1200)
     (glCalls (exec (frame 16%float)
                 (exec (windowResized (Samples.browser Samples.healthy) 800 600)
                    (snd (mounted (Samples.browser Samples.healthy) Samples.snippet true
                            0%float (mount Samples.canvas0)))))).
Proof.
  destruct (resize_reaches_next_frame (Samples.browser Samples.healthy)
              (snd (mounted (Samples.browser Samples.healthy) Samples.snippet true
                      0%float (mount Samples.canvas0)))
              0
              {| r_program := 2; r_vao := Some 4; r_timeLocation := Some 0;
                 r_resolutionLocation := Some 1; r_startTime := 0%float |}
              800 600 16%float) as (_ & _ & Hin & _).
  - vm_compute. reflexivity.
  - vm_compute. reflexivity.
  - apply (Hin 1). reflexivity.
Defined.


(** ** Programs *)

Ltac find_program H :=
  repeat (first [ rewrite lookup_insert in H | rewrite lookup_delete in H ];
          case_decide; subst; try discriminate H; try congruence).

(** A program of the context after a run of the effect was there before
    the run, or is the one the cleanup of the success exit deletes. *)
Lemma effect_programs (b : Browser) (src : jsstring) (act : bool) (now : float)
    (w : World) (h : nat) (att : list nat) (ok : bool) :
  liveObjects (snd (effect b src act now w)) !! h = Some (GL.OProgram att ok) ->
  liveObjects w !! h = Some (GL.OProgram att ok) \/
  exists l v f, fst (effect b src act now w) = Some (CleanupLive l h v f).
Proof.
  destruct w as [[[n os ab va cs] con] cv cr ls cl rc rp rr er cp].
  destruct b as [d gl2 px].
  destruct act, cr, gl2; try (simulate; intros H; left; exact H).
  split_driver.
  all: rewrite ?insert_insert_eq.
  all: intros H; find_program H.
  all: try (left; exact H).
  all: right; eexists _, _, _; reflexivity.
Qed.


Lemma cleanup_objects (c : Cleanup) (w : World) :
  liveObjects (exec (runCleanup c) w) =
    match c with
    | CleanupFailed _ => liveObjects w
    | CleanupLive _ p v f => delete f (delete v (delete p (liveObjects w)))
    end.
Proof.
  destruct w as [[[n os ab va cs] con] cv cr ls cl rc rp rr er cp].
  destruct c; simulate; reflexivity.
Qed.

(** After the cleanup of an instance no program is left. *)
Lemma cleanup_no_program (i : Instance) (w : World) (h : nat) (att : list nat)
    (ok : bool) :
  onlyLiveProgram i w ->
  liveObjects (exec (runCleanupOpt (cleanup i)) w) !! h <> Some (GL.OProgram att ok).
Proof.
  intros Hinv Hh. unfold runCleanupOpt in Hh.
  destruct (cleanup i) as [c|] eqn:Ec.
  - rewrite cleanup_objects in Hh. destruct c as [l|l p v f].
    + destruct (Hinv h att ok Hh) as (l' & v' & f' & Hc). congruence.
    + apply lookup_delete_Some in Hh as [_ Hh].
      apply lookup_delete_Some in Hh as [_ Hh].
      apply lookup_delete_Some in Hh as [Hne Hh].
      destruct (Hinv h att ok Hh) as (l' & v' & f' & Hc). congruence.
  - destruct (Hinv h att ok Hh) as (l' & v' & f' & Hc). congruence.
Qed.

Lemma rerender_programs (b : Browser) (src : jsstring) (act : bool) (now : float)
    (i : Instance) (w : World) :
  onlyLiveProgram i w ->
  onlyLiveProgram (fst (rerender b src act now i w)) (snd (rerender b src act now i w)).
Proof.
  intros Hinv. unfold rerender.
  destruct (bool_decide (deps i = (src, act))); [exact Hinv|].
  unfold activate, bind.
  pose proof (fun h att ok => cleanup_no_program i w h att ok Hinv) as Hnone.
  unfold exec in Hnone.
  destruct (runCleanupOpt (cleanup i) w) as [[] w1]. cbn [snd] in Hnone.
  unfold mounted, bind, ret.
  pose proof (fun h att ok => effect_programs b src act now w1 h att ok) as Heff.
  destruct (effect b src act now w1) as [c w2]. cbn [fst snd] in *.
  intros h att ok Hh. cbn [cleanup].
  destruct (Heff h att ok Hh) as [Hold | Hnew]; [|exact Hnew].
  exfalso. exact (Hnone h att ok Hold).
Qed.

Lemma step_programs (b : Browser) (e : Event) (iw : Instance * World) :
  Healthy b (fst iw) (snd iw) ->
  onlyLiveProgram (fst iw) (snd iw) ->
  onlyLiveProgram (fst (step b e iw)) (snd (step b e iw)).
Proof.
  intros H Hinv. destruct iw as [i w].
  destruct e as [src act now | t | cw ch]; cbn [step fst snd] in *.
  - apply rerender_programs. exact Hinv.
  - destruct H as [Hpend _ _ _ _ _ _ _ _].
    destruct (isLive (cleanup i)).
    + destruct Hpend as (cb & Hp & _).
      destruct (PreviewFacts.frame_spec t w cb Hp) as (_ & _ & _ & Ho & _).
      intros h att ok Hh. rewrite Ho in Hh. exact (Hinv h att ok Hh).
    + replace (exec (frame t) w) with w; [exact Hinv|].
      unfold frame, exec. cbn [snd]. rewrite Hpend. cbn [fold_left].
      destruct w. cbn in Hpend. subst. reflexivity.
  - destruct H as [_ Hls _ _ _ _ _ _ _].
    unfold windowResized, exec at 1. cbn [snd].
    set (w1 := with_canvas _ w).
    change (listeners w1) with (listeners w). rewrite Hls.
    destruct (cleanup i) as [c|]; cbn [fold_left].
    + destruct (resize_control b w1) as (_ & _ & _ & _ & _ & _ & _ & Ho & _).
      intros h att ok Hh. rewrite Ho in Hh. exact (Hinv h att ok Hh).
    + exact Hinv.
Qed.

Lemma run_programs (b : Browser) (es : list Event) (iw : Instance * World) :
  Healthy b (fst iw) (snd iw) ->
  onlyLiveProgram (fst iw) (snd iw) ->
  onlyLiveProgram (fst (run b es iw)) (snd (run b es iw)).
Proof.
  revert iw. induction es as [|e es IH]; intros iw H Hinv; [exact Hinv|].
  cbn [run fold_left]. apply IH.
  - apply step_healthy. exact H.
  - apply step_programs; assumption.
Qed.

Lemma mounted_programs (b : Browser) (cv : Canvas) (src : jsstring) (act : bool)
    (now : float) :
  onlyLiveProgram (fst (mounted b src act now (mount cv)))
                  (snd (mounted b src act now (mount cv))).
Proof.
  unfold mounted, bind, ret.
  pose proof (fun h att ok => effect_programs b src act now (mount cv) h att ok) as Heff.
  destruct (effect b src act now (mount cv)) as [c w']. cbn [fst snd] in *.
  intros h att ok Hh. cbn [cleanup].
  destruct (Heff h att ok Hh) as [Hold | Hnew]; [|exact Hnew].
  change (liveObjects (mount cv)) with (∅ : gmap nat GL.Obj) in Hold.
  rewrite lookup_empty in Hold. discriminate Hold.
Qed.

(** X27.  At most one program is allocated at any time.  After any
    sequence of events, a program of the context is the one the current
    cleanup closure deletes, so there is none unless the last run of the
    effect ended in the success exit, two allocated programs are the same
    one, and after an unmount no program is left (whatever else is). *)
Theorem at_most_one_program (b : Browser) (cv : Canvas) (src : jsstring)
    (act : bool) (now : float) (es : list Event) :
  (forall h att ok,
     liveObjects (snd (run b es (mounted b src act now (mount cv)))) !! h =
       Some (GL.OProgram att ok) ->
     exists l v f,
       cleanup (fst (run b es (mounted b src act now (mount cv)))) =
         Some (CleanupLive l h v f)) /\
  (forall h1 att1 ok1 h2 att2 ok2,
     liveObjects (snd (run b es (mounted b src act now (mount cv)))) !! h1 =
       Some (GL.OProgram att1 ok1) ->
     liveObjects (snd (run b es (mounted b src act now (mount cv)))) !! h2 =
       Some (GL.OProgram att2 ok2) ->
     h1 = h2) /\
  (forall h att ok,
     liveObjects (exec (unmount (fst (run b es (mounted b src act now (mount cv)))))
                    (snd (run b es (mounted b src act now (mount cv))))) !! h <>
       Some (GL.OProgram att ok)).
Proof.
  pose proof (run_programs b es _ (mounted_healthy b src act now (mount cv) (mount_quiet b cv))
                (mounted_programs b cv src act now)) as Hinv.
  split; [exact Hinv|]. split.
  - intros h1 att1 ok1 h2 att2 ok2 H1 H2.
    destruct (Hinv _ _ _ H1) as (l1 & v1 & f1 & E1).
    destruct (Hinv _ _ _ H2) as (l2 & v2 & f2 & E2).
    rewrite E1 in E2. injection E2 as _ -> _ _. reflexivity.
  - intros h att ok. unfold unmount. apply cleanup_no_program. exact Hinv.
Qed.


(** X28.  The effect depends on [fragmentCode] and [isActive] only: a
    render with the props of the previous render runs neither the
    cleanup nor the effect, whatever the time, so nothing is recompiled
    and the world is untouched. *)
Theorem same_props_do_not_recompile (b : Browser) (src : jsstring) (act : bool)
    (now later : float) (i : Instance) (w : World) :
  rerender b src act later
    (fst (rerender b src act now i w)) (snd (rerender b src act now i w)) =
  rerender b src act now i w.
Proof.
  unfold rerender at 1.
  rewrite bool_decide_eq_true_2 by apply rerender_deps.
  unfold ret. destruct (rerender b src act now i w). reflexivity.
Qed.

End PreviewMore.
